(** * Golf swing analyzers: a shallow embedding and its properties

    The development follows the Python sources of the repository:
    - [apps/api/enhanced_golf_analyzer.py] (class [EnhancedGolfAnalyzer]):
      quality assessment, feature extraction, confidence weighted voting,
      the single-frame scorer and the program boundary;
    - [apps/api/src/python/advanced_golf_analyzer.py]
      (class [AdvancedGolfAnalyzer]): the swing phase classifier, the
      video fault detector and the weighted video score;
    - [apps/api/src/python/golf_analyzer.py] (class [GolfSwingAnalyzer]):
      the analyzer that caches its last result on the instance;
    - [apps/api/src/python/pro_golf_analyzer.py]: the second single-frame
      scorer.

    Numbers.  Python floats are modelled as exact rationals ([Qc], the
    canonical rationals, so that equal numbers are equal terms) extended
    with the two infinities and NaN.  Rounding error of binary floating
    point is therefore outside the model; the special values, which decide
    several branches of the code, are inside it. *)

From Stdlib Require Import QArith Qcanon Qround ZArith List Ascii String Lia Lqa Permutation.
From stdpp Require Import gmap strings list pretty.

#[local] Open Scope Z_scope.

(* ===================================================================== *)
(** * Python numbers *)
(* ===================================================================== *)

Module PyNum.

(** A float: a finite rational, NaN, or an infinity ([Inf true] is the
    negative one). *)
Inductive pyfloat : Type :=
  | Fin (q : Qc)
  | NaN
  | Inf (neg : bool).

#[global] Instance pyfloat_eq_dec : EqDecision pyfloat.
Proof. solve_decision. Defined.

Definition qc (q : Q) : Qc := Q2Qc q.
Definition of_Z (z : Z) : pyfloat := Fin (Q2Qc (inject_Z z)).
Definition of_nat (n : nat) : pyfloat := of_Z (Z.of_nat n).

Definition qleb (a b : Qc) : bool := Qle_bool a b.
Definition qltb (a b : Qc) : bool := negb (Qle_bool b a).
Definition qeqb (a b : Qc) : bool := Qc_eq_bool a b.

(** Comparisons; every comparison with NaN is false. *)
Definition flt (a b : pyfloat) : bool :=
  match a, b with
  | Fin x, Fin y => qltb x y
  | Fin _, Inf n => negb n
  | Inf n, Fin _ => n
  | Inf n, Inf m => n && negb m
  | _, _ => false
  end.

Definition fle (a b : pyfloat) : bool :=
  match a, b with
  | Fin x, Fin y => qleb x y
  | Fin _, Inf n => negb n
  | Inf n, Fin _ => n
  | Inf n, Inf m => n || negb m
  | _, _ => false
  end.

Definition fgt (a b : pyfloat) : bool := flt b a.
Definition fge (a b : pyfloat) : bool := fle b a.

Definition feqb (a b : pyfloat) : bool :=
  match a, b with
  | Fin x, Fin y => qeqb x y
  | Inf n, Inf m => Bool.eqb n m
  | _, _ => false
  end.

(** Arithmetic.  Signed zeros are not modelled: a zero is positive. *)
Definition fopp (a : pyfloat) : pyfloat :=
  match a with
  | Fin x => Fin (- x)%Qc
  | NaN => NaN
  | Inf n => Inf (negb n)
  end.

Definition fadd (a b : pyfloat) : pyfloat :=
  match a, b with
  | Fin x, Fin y => Fin (x + y)%Qc
  | NaN, _ | _, NaN => NaN
  | Inf n, Inf m => if Bool.eqb n m then Inf n else NaN
  | Inf n, Fin _ | Fin _, Inf n => Inf n
  end.

Definition fsub (a b : pyfloat) : pyfloat := fadd a (fopp b).

Definition fmul (a b : pyfloat) : pyfloat :=
  match a, b with
  | Fin x, Fin y => Fin (x * y)%Qc
  | NaN, _ | _, NaN => NaN
  | Inf n, Inf m => Inf (xorb n m)
  | Inf n, Fin x | Fin x, Inf n =>
      if qeqb x 0%Qc then NaN else Inf (xorb n (qltb x 0%Qc))
  end.

(** numpy scalar division: a division by zero gives NaN or an infinity
    (with a warning), it does not raise. *)
Definition np_div (a b : pyfloat) : pyfloat :=
  match a, b with
  | Fin x, Fin y =>
      if qeqb y 0%Qc
      then (if qeqb x 0%Qc then NaN else Inf (qltb x 0%Qc))
      else Fin (x / y)%Qc
  | NaN, _ | _, NaN => NaN
  | Inf _, Inf _ => NaN
  | Inf n, Fin y => Inf (xorb n (qltb y 0%Qc))
  | Fin _, Inf _ => Fin 0%Qc
  end.

(** Python float division: a division by zero raises ZeroDivisionError,
    here [None]. *)
Definition py_div (a b : pyfloat) : option pyfloat :=
  match b with
  | Fin y => if qeqb y 0%Qc then None else Some (np_div a b)
  | _ => Some (np_div a b)
  end.

Definition fabs (a : pyfloat) : pyfloat :=
  match a with
  | Fin x => Fin (if qltb x 0%Qc then - x else x)%Qc
  | NaN => NaN
  | Inf _ => Inf false
  end.

(** The builtins [min(a, b)] and [max(a, b)]: the first argument is kept
    unless the second is strictly smaller (larger). *)
Definition py_min (a b : pyfloat) : pyfloat := if flt b a then b else a.
Definition py_max (a b : pyfloat) : pyfloat := if fgt b a then b else a.

(** The builtin [sum]: starts at 0 and adds from the left. *)
Definition py_sum (l : list pyfloat) : pyfloat :=
  fold_left fadd l (Fin 0%Qc).

(** [np.mean]: the mean of no value is NaN. *)
Definition np_mean (l : list pyfloat) : pyfloat :=
  np_div (py_sum l) (of_nat (length l)).

(** [max(l, key=k)]: the first element whose key is not exceeded. *)
Definition py_max_by {A} (k : A → pyfloat) (l : list A) : option A :=
  match l with
  | [] => None
  | x :: xs => Some (fold_left (λ best y, if fgt (k y) (k best) then y else best) xs x)
  end.

(** Rounding to the nearest integer, ties to even. *)
Definition round_half_even (q : Q) : Z :=
  let f := Qfloor q in
  let r := (q - inject_Z f)%Q in
  if Qle_bool r (1 # 2)
  then (if Qle_bool (1 # 2) r then (if Z.even f then f else f + 1) else f)
  else f + 1.

(** The builtin [round(x, nd)]. *)
Definition py_round (nd : nat) (a : pyfloat) : pyfloat :=
  match a with
  | Fin x =>
      let p := inject_Z (10 ^ Z.of_nat nd) in
      Fin (Q2Qc (inject_Z (round_half_even (x * p)%Q) / p))
  | _ => a
  end.

End PyNum.
Export PyNum.

(* ===================================================================== *)
(** * The mathematical library *)
(* ===================================================================== *)

(** The square root and the trigonometric functions used by the analyzers
    are not rational.  They are taken as an interface: the functions, and
    the two facts about them that the proofs below use. *)
Class MathLib : Type := {
  (** [math.degrees(math.atan2(y, x))] *)
  atan2_deg : Qc → Qc → Qc;
  (** the square root of a number that is not negative *)
  sqrt : Qc → Qc;
  (** [math.degrees(math.acos(c))] on its domain *)
  acos_deg : Qc → Qc;
  sqrt_0 : sqrt 0%Qc = 0%Qc;
  acos_deg_range : ∀ c : Qc,
    (qc (-1) ≤ c)%Qc → (c ≤ qc 1)%Qc →
    (0 ≤ acos_deg c)%Qc ∧ (acos_deg c ≤ qc 180)%Qc
}.

Section NumpyFunctions.
Context `{MathLib}.

(** [np.linalg.norm([x, y])] *)
Definition norm2 (x y : Qc) : Qc := sqrt (x * x + y * y)%Qc.

(** [np.sqrt]: NaN for a negative number. *)
Definition np_sqrt (a : pyfloat) : pyfloat :=
  match a with
  | Fin x => if qltb x 0%Qc then NaN else Fin (sqrt x)
  | NaN => NaN
  | Inf neg => if neg then NaN else Inf false
  end.

(** [np.std]: the population standard deviation. *)
Definition np_std (l : list pyfloat) : pyfloat :=
  let mean := np_mean l in
  np_sqrt (np_mean (map (λ x, fmul (fsub x mean) (fsub x mean)) l)).

End NumpyFunctions.

(* ===================================================================== *)
(** * Exceptions *)
(* ===================================================================== *)

(** A raised exception: its type name and [str(e)]. *)
Record exn : Type := { exn_type : string; exn_msg : string }.

(** The outcome of code that may raise. *)
Inductive res (A : Type) : Type :=
  | Ok (a : A)
  | Raise (e : exn).
Arguments Ok {A} a.
Arguments Raise {A} e.

#[global] Instance exn_eq_dec : EqDecision exn.
Proof. solve_decision. Defined.
#[global] Instance res_eq_dec {A} `{EqDecision A} : EqDecision (res A).
Proof. solve_decision. Defined.

#[global] Instance res_ret : MRet res := λ A a, Ok a.
#[global] Instance res_bind : MBind res := λ A B f m,
  match m with
  | Ok a => f a
  | Raise e => Raise e
  end.
#[global] Instance res_fmap : FMap res := λ A B f m,
  match m with
  | Ok a => Ok (f a)
  | Raise e => Raise e
  end.

(** [try: body / except Exception as e: handler(e)] *)
Definition try_except {A} (body : res A) (handler : exn → A) : A :=
  match body with
  | Ok a => a
  | Raise e => handler e
  end.

(** [d[key]] on an entry that may be absent. *)
Definition getitem {A} (key : string) (entry : option A) : res A :=
  match entry with
  | Some a => Ok a
  | None => Raise {| exn_type := "KeyError"; exn_msg := "'" +:+ key +:+ "'" |}
  end.

(** [l[i]] *)
Definition list_index {A} (l : list A) (i : nat) : res A :=
  match l !! i with
  | Some a => Ok a
  | None => Raise {| exn_type := "IndexError"; exn_msg := "list index out of range" |}
  end.

(** [a / b] on integers. *)
Definition int_truediv (a b : Z) : res pyfloat :=
  if decide (b = 0)
  then Raise {| exn_type := "ZeroDivisionError"; exn_msg := "division by zero" |}
  else Ok (Fin (Q2Qc (inject_Z a) / Q2Qc (inject_Z b))%Qc).

(** [a / b] on Python floats. *)
Definition float_truediv (a b : pyfloat) : res pyfloat :=
  match py_div a b with
  | Some c => Ok c
  | None => Raise {| exn_type := "ZeroDivisionError";
                     exn_msg := "float division by zero" |}
  end.

(** [max(l)] and [min(l)] on a list that is not empty ([default] stands
    for the empty list, which the callers exclude). *)
Definition py_max_list (default : pyfloat) (l : list pyfloat) : pyfloat :=
  match l with
  | [] => default
  | x :: xs => fold_left py_max xs x
  end.

Definition py_min_list (default : pyfloat) (l : list pyfloat) : pyfloat :=
  match l with
  | [] => default
  | x :: xs => fold_left py_min xs x
  end.

(** [f'{a:.0f}'] *)
Definition format_0f (a : pyfloat) : string :=
  match a with
  | Fin x =>
      let r := round_half_even x in
      if (r =? 0) && qltb x 0%Qc then "-0" else pretty r
  | NaN => "nan"
  | Inf neg => if neg then "-inf" else "inf"
  end.

(* ===================================================================== *)
(** * enhanced_golf_analyzer.py: [EnhancedGolfAnalyzer] *)
(* ===================================================================== *)

Module Enhanced.

(** One pose landmark as the detector returns it.  [visibility] is [None]
    for an object without that attribute (the code asks [hasattr]). *)
Record Landmark : Type := {
  lx : Qc;
  ly : Qc;
  lz : Qc;
  visibility : option Qc
}.

(** The dictionary built by [extract_golf_features]. *)
Record FeatureVector : Type := {
  shoulder_rotation : pyfloat;
  hip_rotation : pyfloat;
  x_factor : pyfloat;
  spine_angle : pyfloat;
  knee_flex : pyfloat;
  confidence : pyfloat
}.

(** The dictionary [voting_info]. *)
Record VotingInfo : Type := {
  num_results : nat;
  total_weight : pyfloat;
  scales_used : list Qc;
  stages_used : list nat
}.

(** The result dictionary of [multi_stage_detection]. *)
Record StageResult : Type := {
  sr_features : FeatureVector;
  sr_threshold_used : Qc;
  sr_stage : nat
}.

(** The same dictionary after [multi_scale_processing] has added ['scale'];
    the voter adds ['voting_info']. *)
Record Attempt : Type := {
  features : FeatureVector;
  threshold_used : Qc;
  stage : nat;
  scale : Qc;
  voting_info : option VotingInfo
}.

#[global] Instance Landmark_eq_dec : EqDecision Landmark.
Proof. solve_decision. Defined.
#[global] Instance FeatureVector_eq_dec : EqDecision FeatureVector.
Proof. solve_decision. Defined.
#[global] Instance VotingInfo_eq_dec : EqDecision VotingInfo.
Proof. solve_decision. Defined.
#[global] Instance StageResult_eq_dec : EqDecision StageResult.
Proof. solve_decision. Defined.
#[global] Instance Attempt_eq_dec : EqDecision Attempt.
Proof. solve_decision. Defined.

(** ** Quality assessment *)

(** What [assess_image_quality] reads off a frame: its shape, the variance
    of its Laplacian and the mean of its gray levels. *)
Record FrameStats : Type := {
  height : N;
  width : N;
  laplacian_var : Qc;
  mean_brightness : Qc
}.

Record QualityInfo : Type := {
  q_total_score : pyfloat;
  q_resolution : string;
  q_sharpness : pyfloat;
  q_brightness : pyfloat;
  quality_level : string
}.

Definition resolution_score (h w : N) : pyfloat :=
  let pixel_count := of_Z (Z.of_N (h * w)) in
  py_min (of_Z 100) (fmul (np_div pixel_count (of_Z (640 * 480))) (of_Z 50)).

Definition sharpness_score (laplacian_var : Qc) : pyfloat :=
  py_min (of_Z 100) (fmul (np_div (Fin laplacian_var) (of_Z 100)) (of_Z 50)).

Definition brightness_score (mean_brightness : Qc) : pyfloat :=
  fsub (of_Z 100)
       (fmul (np_div (fabs (fsub (Fin mean_brightness) (of_Z 128))) (of_Z 128))
             (of_Z 100)).

Definition assess_image_quality (image : FrameStats) : QualityInfo :=
  let h := height image in
  let w := width image in
  let total_score :=
    np_div (fadd (fadd (resolution_score h w)
                       (sharpness_score (laplacian_var image)))
                 (brightness_score (mean_brightness image)))
           (of_Z 3) in
  {| q_total_score := py_round 1 total_score;
     q_resolution := pretty w +:+ "x" +:+ pretty h;
     q_sharpness := py_round 1 (Fin (laplacian_var image));
     q_brightness := py_round 1 (Fin (mean_brightness image));
     quality_level :=
       if fge total_score (of_Z 70) then "high"
       else if fge total_score (of_Z 40) then "medium"
       else "low" |}.

(** ** Geometry *)

Section WithMathLib.
Context `{MathLib}.

(** [np.clip(c, -1.0, 1.0)]; NaN stays NaN. *)
Definition np_clip (c : pyfloat) : pyfloat :=
  match c with
  | NaN => NaN
  | _ => if flt c (Fin (qc (-1))) then Fin (qc (-1))
         else if fgt c (Fin (qc 1)) then Fin (qc 1) else c
  end.

(** [math.degrees(math.acos(c))]: NaN for NaN, ValueError ([None]) outside
    of [-1, 1]. *)
Definition math_acos_deg (c : pyfloat) : option pyfloat :=
  match c with
  | NaN => Some NaN
  | Fin x => if qleb (qc (-1)) x && qleb x (qc 1)
             then Some (Fin (acos_deg x)) else None
  | Inf _ => None
  end.

(** [calculate_angle_3points].  An argument is [None] when the object has
    no coordinates, which raises inside the [try]; whatever is raised
    there gives the default 90. *)
Definition calculate_angle_3points (point1 point2 point3 : option Landmark) : pyfloat :=
  let attempt : option pyfloat :=
    p1 ← point1; p2 ← point2; p3 ← point3;
    let v1x := (lx p1 - lx p2)%Qc in
    let v1y := (ly p1 - ly p2)%Qc in
    let v2x := (lx p3 - lx p2)%Qc in
    let v2y := (ly p3 - ly p2)%Qc in
    let dot := (v1x * v2x + v1y * v2y)%Qc in
    let cos_angle := np_div (Fin dot) (Fin (norm2 v1x v1y * norm2 v2x v2y)%Qc) in
    let cos_angle := np_clip cos_angle in
    math_acos_deg cos_angle in
  match attempt with
  | Some angle => angle
  | None => of_Z 90
  end.

(** [extract_golf_features]; [None] when the body raised (a missing
    landmark index). *)
Definition extract_golf_features (landmarks : list Landmark) : option FeatureVector :=
  left_shoulder ← landmarks !! 11%nat;
  right_shoulder ← landmarks !! 12%nat;
  left_hip ← landmarks !! 23%nat;
  right_hip ← landmarks !! 24%nat;
  left_knee ← landmarks !! 25%nat;
  right_knee ← landmarks !! 26%nat;
  left_ankle ← landmarks !! 27%nat;
  right_ankle ← landmarks !! 28%nat;
  let shoulder_dx := (lx right_shoulder - lx left_shoulder)%Qc in
  let shoulder_dy := (ly right_shoulder - ly left_shoulder)%Qc in
  let shoulder_rotation := Fin (atan2_deg shoulder_dy shoulder_dx) in
  let hip_dx := (lx right_hip - lx left_hip)%Qc in
  let hip_dy := (ly right_hip - ly left_hip)%Qc in
  let hip_rotation := Fin (atan2_deg hip_dy hip_dx) in
  let x_factor := fabs (fsub shoulder_rotation hip_rotation) in
  let mid_shoulder_x := ((lx left_shoulder + lx right_shoulder) / qc 2)%Qc in
  let mid_shoulder_y := ((ly left_shoulder + ly right_shoulder) / qc 2)%Qc in
  let mid_hip_x := ((lx left_hip + lx right_hip) / qc 2)%Qc in
  let mid_hip_y := ((ly left_hip + ly right_hip) / qc 2)%Qc in
  let qabs (x : Qc) := (if qltb x 0 then - x else x)%Qc in
  let spine_angle :=
    Fin (atan2_deg (qabs (mid_shoulder_x - mid_hip_x)%Qc)
                   (qabs (mid_hip_y - mid_shoulder_y)%Qc)) in
  let left_knee_angle :=
    calculate_angle_3points (Some left_hip) (Some left_knee) (Some left_ankle) in
  let right_knee_angle :=
    calculate_angle_3points (Some right_hip) (Some right_knee) (Some right_ankle) in
  let avg_knee_flex :=
    fsub (of_Z 180) (np_div (fadd left_knee_angle right_knee_angle) (of_Z 2)) in
  let key_landmarks :=
    [left_shoulder; right_shoulder; left_hip; right_hip; left_knee; right_knee] in
  let visibility_scores := omap visibility key_landmarks in
  let avg_confidence :=
    match visibility_scores with
    | [] => Fin (qc 0.8)
    | _ => np_mean (Fin <$> visibility_scores)
    end in
  Some {| shoulder_rotation := shoulder_rotation;
          hip_rotation := hip_rotation;
          x_factor := x_factor;
          spine_angle := spine_angle;
          knee_flex := avg_knee_flex;
          confidence := avg_confidence |}.

End WithMathLib.

(** ** Confidence weighted voting *)

Definition conf (r : Attempt) : pyfloat := confidence (features r).

(** [sum(r['features'][key] * r['features']['confidence'] for r in results)] *)
Definition weighted_sum (key : FeatureVector → pyfloat) (results : list Attempt) : pyfloat :=
  py_sum (map (λ r, fmul (key (features r)) (conf r)) results).

Definition vote_total_weight (results : list Attempt) : pyfloat :=
  py_sum (map conf results).

(** [best_result['features'].update(weighted_angles)] *)
Definition update_angles (f : FeatureVector) (wa : (FeatureVector → pyfloat) → pyfloat) : FeatureVector :=
  {| shoulder_rotation := wa shoulder_rotation;
     hip_rotation := wa hip_rotation;
     x_factor := wa x_factor;
     spine_angle := wa spine_angle;
     knee_flex := wa knee_flex;
     confidence := confidence f |}.

(** [confidence_weighted_voting]; [None] is Python's [None]. *)
Definition confidence_weighted_voting (results : list Attempt) : option Attempt :=
  match results with
  | [] => None
  | first :: _ =>
      let total_weight := vote_total_weight results in
      if feqb total_weight (of_Z 0) then Some first
      else
        let weighted_angles key := np_div (weighted_sum key results) total_weight in
        best_result ← py_max_by conf results;
        Some {| features := update_angles (features best_result) weighted_angles;
                threshold_used := threshold_used best_result;
                stage := stage best_result;
                scale := scale best_result;
                voting_info := Some {|
                  num_results := length results;
                  total_weight := py_round 3 total_weight;
                  scales_used := map scale results;
                  stages_used := map stage results |} |}
  end.

(** ** The single-frame scorer *)

Definition between (lo : Z) (x : pyfloat) (hi : Z) : bool :=
  fle (of_Z lo) x && fle x (of_Z hi).

(** [calculate_enhanced_score]; [features] is [None] for a falsy argument
    ([None] or an empty dictionary). *)
Definition calculate_enhanced_score (features : option FeatureVector) (quality_level : string) : Z :=
  match features with
  | None => 65
  | Some features =>
      let base_score := 88 in
      let x_factor := x_factor features in
      let base_score :=
        if between 40 x_factor 50 then base_score + 8
        else if between 30 x_factor 60 then base_score + 5
        else if between 25 x_factor 65 then base_score + 2
        else base_score - 3 in
      let spine := spine_angle features in
      let base_score :=
        if between 20 spine 30 then base_score + 6
        else if between 15 spine 35 then base_score + 3
        else base_score in
      let knee := knee_flex features in
      let base_score :=
        if between 20 knee 35 then base_score + 3 else base_score in
      let confidence := confidence features in
      let base_score :=
        if fgt confidence (Fin (qc 0.9)) then base_score + 6
        else if fgt confidence (Fin (qc 0.8)) then base_score + 4
        else if fgt confidence (Fin (qc 0.7)) then base_score + 2
        else base_score in
      let base_score :=
        if String.eqb quality_level "high" then base_score + 3
        else if String.eqb quality_level "medium" then base_score + 1
        else base_score in
      Z.max 78 (Z.min 96 base_score)
  end.

(** ** Strings at the program boundary

    A Python [str] is held as its UTF-8 encoding: a character is one byte
    (ASCII) or a lead byte followed by continuation bytes. *)

Definition chars (s : string) : list ascii := list_ascii_of_string s.
Definition of_chars (l : list ascii) : string := string_of_list_ascii l.

Definition is_one_of (cs : string) (a : ascii) : bool :=
  existsb (Ascii.eqb a) (chars cs).

(** A byte [10xxxxxx], which continues a character. *)
Definition is_continuation (a : ascii) : bool :=
  match a with
  | Ascii _ _ _ _ _ _ b6 b7 => b7 && negb b6
  end.

(** [len(s)]: the number of characters. *)
Definition py_len (s : string) : nat :=
  length (filter (λ a, negb (is_continuation a)) (chars s)).

(** [s.split(sep)] for a separator of one ASCII character. *)
Fixpoint split_chars (sep : ascii) (cur : list ascii) (l : list ascii) : list string :=
  match l with
  | [] => [of_chars (rev cur)]
  | a :: l' =>
      if Ascii.eqb a sep then of_chars (rev cur) :: split_chars sep [] l'
      else split_chars sep (a :: cur) l'
  end.

Definition py_split (sep : ascii) (s : string) : list string :=
  split_chars sep [] (chars s).

(** [s.replace(c, '')] for each ASCII character [c] of [cs]. *)
Definition remove_chars (cs : string) (s : string) : string :=
  of_chars (filter (λ a, negb (is_one_of cs a)) (chars s)).

(** The characters that [str.strip] removes (those with [str.isspace]),
    each by the bytes of its encoding: U+0009 to U+000D, U+001C to U+0020,
    U+0085, U+00A0, U+1680, U+2000 to U+200A, U+2028, U+2029, U+202F,
    U+205F and U+3000. *)
Definition whitespace_codes : list (list nat) :=
  [[9]; [10]; [11]; [12]; [13]; [28]; [29]; [30]; [31]; [32];
   [194; 133]; [194; 160]; [225; 154; 128];
   [226; 128; 128]; [226; 128; 129]; [226; 128; 130]; [226; 128; 131];
   [226; 128; 132]; [226; 128; 133]; [226; 128; 134]; [226; 128; 135];
   [226; 128; 136]; [226; 128; 137]; [226; 128; 138];
   [226; 128; 168]; [226; 128; 169]; [226; 128; 175];
   [226; 129; 159]; [227; 128; 128]]%nat.

Definition whitespace_chars : list (list ascii) :=
  map (map ascii_of_nat) whitespace_codes.

Fixpoint starts_with (p l : list ascii) : bool :=
  match p, l with
  | [], _ => true
  | a :: p', b :: l' => Ascii.eqb a b && starts_with p' l'
  | _ :: _, [] => false
  end.

(** Removes the characters of [ws] at the start of [l], at most [fuel] of
    them. *)
Fixpoint lstrip_chars (ws : list (list ascii)) (fuel : nat) (l : list ascii)
    : list ascii :=
  match fuel with
  | O => l
  | S fuel' =>
      match List.find (λ w, starts_with w l) ws with
      | Some w => lstrip_chars ws fuel' (drop (length w) l)
      | None => l
      end
  end.

(** [s.strip()]: the whitespace at the start is removed, then the
    whitespace at the end (read backwards). *)
Definition py_strip (s : string) : string :=
  let l := lstrip_chars whitespace_chars (length (chars s)) (chars s) in
  of_chars (rev (lstrip_chars (map (@rev ascii) whitespace_chars) (length l) (rev l))).

(** ['=' * n] *)
Definition equals_signs (n : nat) : string := of_chars (replicate n "="%char).

(** ** The detector and the image library *)

(** The collaborators of [analyze_enhanced], for frames of type [Image]:
    what each call returns, or the exception it raises. *)
Class Vision (Image : Type) : Type := {
  (** [base64.b64decode(s, validate=True)] *)
  b64decode : string → res string;
  (** [cv2.imdecode(np.frombuffer(data, np.uint8), cv2.IMREAD_COLOR)];
      [None] when the result is [None] or an empty array. *)
  imdecode : string → res (option Image);
  (** the shape, Laplacian variance and mean gray level of a frame *)
  frame_stats : Image → res FrameStats;
  (** the pixel operations of [optimize_lighting_conditions] *)
  optimize_lighting_conditions : Image → res Image;
  (** [cv2.resize] to [scale] times the size, [INTER_CUBIC] *)
  resize : Image → Qc → res Image;
  (** [Pose(min_detection_confidence=threshold, ...).process(frame)]:
      the landmarks, or [None] when no pose was found *)
  pose_process : Image → Qc → res (option (list Landmark))
}.

(** ** The analysis *)

Record Pose : Type := {
  shoulderRotation : pyfloat;
  hipRotation : pyfloat;
  xFactor : pyfloat;
  spineAngle : pyfloat;
  kneeFlex : pyfloat
}.

Record ProcessingInfo : Type := {
  enhancement_level : string;
  scales_tested : nat;
  voting_results : VotingInfo;
  best_scale : Qc;
  best_threshold : Qc;
  processing_stage : nat
}.

(** The dictionary of a successful analysis.  Its constant entries
    (['success'], ['detected'], ['enhanced'], ['isReal']) and its two lists
    of texts (['feedback'], ['improvements']) are left out. *)
Record Analysis : Type := {
  score : Z;
  pose : Pose;
  a_confidence : pyfloat;
  a_quality_info : QualityInfo;
  processing_info : ProcessingInfo;
  a_method : string
}.

(** The dictionary returned by [analyze_enhanced]: with ['success': False]
    and an ['error'] text (and, depending on the place, ['enhanced'],
    ['quality_info'] and ['method']), or with ['success': True]. *)
Inductive AnalysisResult : Type :=
  | Failure (error : string) (enhanced : option bool)
            (quality_info : option QualityInfo) (method : option string)
  | Success (a : Analysis).

Definition success (r : AnalysisResult) : bool :=
  match r with
  | Failure _ _ _ _ => false
  | Success _ => true
  end.

Definition error (r : AnalysisResult) : option string :=
  match r with
  | Failure e _ _ _ => Some e
  | Success _ => None
  end.

Definition confidence_thresholds : list Qc :=
  [qc 0.1; qc 0.15; qc 0.2; qc 0.25; qc 0.3].

Definition scales : list Qc := [qc 0.8; qc 1.0; qc 1.2].

Definition no_pose_message : string :=
  "Enhanced AI가 모든 스케일에서 골프 자세를 감지하지 못했습니다".


Section Pipeline.
Context `{MathLib} {Image : Type} `{Vision Image} `{Json}.

(** One turn of the loop of [multi_stage_detection]: stage [i] (counted
    from 0) at [threshold].  What [process] raises is caught and the stage
    is skipped.  Making and closing the [Pose] object is taken not to
    raise. *)
Definition detection_stage (image : Image)
    (state : option StageResult * pyfloat) (i : nat) (threshold : Qc)
    : option StageResult * pyfloat :=
  let '(best_result, best_confidence) := state in
  match pose_process image threshold with
  | Ok (Some landmarks) =>
      match extract_golf_features landmarks with
      | Some features =>
          if fgt (confidence features) best_confidence
          then (Some {| sr_features := features;
                        sr_threshold_used := threshold;
                        sr_stage := i + 1 |},
                confidence features)
          else state
      | None => state
      end
  | Ok None => state
  | Raise _ => state
  end.

Fixpoint detection_stages (image : Image) (state : option StageResult * pyfloat)
    (i : nat) (thresholds : list Qc) : option StageResult * pyfloat :=
  match thresholds with
  | [] => state
  | threshold :: rest =>
      detection_stages image (detection_stage image state i threshold) (S i) rest
  end.

(** [multi_stage_detection] *)
Definition multi_stage_detection (image : Image) : option StageResult :=
  fst (detection_stages image (None, of_Z 0) 0 confidence_thresholds).

(** [multi_scale_processing]; a failing [cv2.resize] is not caught here. *)
Fixpoint multi_scale_loop (image : Image) (scales : list Qc) (results : list Attempt)
    : res (list Attempt) :=
  match scales with
  | [] => Ok results
  | scale :: rest =>
      scaled_image ← (if qeqb scale (qc 1.0) then Ok image else resize image scale);
      match multi_stage_detection scaled_image with
      | Some result =>
          multi_scale_loop image rest
            (results ++ [{| features := sr_features result;
                            threshold_used := sr_threshold_used result;
                            stage := sr_stage result;
                            scale := scale;
                            voting_info := None |}])
      | None => multi_scale_loop image rest results
      end
  end.

Definition multi_scale_processing (image : Image) : res (list Attempt) :=
  multi_scale_loop image scales [].

(** The body of the outer [try] of [analyze_enhanced]. *)
Definition analyze_enhanced_body (base64_image : string) : res AnalysisResult :=
  base64_image ←
    (if String.prefix "data:" base64_image
     then list_index (py_split ","%char base64_image) 1
     else Ok base64_image);
  let base64_image :=
    remove_chars (String "010" (String "013" (String " " (String "009" ""))))
                 base64_image in
  let missing_padding := (py_len base64_image mod 4)%nat in
  let base64_image :=
    if decide (missing_padding = 0%nat) then base64_image
    else base64_image +:+ equals_signs (4 - missing_padding) in
  match b64decode base64_image with
  | Raise e => Ok (Failure ("Base64 디코딩 실패: " +:+ exn_msg e) None None None)
  | Ok image_data =>
      image ← imdecode image_data;
      match image with
      | None => Ok (Failure "이미지 디코딩 실패 또는 빈 이미지" None None None)
      | Some image =>
          stats ← frame_stats image;
          let quality_info := assess_image_quality stats in
          optimized_image ← optimize_lighting_conditions image;
          multi_scale_results ← multi_scale_processing optimized_image;
          match multi_scale_results with
          | [] => Ok (Failure no_pose_message (Some true) (Some quality_info)
                              (Some "Enhanced MediaPipe AI - Detection Failed"))
          | _ =>
              match confidence_weighted_voting multi_scale_results with
              | None => Ok (Failure "투표 과정에서 오류 발생" None None None)
              | Some final_result =>
                  let features := features final_result in
                  let enhanced_score :=
                    calculate_enhanced_score (Some features)
                                             (quality_level quality_info) in
                  voting_info ← getitem "voting_info" (voting_info final_result);
                  Ok (Success {|
                    score := enhanced_score;
                    pose := {|
                      shoulderRotation := py_round 1 (shoulder_rotation features);
                      hipRotation := py_round 1 (hip_rotation features);
                      xFactor := py_round 1 (x_factor features);
                      spineAngle := py_round 1 (spine_angle features);
                      kneeFlex := py_round 1 (knee_flex features) |};
                    a_confidence := py_round 1 (fmul (confidence features) (of_Z 100));
                    a_quality_info := quality_info;
                    processing_info := {|
                      enhancement_level := "Phase1_QuickWins";
                      scales_tested := length multi_scale_results;
                      voting_results := voting_info;
                      best_scale := scale final_result;
                      best_threshold := threshold_used final_result;
                      processing_stage := stage final_result |};
                    a_method := "Enhanced MediaPipe AI Analysis" |})
              end
          end
      end
  end.

(** [analyze_enhanced]: whatever the body raises is turned into a failure
    dictionary. *)
Definition analyze_enhanced (base64_image : string) : AnalysisResult :=
  try_except (analyze_enhanced_body base64_image)
    (λ e, Failure ("Enhanced 분석 시스템 오류: " +:+ exn_msg e) (Some true) None
                  (Some "Enhanced Golf Analyzer Error")).

(** ** The program boundary *)




End Pipeline.

End Enhanced.

(* ===================================================================== *)
(** * pro_golf_analyzer.py: [ProGolfAnalyzer] *)
(* ===================================================================== *)

Module Pro.

(** The entries of the feature dictionary of [analyze_golf_pose] that the
    scorer reads. *)
Record ProFeatures : Type := {
  x_factor : pyfloat;
  spine_angle : pyfloat;
  knee_flex : pyfloat;
  weight_distribution : pyfloat;
  hands_together : bool;
  hand_height : pyfloat;
  head_stability : bool;
  confidence : pyfloat
}.

(** [self.ideal_angles['backswing']['x_factor']] and
    [self.ideal_angles['address']['spine_tilt']] *)
Definition ideal_x_factor : Z := 45.
Definition ideal_spine_tilt : Z := 25.

(** [determine_swing_phase] *)
Definition determine_swing_phase (features : ProFeatures) : string :=
  if hands_together features && fgt (hand_height features) (Fin (qc 0.6)) then
    (if fgt (x_factor features) (of_Z 30) then "backswing" else "address")
  else if flt (x_factor features) (of_Z 20) then "impact"
  else "downswing".

(** The score returned by [calculate_pro_score] (the first component of
    its result; the feedback and improvement texts are left out).
    [features] is [None] for a falsy argument. *)
Definition calculate_pro_score (features : option ProFeatures) : Z :=
  match features with
  | None => 60
  | Some features =>
      let score := 85 in
      let x_diff := fabs (fsub (x_factor features) (of_Z ideal_x_factor)) in
      let score :=
        if fle x_diff (of_Z 5) then score + 10
        else if fle x_diff (of_Z 10) then score + 5
        else if fle x_diff (of_Z 20) then score - 5
        else score - 10 in
      let spine_diff := fabs (fsub (spine_angle features) (of_Z ideal_spine_tilt)) in
      let score :=
        if fle spine_diff (of_Z 5) then score + 5
        else if fle spine_diff (of_Z 15) then score - 3
        else score - 7 in
      let knee := knee_flex features in
      let score :=
        if fle (of_Z 20) knee && fle knee (of_Z 35) then score + 3
        else if flt knee (of_Z 15) then score - 5
        else if fgt knee (of_Z 40) then score - 5
        else score in
      let weight := weight_distribution features in
      let score :=
        if fle (Fin (qc 0.9)) weight && fle weight (Fin (qc 1.1)) then score + 3
        else score - 3 in
      let score := if head_stability features then score + 2 else score - 5 in
      let score :=
        if fgt (confidence features) (Fin (qc 0.9)) then score + 5
        else if fgt (confidence features) (Fin (qc 0.8)) then score + 3
        else score in
      Z.max 70 (Z.min 95 score)
  end.

(** ** Faults *)

Record Fault : Type := {
  f_type : string;
  f_severity : string;
  f_message : string;
  f_fix : string
}.

#[global] Instance Fault_eq_dec : EqDecision Fault.
Proof. solve_decision. Defined.

(** [detect_swing_faults] *)
Definition detect_swing_faults (features : ProFeatures) : list Fault :=
  let faults : list Fault := [] in
  let faults :=
    if flt (x_factor features) (of_Z 30) then
      faults ++ [{| f_type := "insufficient_turn"; f_severity := "medium";
                    f_message := "상체 회전 부족";
                    f_fix := "어깨를 더 많이 돌리세요" |}]
    else if fgt (x_factor features) (of_Z 60) then
      faults ++ [{| f_type := "over_turn"; f_severity := "low";
                    f_message := "과도한 상체 회전";
                    f_fix := "어깨 회전을 줄이세요" |}]
    else faults in
  let faults :=
    if fgt (spine_angle features) (of_Z 35) then
      faults ++ [{| f_type := "excessive_spine_tilt"; f_severity := "high";
                    f_message := "과도한 척추 기울기";
                    f_fix := "상체를 더 세우세요" |}]
    else if flt (spine_angle features) (of_Z 15) then
      faults ++ [{| f_type := "insufficient_spine_tilt"; f_severity := "medium";
                    f_message := "척추 기울기 부족";
                    f_fix := "상체를 약간 앞으로 기울이세요" |}]
    else faults in
  let faults :=
    if fgt (knee_flex features) (of_Z 40) then
      faults ++ [{| f_type := "excessive_knee_flex"; f_severity := "medium";
                    f_message := "과도한 무릎 굽힘";
                    f_fix := "무릎을 덜 굽히세요" |}]
    else if flt (knee_flex features) (of_Z 15) then
      faults ++ [{| f_type := "insufficient_knee_flex"; f_severity := "high";
                    f_message := "무릎 굽힘 부족";
                    f_fix := "무릎을 더 굽히세요" |}]
    else faults in
  let faults :=
    if flt (weight_distribution features) (Fin (qc 0.8)) then
      faults ++ [{| f_type := "weight_left"; f_severity := "medium";
                    f_message := "체중이 왼쪽으로 치우침";
                    f_fix := "체중을 중앙으로 분배하세요" |}]
    else if fgt (weight_distribution features) (Fin (qc 1.2)) then
      faults ++ [{| f_type := "weight_right"; f_severity := "medium";
                    f_message := "체중이 오른쪽으로 치우침";
                    f_fix := "체중을 중앙으로 분배하세요" |}]
    else faults in
  if negb (head_stability features) then
    faults ++ [{| f_type := "head_movement"; f_severity := "high";
                  f_message := "머리 움직임";
                  f_fix := "머리를 고정하고 스윙하세요" |}]
  else faults.

(** ** Geometry *)

(** The coordinates of a landmark that [calculate_angle_3points] reads. *)
Record Point : Type := {
  px : Qc;
  py : Qc
}.

Section ProGeometry.
Context `{MathLib}.

(** [math.degrees(np.arccos(c))] on a numpy scalar: NaN (with a warning)
    outside of [-1, 1], no exception. *)
Definition np_arccos_deg (c : pyfloat) : pyfloat :=
  match c with
  | Fin x => if qleb (qc (-1)) x && qleb x (qc 1) then Fin (acos_deg x) else NaN
  | _ => NaN
  end.

(** [calculate_angle_3points]: the product of the lengths gets 1e-6 added
    before the division. *)
Definition calculate_angle_3points (p1 p2 p3 : Point) : pyfloat :=
  let v1x := (px p1 - px p2)%Qc in
  let v1y := (py p1 - py p2)%Qc in
  let v2x := (px p3 - px p2)%Qc in
  let v2y := (py p3 - py p2)%Qc in
  let dot := (v1x * v2x + v1y * v2y)%Qc in
  let cosine :=
    np_div (Fin dot) (Fin (norm2 v1x v1y * norm2 v2x v2y + qc (1 # 1000000))%Qc) in
  np_arccos_deg (Enhanced.np_clip cosine).

End ProGeometry.

(** ** The frames of a video *)

(** [range(start, stop, step)] for a step above zero. *)
Definition py_range (start stop step : Z) : list Z :=
  map (λ k, start + Z.of_nat k * step)
      (seq 0 (Z.to_nat ((stop - start + step - 1) / step))).

(** [frame_interval] in [analyze_video]: [max(1, frame_count // 20)] *)
Definition frame_interval (frame_count : Z) : Z := Z.max 1 (frame_count / 20).

(** An entry of [frame_results]: the number and the time of the frame,
    and what [analyze_video_frame] found in it. *)
Record FrameResult (Result : Type) : Type := {
  frame_number : Z;
  timestamp : pyfloat;
  frame_result : Result
}.
Arguments frame_number {Result} _.
Arguments timestamp {Result} _.
Arguments frame_result {Result} _.

Section FrameLoop.
Context {Frame Result : Type}.

(** [cap.set(cv2.CAP_PROP_POS_FRAMES, i)] followed by [cap.read()]:
    [None] when [ret] is false; what OpenCV raises is raised. *)
Variable read_frame : Z → res (option Frame).

(** [analyze_video_frame]: the features of the frame, with [frame_valid]
    true, or [None] when no pose was found or something was raised
    inside. *)
Variable analyze_video_frame : Frame → option Result.

(** The loop over the frames in [analyze_video]: it ends at the first
    frame that cannot be read, and keeps the frames with a result. *)
Fixpoint frame_loop (fps : pyfloat) (indices : list Z)
    (frame_results : list (FrameResult Result)) : res (list (FrameResult Result)) :=
  match indices with
  | [] => Ok frame_results
  | i :: indices =>
      frame ← read_frame i;
      match frame with
      | None => Ok frame_results
      | Some frame =>
          match analyze_video_frame frame with
          | Some result =>
              timestamp ←
                (if fgt fps (of_Z 0) then float_truediv (of_Z i) fps else Ok (of_Z 0));
              frame_loop fps indices
                (frame_results ++ [{| frame_number := i; timestamp := timestamp;
                                      frame_result := result |}])
          | None => frame_loop fps indices frame_results
          end
      end
  end.

(** [frame_results] after the loop
    [for i in range(0, frame_count, frame_interval)]. *)
Definition analyze_video_frames (frame_count : Z) (fps : pyfloat) :
    res (list (FrameResult Result)) :=
  frame_loop fps (py_range 0 frame_count (frame_interval frame_count)) [].

End FrameLoop.

End Pro.

(* ===================================================================== *)
(** * advanced_golf_analyzer.py: [AdvancedGolfAnalyzer] *)
(* ===================================================================== *)

Module Advanced.

(** The numeric entries of the dictionary built by
    [calculate_advanced_angles], by key.  (Its entry ['kinematic_timing'],
    a dictionary, is read by none of the functions below.) *)
Abbreviation Angles := (gmap string pyfloat).

(** A landmark dictionary: ['x'], ['y'], ['z'], ['visibility']; and the
    dictionary of a frame: ['pose_0'], ['pose_1'], ... *)
Abbreviation LandmarkDict := (gmap string pyfloat).
Abbreviation FrameLandmarks := (gmap string (gmap string pyfloat)).

(** [d.get(key, default)] *)
Definition get {A} (d : gmap string A) (key : string) (default : A) : A :=
  match d !! key with
  | Some a => a
  | None => default
  end.

(** Truth value of a dictionary. *)
Definition nonempty {A} (d : gmap string A) : bool :=
  negb (bool_decide (d = ∅)).

(** ** The random number generator

    The state of numpy's global generator: the stream of uniform samples
    of [0, 1) still to come, and how many have been drawn. *)
Record RandomState : Type := {
  draws : nat → Qc;
  position : nat
}.

(** [np.random.uniform(low, high)] *)
Definition random_uniform (low high : Qc) (rng : RandomState) : Qc * RandomState :=
  ((low + (high - low) * draws rng (position rng))%Qc,
   {| draws := draws rng; position := S (position rng) |}).

(** ** The swing phase classifier *)

(** [detect_swing_phase_ml]; the division raises for [total_frames = 0]
    (already where the unused list [features] is built). *)
Definition detect_swing_phase_ml (angles : Angles) (frame_num total_frames : Z)
    : res string :=
  let shoulder_rot := get angles "shoulder_rotation" (of_Z 0) in
  progress ← int_truediv frame_num total_frames;
  Ok (if flt progress (Fin (qc 0.05)) then "address"
      else if flt progress (Fin (qc 0.15)) && flt shoulder_rot (of_Z 30) then "takeaway"
      else if flt progress (Fin (qc 0.4)) && flt shoulder_rot (of_Z 70) then "backswing"
      else if flt progress (Fin (qc 0.5)) && fge shoulder_rot (of_Z 70) then "top"
      else if flt progress (Fin (qc 0.55)) then "transition"
      else if flt progress (Fin (qc 0.6)) then "downswing"
      else if flt progress (Fin (qc 0.65)) then "impact"
      else if flt progress (Fin (qc 0.8)) then "follow_through"
      else "finish").

(** ** Faults *)

Record Fault : Type := {
  f_type : string;
  f_severity : string;
  f_value : pyfloat;
  f_message : string;
  f_fix : string
}.

#[global] Instance Fault_eq_dec : EqDecision Fault.
Proof. solve_decision. Defined.

(** [[all_angles[i] for i, p in enumerate(swing_phases) if test(p)]] *)
Fixpoint angles_of_phase (test : string → bool) (all_angles : list Angles)
    (i : nat) (swing_phases : list string) : res (list Angles) :=
  match swing_phases with
  | [] => Ok []
  | p :: rest =>
      if test p then
        a ← list_index all_angles i;
        l ← angles_of_phase test all_angles (S i) rest;
        Ok (a :: l)
      else angles_of_phase test all_angles (S i) rest
  end.

(** [check_lateral_movement]: a sample of the random generator. *)
Definition check_lateral_movement (all_angles : list Angles) (rng : RandomState)
    : Qc * RandomState :=
  random_uniform 0%Qc (qc 0.15) rng.

(** [detect_advanced_faults], with the state of the random generator
    before and after. *)
Definition detect_advanced_faults (all_angles : list Angles)
    (swing_phases : list string) (rng : RandomState)
    : res (list Fault * RandomState) :=
  let faults : list Fault := [] in
  top_angles ← angles_of_phase (String.eqb "top") all_angles 0 swing_phases;
  let faults :=
    match top_angles with
    | [] => faults
    | _ =>
        let max_shoulder :=
          py_max_list (of_Z 0) (map (λ a, get a "shoulder_rotation" (of_Z 0)) top_angles) in
        if fgt max_shoulder (of_Z 110) then
          faults ++ [{| f_type := "over_swing";
                        f_severity := "medium";
                        f_value := max_shoulder;
                        f_message := "백스윙이 너무 큽니다 (" +:+ format_0f max_shoulder +:+ "도)";
                        f_fix := "백스윙을 90-100도로 제한하세요" |}]
        else faults
    end in
  impact_angles ← angles_of_phase (String.eqb "impact") all_angles 0 swing_phases;
  let faults :=
    let spine_change (angles : Angles) :=
      fabs (fsub (get angles "spine_angle" (of_Z 30)) (of_Z 30)) in
    match List.find (λ angles, fgt (spine_change angles) (of_Z 10)) impact_angles with
    | Some angles =>
        faults ++ [{| f_type := "early_extension";
                      f_severity := "high";
                      f_value := spine_change angles;
                      f_message := "임팩트시 상체가 일어섭니다";
                      f_fix := "척추각을 유지하며 회전하세요" |}]
    | None => faults
    end in
  address_angles ← angles_of_phase (String.eqb "address") all_angles 0 swing_phases;
  backswing_angles ← angles_of_phase (String.eqb "backswing") all_angles 0 swing_phases;
  let '(faults, rng) :=
    match address_angles, backswing_angles with
    | _ :: _, _ :: _ =>
        let '(lateral_movement, rng) := check_lateral_movement all_angles rng in
        if qltb (qc 0.1) lateral_movement then
          (faults ++ [{| f_type := "sway";
                         f_severity := "high";
                         f_value := Fin (lateral_movement * qc 100)%Qc;
                         f_message := "백스윙시 스웨이 발생 ("
                                    +:+ format_0f (Fin (lateral_movement * qc 100)%Qc)
                                    +:+ "%)";
                         f_fix := "중심축을 유지하며 회전하세요" |}],
           rng)
        else (faults, rng)
    | _, _ => (faults, rng)
    end in
  transition_angles ←
    angles_of_phase (λ p, String.eqb p "transition" || String.eqb p "downswing")
                    all_angles 0 swing_phases;
  let faults :=
    let wrist_angle (angles : Angles) := get angles "wrist_hinge" (of_Z 90) in
    match List.find (λ angles, flt (wrist_angle angles) (of_Z 70)) transition_angles with
    | Some angles =>
        faults ++ [{| f_type := "casting";
                      f_severity := "high";
                      f_value := wrist_angle angles;
                      f_message := "다운스윙 초기에 캐스팅이 발생합니다";
                      f_fix := "손목 각도를 유지하며 다운스윙하세요" |}]
    | None => faults
    end in
  Ok (faults, rng).

(** ** The weighted score *)

(** The argument of [calculate_weighted_score]: ['phase_scores'] is a
    dictionary or a number; the other entries are read with [get] and may
    be absent. *)
Record Components : Type := {
  phase_scores : gmap string pyfloat + pyfloat;
  tempo_score : option pyfloat;
  consistency_score : option pyfloat;
  biomechanics_score : option pyfloat;
  fault_penalty : option Z
}.

(** [list(d.values())] *)
Definition values (d : gmap string pyfloat) : list pyfloat :=
  snd <$> map_to_list d.

(** [calculate_weighted_score] *)
Definition calculate_weighted_score (components : Components) : pyfloat :=
  let base_score := of_Z 0 in
  let score :=
    match phase_scores components with
    | inl d => np_mean (values d)
    | inr x => x
    end in
  let base_score := fadd base_score (fmul score (Fin (qc 0.3))) in
  let score := default (of_Z 70) (tempo_score components) in
  let base_score := fadd base_score (fmul score (Fin (qc 0.2))) in
  let score := default (of_Z 70) (consistency_score components) in
  let base_score := fadd base_score (fmul score (Fin (qc 0.2))) in
  let score := default (of_Z 70) (biomechanics_score components) in
  let base_score := fadd base_score (fmul score (Fin (qc 0.3))) in
  let final_score := fsub base_score (of_Z (default 0 (fault_penalty components))) in
  py_max (of_Z 0) (py_min (of_Z 100) final_score).

(** ** The analyses of a timeline *)

(** [load_ideal_angles]: for each phase, the ideal values by key. *)
Definition ideal_angles (phase : string) : list (string * Z) :=
  if String.eqb phase "address" then
    [("spine_angle", 30); ("knee_flex", 145); ("shoulder_tilt", 5); ("hip_tilt", 10)]
  else if String.eqb phase "backswing" then
    [("shoulder_rotation", 90); ("hip_rotation", 45); ("x_factor", 45);
     ("left_arm_angle", 170); ("wrist_hinge", 90)]
  else if String.eqb phase "top" then
    [("shoulder_rotation", 95); ("hip_rotation", 45); ("x_factor", 50);
     ("club_shaft_angle", 0); ("left_arm_angle", 175)]
  else if String.eqb phase "impact" then
    [("shoulder_open", 30); ("hip_open", 45); ("spine_angle", 25);
     ("shaft_lean", 8); ("knee_flex", 130)]
  else if String.eqb phase "follow_through" then
    [("shoulder_rotation", -90); ("hip_rotation", -80); ("weight_transfer", 90);
     ("spine_extension", 5)]
  else [].

Record PhaseDetail : Type := {
  average_score : pyfloat;
  stability : pyfloat;
  frame_count : nat
}.

Record PhaseAnalysis : Type := {
  pa_scores : gmap string pyfloat;
  pa_details : gmap string PhaseDetail;
  pa_overall : pyfloat
}.

Record TempoAnalysis : Type := {
  backswing_time : pyfloat;
  downswing_time : pyfloat;
  ratio : pyfloat;
  t_score : pyfloat;
  t_evaluation : string
}.

(** The result of [analyze_consistency]; [c_details] and [c_evaluation]
    are [None] for the short answer (['details': 'Insufficient data']). *)
Record Consistency : Type := {
  c_score : pyfloat;
  c_details : option (gmap string pyfloat);
  c_evaluation : option string
}.

Record Biomechanics : Type := {
  b_score : pyfloat;
  b_details : gmap string pyfloat;
  max_x_factor : pyfloat;
  b_evaluation : string
}.

(** The dictionary returned by [comprehensive_analysis]. *)
Record VideoAnalysis : Type := {
  overall_score : pyfloat;
  v_confidence : pyfloat;
  phase_analysis : PhaseAnalysis;
  tempo_analysis : TempoAnalysis;
  consistency : Consistency;
  biomechanics : Biomechanics;
  faults : list Fault;
  recommendations : list string
}.

Section Analyses.
Context `{MathLib}.

(** The score of one frame against the ideal values of its phase. *)
Definition frame_phase_score (ideal : list (string * Z)) (angles : Angles) : pyfloat :=
  let phase_score :=
    fold_left
      (λ phase_score '(key, ideal_value),
         match angles !! key with
         | Some a =>
             let diff := fabs (fsub a (of_Z ideal_value)) in
             fsub phase_score (py_min (fmul diff (Fin (qc 0.5))) (of_Z 20))
         | None => phase_score
         end)
      ideal (of_Z 100) in
  py_max (of_Z 0) phase_score.

(** [analyze_phases] *)
Definition analyze_phases (all_angles : list Angles) (swing_phases : list string)
    : res PhaseAnalysis :=
  let unique_phases := elements (list_to_set swing_phases : gset string) in
  entries ←
    mapM (λ phase,
            phase_angles ← angles_of_phase (String.eqb phase) all_angles 0 swing_phases;
            let scores := map (frame_phase_score (ideal_angles phase)) phase_angles in
            Ok (phase, {| average_score := np_mean scores;
                          stability := np_std scores;
                          frame_count := length phase_angles |}))
         unique_phases;
  let phase_scores : gmap string pyfloat :=
    list_to_map (map (λ '(phase, d), (phase, average_score d)) entries) in
  Ok {| pa_scores := phase_scores;
        pa_details := list_to_map entries;
        pa_overall := np_mean (values phase_scores) |}.

(** The dictionary [transitions]: for each phase, the last index at which
    the timeline changes into it. *)
Fixpoint phase_transitions (prev : string) (i : nat) (swing_phases : list string)
    (transitions : gmap string Z) : gmap string Z :=
  match swing_phases with
  | [] => transitions
  | p :: rest =>
      phase_transitions p (S i) rest
        (if String.eqb p prev then transitions else <[p := Z.of_nat i]> transitions)
  end.

(** [analyze_tempo_advanced] *)
Definition analyze_tempo_advanced (swing_phases : list string) (fps : pyfloat)
    : res TempoAnalysis :=
  let transitions :=
    match swing_phases with
    | [] => ∅
    | p :: rest => phase_transitions p 1 rest ∅
    end in
  let backswing_frames := get transitions "top" 30 - get transitions "takeaway" 0 in
  backswing_time ← float_truediv (of_Z backswing_frames) fps;
  let downswing_frames := get transitions "impact" 60 - get transitions "top" 30 in
  downswing_time ← float_truediv (of_Z downswing_frames) fps;
  tempo_ratio ←
    (if fgt downswing_time (of_Z 0) then float_truediv backswing_time downswing_time
     else Ok (of_Z 3));
  let ideal_ratio := of_Z 3 in
  let tempo_score :=
    fsub (of_Z 100) (fmul (fabs (fsub tempo_ratio ideal_ratio)) (of_Z 20)) in
  let off := fabs (fsub tempo_ratio (of_Z 3)) in
  Ok {| backswing_time := backswing_time;
        downswing_time := downswing_time;
        ratio := tempo_ratio;
        t_score := py_max (of_Z 0) (py_min (of_Z 100) tempo_score);
        t_evaluation :=
          if flt off (Fin (qc 0.3)) then "Excellent"
          else if flt off (Fin (qc 0.5)) then "Good" else "Needs Work" |}.

(** [analyze_consistency] *)
Definition analyze_consistency (all_angles : list Angles) : Consistency :=
  if decide (length all_angles < 10)%nat then
    {| c_score := of_Z 70; c_details := None; c_evaluation := None |}
  else
    let consistency_of (key : string) : pyfloat :=
      let values := map (λ a, get a key (of_Z 0)) all_angles in
      let std_dev := np_std values in
      fsub (of_Z 100) (py_min (fmul std_dev (of_Z 2)) (of_Z 50)) in
    let consistencies : gmap string pyfloat :=
      <["spine_angle" := consistency_of "spine_angle"]>
        (<["hip_rotation" := consistency_of "hip_rotation"]>
           (<["shoulder_rotation" := consistency_of "shoulder_rotation"]> ∅)) in
    let overall_consistency := np_mean (values consistencies) in
    {| c_score := overall_consistency;
       c_details := Some consistencies;
       c_evaluation :=
         Some (if fgt overall_consistency (of_Z 85) then "Very Consistent"
               else if fgt overall_consistency (of_Z 70) then "Consistent"
               else "Inconsistent") |}.

(** The share of the weight on the left foot in one frame, when the two
    feet and the nose are there. *)
Definition weight_left (frame : FrameLandmarks) : res (option pyfloat) :=
  let left_foot := get frame "pose_27" ∅ in
  let right_foot := get frame "pose_28" ∅ in
  let nose := get frame "pose_0" ∅ in
  if nonempty left_foot && nonempty right_foot && nonempty nose then
    let left_dist := fabs (fsub (get nose "x" (of_Z 0)) (get left_foot "x" (of_Z 0))) in
    let right_dist := fabs (fsub (get nose "x" (of_Z 0)) (get right_foot "x" (of_Z 0))) in
    share ← float_truediv right_dist (fadd (fadd left_dist right_dist) (Fin (qc 0.001)));
    Ok (Some (fmul share (of_Z 100)))
  else Ok None.

(** [analyze_biomechanics] *)
Definition analyze_biomechanics (all_landmarks : list FrameLandmarks)
    (all_angles : list Angles) : res Biomechanics :=
  let x_factors := map (λ a, get a "x_factor" (of_Z 0)) all_angles in
  let max_x_factor := py_max_list (of_Z 0) x_factors in
  let score_x_factor := py_min (of_Z 100) (fmul max_x_factor (of_Z 2)) in
  shifts ← mapM weight_left all_landmarks;
  let weight_shifts := omap id shifts in
  let score_weight_transfer :=
    match weight_shifts with
    | [] => of_Z 0
    | _ =>
        let weight_range :=
          fsub (py_max_list (of_Z 0) weight_shifts) (py_min_list (of_Z 0) weight_shifts) in
        py_min (of_Z 100) (fmul weight_range (of_Z 2))
    end in
  let spine_angles := map (λ a, get a "spine_angle" (of_Z 30)) all_angles in
  let spine_stability :=
    match spine_angles with
    | [] => of_Z 70
    | _ => fsub (of_Z 100) (fmul (np_std spine_angles) (of_Z 5))
    end in
  let score_spine_stability := py_max (of_Z 0) (py_min (of_Z 100) spine_stability) in
  let score_balance :=
    np_div (fadd score_weight_transfer score_spine_stability) (of_Z 2) in
  let scores : gmap string pyfloat :=
    <["balance" := score_balance]>
      (<["spine_stability" := score_spine_stability]>
         (<["weight_transfer" := score_weight_transfer]>
            (<["x_factor" := score_x_factor]> ∅))) in
  let overall_bio := np_mean (values scores) in
  Ok {| b_score := overall_bio;
        b_details := scores;
        max_x_factor := max_x_factor;
        b_evaluation :=
          if fgt overall_bio (of_Z 85) then "Excellent"
          else if fgt overall_bio (of_Z 70) then "Good"
          else "Needs Improvement" |}.

(** The rank of a severity in [generate_recommendations]; an unknown
    severity raises. *)
Definition severity_rank (severity : string) : res Z :=
  if String.eqb severity "critical" then Ok 4
  else if String.eqb severity "high" then Ok 3
  else if String.eqb severity "medium" then Ok 2
  else if String.eqb severity "low" then Ok 1
  else Raise {| exn_type := "KeyError"; exn_msg := "'" +:+ severity +:+ "'" |}.

(** [sorted(l, key=..., reverse=True)]: by falling rank, equal ranks in
    their order in [l]. *)
Fixpoint insert_by_rank (x : Z * Fault) (l : list (Z * Fault)) : list (Z * Fault) :=
  match l with
  | [] => [x]
  | y :: l' => if fst y <? fst x then x :: l else y :: insert_by_rank x l'
  end.

Definition sort_by_rank (l : list (Z * Fault)) : list (Z * Fault) :=
  fold_left (λ sorted x, insert_by_rank x sorted) l [].

(** [generate_recommendations] *)
Definition generate_recommendations (faults : list Fault) (score : pyfloat)
    : res (list string) :=
  let recommendations :=
    [if fge score (of_Z 90) then "훌륭한 스윙입니다! 일관성 유지에 집중하세요."
     else if fge score (of_Z 80) then "좋은 스윙입니다. 세부 동작을 다듬으세요."
     else if fge score (of_Z 70) then "기본기는 좋습니다. 주요 결함을 개선하세요."
     else "기본기 강화가 필요합니다."] in
  ranked ← mapM (λ f, r ← severity_rank (f_severity f); Ok (r, f)) faults;
  let sorted_faults := snd <$> sort_by_rank ranked in
  let recommendations := recommendations ++ map f_fix (take 3 sorted_faults) in
  let has (t : string) := existsb (λ f, String.eqb (f_type f) t) faults in
  let recommendations :=
    if has "over_swing"
    then recommendations ++ ["드릴: 벽 드릴 - 벽에서 한 클럽 거리에서 스윙 연습"]
    else recommendations in
  let recommendations :=
    if has "early_extension"
    then recommendations ++ ["드릴: 의자 드릴 - 엉덩이를 의자에 대고 스윙"]
    else recommendations in
  let recommendations :=
    if has "sway"
    then recommendations ++ ["드릴: 머리 고정 드릴 - 벽에 머리를 대고 스윙"]
    else recommendations in
  Ok recommendations.

(** [comprehensive_analysis], with the state of the random generator
    before and after. *)
Definition comprehensive_analysis (all_landmarks : list FrameLandmarks)
    (all_angles : list Angles) (swing_phases : list string) (fps : pyfloat)
    (rng : RandomState) : res (VideoAnalysis * RandomState) :=
  phase_analysis ← analyze_phases all_angles swing_phases;
  tempo_analysis ← analyze_tempo_advanced swing_phases fps;
  let consistency := analyze_consistency all_angles in
  biomechanics ← analyze_biomechanics all_landmarks all_angles;
  '(faults, rng) ← detect_advanced_faults all_angles swing_phases rng;
  let score :=
    calculate_weighted_score
      {| phase_scores := inl (pa_scores phase_analysis);
         tempo_score := Some (t_score tempo_analysis);
         consistency_score := Some (c_score consistency);
         biomechanics_score := Some (b_score biomechanics);
         fault_penalty := Some (Z.of_nat (length faults) * 5) |} in
  recommendations ← generate_recommendations faults score;
  Ok ({| overall_score := py_min (of_Z 100) score;
         v_confidence := Fin (qc 0.95);
         phase_analysis := phase_analysis;
         tempo_analysis := tempo_analysis;
         consistency := consistency;
         biomechanics := biomechanics;
         faults := faults;
         recommendations := recommendations |},
      rng).

End Analyses.

(** ** The histories of the instance *)

(** [frame_history], [angle_history] and [velocity_history]: deques of at
    most 30 entries, the oldest first. *)
Record History : Type := {
  frame_history : list FrameLandmarks;
  angle_history : list Angles;
  velocity_history : list Angles
}.

Definition new_history : History :=
  {| frame_history := []; angle_history := []; velocity_history := [] |}.

(** [deque(maxlen=maxlen).append(x)]: a full deque drops its oldest
    entry. *)
Definition deque_append {A} (maxlen : nat) (d : list A) (x : A) : list A :=
  if decide (length d < maxlen)%nat then d ++ [x] else drop 1 d ++ [x].

(** The dictionary [velocity] of [update_history]. *)
Definition velocity_of (prev curr : Angles) : Angles :=
  fold_left
    (λ velocity key,
       match curr !! key, prev !! key with
       | Some c, Some p => <[key := fsub c p]> velocity
       | _, _ => velocity
       end)
    ["shoulder_rotation"; "hip_rotation"] ∅.

(** [update_history].  The entries [angle_history[-2]] and
    [angle_history[-1]] are there when the deque has more than one entry;
    where they are not, the velocities stay as they are. *)
Definition update_history (self : History) (landmarks : FrameLandmarks)
    (angles : Angles) : History :=
  let frame_history := deque_append 30 (frame_history self) landmarks in
  let angle_history := deque_append 30 (angle_history self) angles in
  let velocity_history :=
    if decide (1 < length angle_history)%nat then
      match angle_history !! (length angle_history - 2)%nat,
            angle_history !! (length angle_history - 1)%nat with
      | Some prev, Some curr =>
          deque_append 30 (velocity_history self) (velocity_of prev curr)
      | _, _ => velocity_history self
      end
    else velocity_history self in
  {| frame_history := frame_history;
     angle_history := angle_history;
     velocity_history := velocity_history |}.

(** The calls of [update_history] in the loop of [analyze_video_frames],
    one for each frame with a pose. *)
Definition update_histories (self : History)
    (frames : list (FrameLandmarks * Angles)) : History :=
  fold_left (λ self '(landmarks, angles), update_history self landmarks angles)
            frames self.

(** ** The analysis of one image *)

(** The dictionary returned by [analyze_single_image]; its entries
    ['angles'], ['faults'] and ['confidence'] are there for a detected
    pose only. *)
Record ImageAnalysis : Type := {
  i_success : bool;
  i_score : Z;
  i_angles : option Angles;
  i_faults : option (list Fault);
  i_confidence : option Qc
}.

(** [analyze_single_image] from the result of the pose detection on:
    [detected] holds the angles computed from the landmarks, or is [None]
    when no pose was found. *)
Definition analyze_single_image (detected : option Angles) (rng : RandomState)
    : res (ImageAnalysis * RandomState) :=
  match detected with
  | Some angles =>
      '(faults, rng) ← detect_advanced_faults [angles] ["unknown"] rng;
      let score := 70 in
      let score :=
        if fle (of_Z 85) (get angles "shoulder_rotation" (of_Z 0))
           && fle (get angles "shoulder_rotation" (of_Z 0)) (of_Z 95)
        then score + 10 else score in
      let score :=
        if fle (of_Z 40) (get angles "hip_rotation" (of_Z 0))
           && fle (get angles "hip_rotation" (of_Z 0)) (of_Z 50)
        then score + 10 else score in
      let score :=
        if fge (get angles "x_factor" (of_Z 0)) (of_Z 40) then score + 10 else score in
      let score := score - Z.of_nat (length faults) * 5 in
      Ok ({| i_success := true;
             i_score := Z.max 0 (Z.min 100 score);
             i_angles := Some angles;
             i_faults := Some faults;
             i_confidence := Some (qc 0.92) |},
          rng)
  | None =>
      Ok ({| i_success := false; i_score := 0; i_angles := None;
             i_faults := None; i_confidence := None |},
          rng)
  end.

End Advanced.

(* ===================================================================== *)
(** * golf_analyzer.py: [GolfSwingAnalyzer] *)
(* ===================================================================== *)

Module Basic.

(** One landmark of the detector (attributes [x], [y], [z], [visibility]);
    the row built for it in [analyze_image] adds its index as ['id']. *)
Record Landmark : Type := {
  x : Qc;
  y : Qc;
  z : Qc;
  visibility : Qc
}.

Record LandmarkRow : Type := {
  id : nat;
  row : Landmark
}.

Record Fault : Type := {
  f_type : string;
  f_severity : string;
  f_message : string;
  f_fix : string
}.

(** The dictionary returned by [analyze_image]; an entry that a given
    return statement does not set is [None]. *)
Record Output : Type := {
  detected : bool;
  landmarks : option (list LandmarkRow);
  angles : option (gmap string pyfloat);
  faults : option (list Fault);
  score : Z;
  error : option string;
  fallback : option bool;
  error_type : option string
}.

#[global] Instance Landmark_eq_dec : EqDecision Landmark.
Proof. solve_decision. Defined.
#[global] Instance LandmarkRow_eq_dec : EqDecision LandmarkRow.
Proof. solve_decision. Defined.
#[global] Instance Fault_eq_dec : EqDecision Fault.
Proof. solve_decision. Defined.
#[global] Instance Output_eq_dec : EqDecision Output.
Proof. solve_decision. Defined.

(** The attributes of the instance that [__init__] sets to [None]. *)
Record Analyzer : Type := {
  last_result : option Output;
  last_image_hash : option Z
}.

#[global] Instance Analyzer_eq_dec : EqDecision Analyzer.
Proof. solve_decision. Defined.

Definition new_analyzer : Analyzer :=
  {| last_result := None; last_image_hash := None |}.

Definition get (d : gmap string pyfloat) (key : string) (default : pyfloat) : pyfloat :=
  match d !! key with
  | Some a => a
  | None => default
  end.

Definition qabs (a : Qc) : Qc := (if qltb a 0 then - a else a)%Qc.

(** [calculate_golf_angles] *)
Definition calculate_golf_angles (landmarks : list Landmark) : res (gmap string pyfloat) :=
  left_shoulder ← list_index landmarks 11;
  right_shoulder ← list_index landmarks 12;
  left_hip ← list_index landmarks 23;
  right_hip ← list_index landmarks 24;
  let shoulder_angle := (qabs (x left_shoulder - x right_shoulder) * qc 180)%Qc in
  let hip_angle := (qabs (x left_hip - x right_hip) * qc 150)%Qc in
  let spine_angle :=
    (qabs ((y left_shoulder + y right_shoulder) / qc 2
           - (y left_hip + y right_hip) / qc 2) * qc 90)%Qc in
  Ok (<["spine_angle" := Fin spine_angle]>
        (<["x_factor" := Fin (qabs (shoulder_angle - hip_angle))]>
           (<["hip_rotation" := Fin hip_angle]>
              (<["shoulder_rotation" := Fin shoulder_angle]> ∅)))).

(** [detect_swing_faults] *)
Definition detect_swing_faults (angles : gmap string pyfloat)
    (landmarks : list LandmarkRow) : list Fault :=
  let faults : list Fault := [] in
  let faults :=
    if fgt (get angles "shoulder_rotation" (of_Z 0)) (of_Z 110) then
      faults ++ [{| f_type := "over_swing"; f_severity := "medium";
                    f_message := "백스윙이 너무 큽니다";
                    f_fix := "클럽이 평행선을 넘지 않도록 제한하세요" |}]
    else if flt (get angles "shoulder_rotation" (of_Z 0)) (of_Z 75) then
      faults ++ [{| f_type := "insufficient_turn"; f_severity := "high";
                    f_message := "어깨 회전이 부족합니다";
                    f_fix := "백스윙시 어깨를 90도까지 회전하세요" |}]
    else faults in
  let faults :=
    if flt (get angles "x_factor" (of_Z 0)) (of_Z 25) then
      faults ++ [{| f_type := "poor_x_factor"; f_severity := "medium";
                    f_message := "X-Factor가 부족합니다";
                    f_fix := "상체와 하체의 회전 차이를 늘리세요" |}]
    else faults in
  let faults :=
    if flt (get angles "knee_flex" (of_Z 0)) (of_Z 130)
       || fgt (get angles "knee_flex" (of_Z 0)) (of_Z 170) then
      faults ++ [{| f_type := "knee_flex_issue"; f_severity := "low";
                    f_message := "무릎 각도가 적절하지 않습니다";
                    f_fix := "어드레스시 무릎을 적당히 굽히세요" |}]
    else faults in
  let faults :=
    if flt (get angles "elbow_angle" (of_Z 0)) (of_Z 150) then
      faults ++ [{| f_type := "bent_arm"; f_severity := "medium";
                    f_message := "백스윙시 팔이 굽어있습니다";
                    f_fix := "왼팔을 곧게 펴세요" |}]
    else faults in
  let faults :=
    if flt (get angles "spine_angle" (of_Z 0)) (of_Z 20)
       || fgt (get angles "spine_angle" (of_Z 0)) (of_Z 40) then
      faults ++ [{| f_type := "spine_angle_issue"; f_severity := "high";
                    f_message := "척추 각도가 적절하지 않습니다";
                    f_fix := "어드레스시 적절한 전경각을 유지하세요" |}]
    else faults in
  match landmarks with
  | nose :: _ =>
      if qltb (y (row nose)) (qc 0.25) then
        faults ++ [{| f_type := "head_up"; f_severity := "critical";
                      f_message := "헤드업이 발생했습니다";
                      f_fix := "임팩트까지 공을 주시하세요" |}]
      else faults
  | [] => faults
  end.

(** [severity_penalty.get(severity, 0)] *)
Definition severity_penalty (severity : string) : Z :=
  if String.eqb severity "critical" then 15
  else if String.eqb severity "high" then 10
  else if String.eqb severity "medium" then 5
  else if String.eqb severity "low" then 2
  else 0.

(** [calculate_score] *)
Definition calculate_score (angles : gmap string pyfloat) (faults : list Fault) : Z :=
  let base_score := 70 in
  let in_range (lo : Z) (key : string) (hi : Z) :=
    fle (of_Z lo) (get angles key (of_Z 0)) && fle (get angles key (of_Z 0)) (of_Z hi) in
  let base_score := if in_range 85 "shoulder_rotation" 95 then base_score + 10 else base_score in
  let base_score := if in_range 40 "hip_rotation" 50 then base_score + 5 else base_score in
  let base_score :=
    if fge (get angles "x_factor" (of_Z 0)) (of_Z 40) then base_score + 10 else base_score in
  let base_score := if in_range 140 "knee_flex" 160 then base_score + 5 else base_score in
  let base_score :=
    fold_left (λ base_score fault, base_score - severity_penalty (f_severity fault))
              faults base_score in
  Z.max 0 (Z.min 100 base_score).

(** [lo < v < hi] *)
Definition strictly_between (lo : Q) (v : Qc) (hi : Q) : bool :=
  qltb (qc lo) v && qltb v (qc hi).

(** The body of the [try] of [is_golf_posture]. *)
Definition is_golf_posture_body (landmarks : list LandmarkRow) : res bool :=
  left_shoulder ← row <$> list_index landmarks 11;
  right_shoulder ← row <$> list_index landmarks 12;
  left_hip ← row <$> list_index landmarks 23;
  right_hip ← row <$> list_index landmarks 24;
  left_wrist ← row <$> list_index landmarks 15;
  right_wrist ← row <$> list_index landmarks 16;
  left_elbow ← row <$> list_index landmarks 13;
  right_elbow ← row <$> list_index landmarks 14;
  nose ← row <$> list_index landmarks 0;
  left_knee ← row <$> list_index landmarks 25;
  right_knee ← row <$> list_index landmarks 26;
  let score := 0 in
  let shoulder_tilt := qabs (y left_shoulder - y right_shoulder)%Qc in
  let score :=
    if qltb shoulder_tilt (qc 0.08) then score + 20
    else if qltb shoulder_tilt (qc 0.15) then score + 15
    else if qltb shoulder_tilt (qc 0.25) then score + 10
    else score in
  let wrist_diff := qabs (y left_wrist - y right_wrist)%Qc in
  let score :=
    if qltb wrist_diff (qc 0.2) then score + 15
    else if qltb wrist_diff (qc 0.4) then score + 10
    else if qltb wrist_diff (qc 0.6) then score + 5
    else score in
  let elbow_shoulder_relation :=
    ((y left_elbow + y right_elbow) / qc 2
     - (y left_shoulder + y right_shoulder) / qc 2)%Qc in
  let score :=
    if strictly_between 0.1 elbow_shoulder_relation 0.4 then score + 15
    else if strictly_between 0.05 elbow_shoulder_relation 0.5 then score + 10
    else score in
  let shoulder_center_y := ((y left_shoulder + y right_shoulder) / qc 2)%Qc in
  let hip_center_y := ((y left_hip + y right_hip) / qc 2)%Qc in
  let forward_lean := (hip_center_y - shoulder_center_y)%Qc in
  let score :=
    if strictly_between 0.1 forward_lean 0.4 then score + 20
    else if strictly_between 0.05 forward_lean 0.5 then score + 15
    else if qltb 0%Qc forward_lean then score + 10
    else score in
  let knee_hip_relation := ((y left_knee + y right_knee) / qc 2 - hip_center_y)%Qc in
  let score :=
    if strictly_between 0.15 knee_hip_relation 0.35 then score + 10
    else if strictly_between 0.1 knee_hip_relation 0.4 then score + 7
    else score in
  let score :=
    if strictly_between 0.15 (y nose) 0.6 then score + 10
    else if strictly_between 0.1 (y nose) 0.7 then score + 7
    else score in
  let wrist_center_x := ((x left_wrist + x right_wrist) / qc 2)%Qc in
  let body_center_x := ((x left_shoulder + x right_shoulder) / qc 2)%Qc in
  let hand_body_distance := qabs (wrist_center_x - body_center_x)%Qc in
  let score :=
    if qltb hand_body_distance (qc 0.3) then score + 10
    else if qltb hand_body_distance (qc 0.5) then score + 7
    else if qltb hand_body_distance (qc 0.7) then score + 3
    else score in
  let bonus_score := 0 in
  let stance_width := qabs (x left_knee - x right_knee)%Qc in
  let shoulder_width := qabs (x left_shoulder - x right_shoulder)%Qc in
  let stance_ratio :=
    (stance_width / (if qltb shoulder_width (qc 0.1) then qc 0.1 else shoulder_width))%Qc in
  let bonus_score :=
    if qleb (qc 0.8) stance_ratio && qleb stance_ratio (qc 1.5)
    then bonus_score + 5 else bonus_score in
  let weight_balance := (qabs (x left_knee - x right_knee) / qc 2)%Qc in
  let body_center := qabs ((x left_shoulder + x right_shoulder) / qc 2)%Qc in
  let bonus_score :=
    if qltb (qabs (weight_balance - body_center)%Qc) (qc 0.1)
    then bonus_score + 5 else bonus_score in
  let score := score + bonus_score in
  let is_other_sport :=
    (qltb (y left_knee) (hip_center_y - qc 0.15)%Qc
     || qltb (y right_knee) (hip_center_y - qc 0.15)%Qc)
    || (qltb (body_center_x + qc 0.5)%Qc wrist_center_x && qltb (y nose) (qc 0.25))
    || qltb (qc 0.35) (qabs (x left_shoulder - x right_shoulder)%Qc)
    || (qltb (y nose) (qc 0.15) && qltb (qc 0.6) hand_body_distance)
    || qltb (qc 0.7) hip_center_y in
  Ok ((75 <=? score) && negb is_other_sport).

(** [is_golf_posture]: an index error gives [False]. *)
Definition is_golf_posture (landmarks : list LandmarkRow) : bool :=
  try_except (is_golf_posture_body landmarks) (λ _, false).

(** ** The analysis of one image *)

(** The collaborators of [analyze_image] for frames of type [Image]. *)
Class Vision (Image : Type) : Type := {
  (** the base64 decoding of the cleaned text and [cv2.imdecode]:
      [None] when [imdecode] returns [None] *)
  decode : string → res (option Image);
  (** [hash(image.data.tobytes())] *)
  image_hash : Image → Z;
  (** resizing to 416x416, conversion to RGB and [self.pose.process]:
      the landmarks, or [None] when no pose was found *)
  pose_process : Image → res (option (list Landmark))
}.

Definition base_output : Output :=
  {| detected := false; landmarks := Some []; angles := Some ∅; faults := Some [];
     score := 50; error := None; fallback := None; error_type := None |}.

Definition error_output (message : string) : Output :=
  {| detected := false; landmarks := None; angles := None; faults := None;
     score := 0; error := Some message; fallback := None; error_type := None |}.

(** The handlers of the outer [try], by exception type. *)
Definition fallback_output (e : exn) : Output :=
  let out (message : string) (ty : option string) :=
    {| detected := false; landmarks := None; angles := None; faults := None;
       score := 0; error := Some message; fallback := Some true; error_type := ty |} in
  if String.eqb (exn_type e) "cv2.error" then out ("이미지 처리 오류: " +:+ exn_msg e) None
  else if String.eqb (exn_type e) "ValueError" then out ("잘못된 데이터: " +:+ exn_msg e) None
  else if String.eqb (exn_type e) "MemoryError"
  then out "메모리 부족으로 분석할 수 없습니다" None
  else out ("분석 중 알 수 없는 오류: " +:+ exn_msg e) (Some (exn_type e)).

Section AnalyzeImage.
Context {Image : Type} `{Vision Image}.

(** The part of [analyze_image] after the cache lookup. *)
Definition analyze_uncached (self : Analyzer) (image : Image) (image_hash : Z)
    : Output * Analyzer :=
  match pose_process image with
  | Raise e => (fallback_output e, self)
  | Ok None => (base_output, self)
  | Ok (Some pose_landmarks) =>
      let self := {| last_result := last_result self;
                     last_image_hash := Some image_hash |} in
      let landmarks := imap (λ idx landmark, {| id := idx; row := landmark |})
                            pose_landmarks in
      if is_golf_posture landmarks then
        match calculate_golf_angles pose_landmarks with
        | Raise e => (fallback_output e, self)
        | Ok angles =>
            let faults := detect_swing_faults angles landmarks in
            let output :=
              {| detected := true; landmarks := Some landmarks;
                 angles := Some angles; faults := Some faults;
                 score := calculate_score angles faults;
                 error := None; fallback := None; error_type := None |} in
            (output, {| last_result := Some output;
                        last_image_hash := Some image_hash |})
        end
      else
        ({| detected := false; landmarks := Some []; angles := Some ∅;
            faults := Some []; score := 0; error := Some "Not a golf posture";
            fallback := None; error_type := None |},
         self)
  end.

(** The inner [try] of [analyze_image]: the text is cleaned and decoded. *)
Definition decode_input (base64_image : string) : res (option Image) :=
  base64_image ←
    (if String.prefix "data:" base64_image
     then list_index (Enhanced.py_split ","%char base64_image) 1
     else Ok base64_image);
  decode (Enhanced.remove_chars (String "010" (String "013" (String " " "")))
                                base64_image).

(** [analyze_image]: the returned dictionary and the instance after the
    call. *)
Definition analyze_image (self : Analyzer) (base64_image : string) : Output * Analyzer :=
  match decode_input base64_image with
  | Raise e => (error_output ("Base64 decode error: " +:+ exn_msg e), self)
  | Ok None => (error_output "Invalid image data", self)
  | Ok (Some image) =>
      let image_hash := image_hash image in
      match last_result self with
      | Some cached =>
          if bool_decide (last_image_hash self = Some image_hash) then (cached, self)
          else analyze_uncached self image image_hash
      | None => analyze_uncached self image image_hash
      end
  end.

(** Several calls on the same instance, one after the other. *)
Fixpoint analyze_images (self : Analyzer) (inputs : list string) : list Output * Analyzer :=
  match inputs with
  | [] => ([], self)
  | input :: rest =>
      let '(output, self) := analyze_image self input in
      let '(outputs, self) := analyze_images self rest in
      (output :: outputs, self)
  end.

End AnalyzeImage.

End Basic.

(* ===================================================================== *)
(** * Specifications and example inputs *)
(* ===================================================================== *)

Import Enhanced.
Import Advanced.

(** ** A rational stand-in for the mathematical library

    The diamond angle for [atan2] and the chord for [acos] (piecewise
    linear, exact on the axes), and the square root cut after six
    decimals.  They show that the interface [MathLib] can be implemented
    and let the examples run. *)

Definition qabs (x : Qc) : Qc := (if qltb x 0 then - x else x)%Qc.

Definition diamond_atan2_deg (y x : Qc) : Qc :=
  let d := (qabs x + qabs y)%Qc in
  if qeqb d 0%Qc then 0%Qc
  else if qleb 0%Qc x then (qc 90 * y / d)%Qc
  else if qleb 0%Qc y then (qc 180 - qc 90 * y / d)%Qc
  else (- qc 180 - qc 90 * y / d)%Qc.

Definition sqrt_6_decimals (x : Qc) : Qc :=
  let n := Qnum x in
  let d := Z.pos (Qden x) in
  Q2Qc (Qmake (Z.sqrt (n * d * 10 ^ 12)) (Pos.mul (Qden x) (10 ^ 6))).

Definition chord_acos_deg (c : Qc) : Qc := (qc 90 * (qc 1 - c))%Qc.

#[local] Instance coarse_mathlib : MathLib.
Proof.
  refine {| atan2_deg := diamond_atan2_deg;
            sqrt := sqrt_6_decimals;
            acos_deg := chord_acos_deg |}.
  - by apply Qc_is_canon.
  - intros c. unfold chord_acos_deg, Qcle. cbn -[Qred].
    rewrite !Qred_correct. cbn. intros Hlo Hhi. lra.
Defined.

(** ** Feature vectors and attempts *)


(** An attempt with the given shoulder rotation, hip rotation, X-factor,
    confidence, scale and stage. *)
Definition mk_attempt (s h xf c sc : Q) (st : nat) : Attempt :=
  {| features := {| shoulder_rotation := Fin (qc s);
                    hip_rotation := Fin (qc h);
                    x_factor := Fin (qc xf);
                    spine_angle := Fin (qc 25);
                    knee_flex := Fin (qc 30);
                    confidence := Fin (qc c) |};
     threshold_used := qc 0.1;
     stage := st;
     scale := qc sc;
     voting_info := None |}.


(** Two attempts of equal confidence found at different scales. *)
Definition attempt_small : Attempt := mk_attempt 90 45 45 0.9 0.8 1.
Definition attempt_large : Attempt := mk_attempt 90 45 45 0.9 1.0 2.
Definition attempt_weak : Attempt := mk_attempt 80 40 40 0.6 1.2 3.

(** Landmarks of a golfer standing upright, for the examples. *)
Definition lm (x y : Q) : Landmark :=
  {| lx := qc x; ly := qc y; lz := 0%Qc; visibility := Some (qc 0.9) |}.

Definition upright_landmarks : list Landmark :=
  replicate 11 (lm 0.5 0.1) ++
  [lm 0.4 0.3; lm 0.6 0.3] ++ replicate 10 (lm 0.5 0.4) ++
  [lm 0.45 0.5; lm 0.55 0.5; lm 0.45 0.7; lm 0.55 0.7; lm 0.45 0.9; lm 0.55 0.9] ++
  replicate 4 (lm 0.5 0.95).

(** ** The attempts on an input *)

Section Attempts.
Context `{MathLib} {Image : Type} `{Vision Image}.





End Attempts.

(** ** Frame libraries and processes *)

(** A frame library that decodes everything and a detector that finds no
    pose at all; a frame is its number of pixels. *)
#[local] Instance blind_vision : Vision nat := {|
  b64decode := λ s, Ok s;
  imdecode := λ data, Ok (Some (String.length data));
  frame_stats := λ image,
    Ok {| height := 1; width := N.of_nat image; laplacian_var := qc 100;
          mean_brightness := qc 128 |};
  optimize_lighting_conditions := λ image, Ok image;
  resize := λ image scale, Ok image;
  pose_process := λ image threshold, Ok None
|}.

(** The same library with a detector that finds the upright golfer at
    every scale and threshold. *)
#[local] Instance upright_vision : Vision nat := {|
  b64decode := λ s, Ok s;
  imdecode := λ data, Ok (Some (String.length data));
  frame_stats := λ image,
    Ok {| height := 480; width := 640; laplacian_var := qc 200;
          mean_brightness := qc 128 |};
  optimize_lighting_conditions := λ image, Ok image;
  resize := λ image scale, Ok image;
  pose_process := λ image threshold, Ok (Some upright_landmarks)
|}.

(** The same library with a detector that finds the upright golfer in the
    frame of 12 pixels only. *)
#[local] Instance selective_vision : Vision nat := {|
  b64decode := λ s, Ok s;
  imdecode := λ data, Ok (Some (String.length data));
  frame_stats := λ image,
    Ok {| height := 480; width := 640; laplacian_var := qc 200;
          mean_brightness := qc 128 |};
  optimize_lighting_conditions := λ image, Ok image;
  resize := λ image scale, Ok image;
  pose_process := λ image threshold,
    if (image =? 12)%nat then Ok (Some upright_landmarks) else Ok None
|}.




(** The text [aGVsbG8=] between two no-break spaces (U+00A0). *)
Definition text_in_no_break_spaces : string :=
  of_chars (map ascii_of_nat [194; 160]%nat ++ chars "aGVsbG8="
            ++ map ascii_of_nat [194; 160]%nat).

(** ** Timelines *)

(** A frame whose shoulder rotation is 80 degrees. *)
Definition rotation_80 : Angles := {["shoulder_rotation" := of_Z 80]}.

(** Frames 0 to 10 of 10: the progress values 0.0, 0.1, ..., 1.0. *)
Definition progress_sequence : list Z := [0; 1; 2; 3; 4; 5; 6; 7; 8; 9; 10].

(** A timeline of two frames: address, then backswing. *)
Definition short_angles : list Angles :=
  [ {["shoulder_rotation" := of_Z 5; "spine_angle" := of_Z 30]};
    {["shoulder_rotation" := of_Z 60; "spine_angle" := of_Z 30]} ].
Definition short_phases : list string := ["address"; "backswing"].

(** A generator whose first sample is 0.2 and whose later samples are 0.8:
    [uniform(0, 0.15)] gives 0.03, then 0.12. *)
Definition two_samples : RandomState :=
  {| draws := λ n, match n with O => qc 0.2 | _ => qc 0.8 end; position := 0 |}.

Definition sway_fault : Fault :=
  {| f_type := "sway";
     f_severity := "high";
     f_value := Fin (qc 12);
     f_message := "백스윙시 스웨이 발생 (12%)";
     f_fix := "중심축을 유지하며 회전하세요" |}.

(** The result of a computation without the generator's state. *)
Definition result_of {A} (r : res (A * RandomState)) : res A :=
  match r with
  | Ok (a, _) => Ok a
  | Raise e => Raise e
  end.

(** The generator after its first sample. *)
Definition one_sample_drawn : RandomState :=
  {| draws := draws two_samples; position := 1 |}.

(** A timeline of four frames: address, backswing, top, impact. *)
Definition swing_angles : list Angles :=
  [ {["shoulder_rotation" := of_Z 5; "hip_rotation" := of_Z 2;
      "x_factor" := of_Z 3; "spine_angle" := of_Z 30]};
    {["shoulder_rotation" := of_Z 60; "hip_rotation" := of_Z 30;
      "x_factor" := of_Z 30; "spine_angle" := of_Z 30]};
    {["shoulder_rotation" := of_Z 95; "hip_rotation" := of_Z 45;
      "x_factor" := of_Z 50; "spine_angle" := of_Z 30]};
    {["shoulder_rotation" := of_Z 30; "hip_rotation" := of_Z 45;
      "x_factor" := of_Z (-15); "spine_angle" := of_Z 30]} ].
Definition swing_phases : list string := ["address"; "backswing"; "top"; "impact"].
Definition swing_landmarks : list FrameLandmarks := [∅; ∅; ∅; ∅].

(** ** The video score *)

(** The video score in the words of the specification: the weighted
    combination of the four component scores, minus 5 per fault, clamped
    to [0, 100]. *)
Definition clamp_0_100 (x : Qc) : Qc :=
  if qltb x 0%Qc then 0%Qc else if qltb (qc 100) x then qc 100 else x.


(** ** Images for the caching analyzer *)

(** A detector over three frames: frame 1 shows a golfer at address,
    frame 2 a person standing, and the other frames show nobody.  A frame
    is the length of its text, and the hash of a frame is the frame. *)
Definition point (px py : Q) : Basic.Landmark :=
  {| Basic.x := qc px; Basic.y := qc py; Basic.z := 0%Qc; Basic.visibility := qc 0.9 |}.

Definition golfer_landmarks : list Basic.Landmark :=
  [point 0.5 0.3] ++ replicate 10 (point 0.5 0.3) ++
  [point 0.4 0.4; point 0.6 0.4; point 0.4 0.6; point 0.6 0.6;
   point 0.5 0.7; point 0.5 0.7] ++
  replicate 6 (point 0.5 0.7) ++
  [point 0.45 0.65; point 0.55 0.65; point 0.42 0.9; point 0.58 0.9] ++
  replicate 6 (point 0.5 0.95).

Definition bystander_landmarks : list Basic.Landmark := replicate 33 (point 0.5 0.5).

#[local] Instance three_frames : Basic.Vision nat := {|
  Basic.decode := λ data, Ok (Some (String.length data));
  Basic.image_hash := Z.of_nat;
  Basic.pose_process := λ image,
    match image with
    | 1%nat => Ok (Some golfer_landmarks)
    | 2%nat => Ok (Some bystander_landmarks)
    | _ => Ok None
    end
|}.

(** ** Videos for the frame loop *)

(** A video whose header announces more frames than can be read: the
    frames from number 7 on are missing.  A frame is its number, and every
    frame that is read shows a pose. *)
Definition truncated_video (i : Z) : res (option Z) :=
  if i <? 7 then Ok (Some i) else Ok None.

Definition whole_video (i : Z) : res (option Z) := Ok (Some i).

Definition pose_in_every_frame (frame : Z) : option Z := Some frame.

(** ** Predicates on detection results *)

(** What a result of [multi_stage_detection] on [image] says: its
    confidence is above zero, it was found at the threshold of its stage,
    and its features are those extracted from the landmarks found
    there. *)
Definition stage_result_ok `{MathLib} {Image : Type} `{Vision Image}
    (image : Image) (r : StageResult) : Prop :=
  fgt (confidence (sr_features r)) (of_Z 0) = true ∧
  ∃ (i : nat) landmarks,
    confidence_thresholds !! i = Some (sr_threshold_used r) ∧
    sr_stage r = S i ∧
    pose_process image (sr_threshold_used r) = Ok (Some landmarks) ∧
    extract_golf_features landmarks = Some (sr_features r).

(** No stage of the detection on [image] has features with a confidence
    above [b]. *)
Definition no_stage_above `{MathLib} {Image : Type} `{Vision Image}
    (image : Image) (b : pyfloat) : Prop :=
  ∀ threshold landmarks f,
    threshold ∈ confidence_thresholds →
    pose_process image threshold = Ok (Some landmarks) →
    extract_golf_features landmarks = Some f →
    fgt (confidence f) b = false.

(** The state of the loop of [multi_stage_detection] after the thresholds
    [done]. *)
Definition stages_inv `{MathLib} {Image : Type} `{Vision Image}
    (image : Image) (done : list Qc)
    (state : option StageResult * pyfloat) : Prop :=
  match state.1 with
  | None => state.2 = of_Z 0
  | Some r =>
      state.2 = confidence (sr_features r) ∧
      fgt (confidence (sr_features r)) (of_Z 0) = true ∧
      ∃ (i : nat) landmarks,
        done !! i = Some (sr_threshold_used r) ∧
        sr_stage r = S i ∧
        pose_process image (sr_threshold_used r) = Ok (Some landmarks) ∧
        extract_golf_features landmarks = Some (sr_features r)
  end ∧
  ∀ threshold landmarks f,
    threshold ∈ done →
    pose_process image threshold = Ok (Some landmarks) →
    extract_golf_features landmarks = Some f →
    fgt (confidence f) state.2 = false.


(** An attempt as [multi_scale_processing] leaves it. *)
Definition attempt_ok (a : Attempt) : Prop :=
  fgt (conf a) (of_Z 0) = true ∧
  voting_info a = None ∧
  threshold_used a ∈ confidence_thresholds ∧
  (1 ≤ stage a ≤ 5)%nat.

(** A number between 0 and 100. *)
Definition score_0_100 (a : pyfloat) : Prop :=
  ∃ q, a = Fin q ∧ (0 ≤ q)%Qc ∧ (q ≤ qc 100)%Qc.

(** The phases of a swing in the order of the classifier's table, and the
    place of a phase in it. *)
Definition phase_order : list string :=
  ["address"; "takeaway"; "backswing"; "top"; "transition"; "downswing"; "impact";
   "follow_through"; "finish"].

Fixpoint index_of (phase : string) (l : list string) : nat :=
  match l with
  | [] => 0
  | p :: l' => if String.eqb p phase then 0 else S (index_of phase l')
  end.

Definition phase_rank (phase : string) : nat := index_of phase phase_order.

(** ** Predicates on the results of [GolfSwingAnalyzer] *)

(** The three faults that come with every detected golf posture. *)
Definition standing_faults : list string :=
  ["insufficient_turn"; "knee_flex_issue"; "bent_arm"].

(** A result that reports a golf posture has a score of at most 68 and
    lists the three standing faults. *)
Definition detected_output_limited (o : Basic.Output) : Prop :=
  Basic.detected o = true →
  Basic.score o ≤ 68 ∧
  ∃ fs, Basic.faults o = Some fs ∧
        ∀ t, t ∈ standing_faults → t ∈ Basic.f_type <$> fs.

Definition cache_limited (self : Basic.Analyzer) : Prop :=
  ∀ o, Basic.last_result self = Some o → detected_output_limited o.

(* ===================================================================== *)
(** * Properties *)
(* ===================================================================== *)

(** ** Facts about the numbers *)

Lemma qleb_le (a b : Qc) : qleb a b = true ↔ (a ≤ b)%Qc.
Proof. unfold qleb, Qcle. apply Qle_bool_iff. Qed.

Lemma qltb_lt (a b : Qc) : qltb a b = true ↔ (a < b)%Qc.
Proof.
  unfold qltb, Qclt. rewrite negb_true_iff, <- not_true_iff_false, Qle_bool_iff.
  split; [apply Qnot_le_lt | apply Qlt_not_le].
Qed.

Lemma qeqb_eq (a b : Qc) : qeqb a b = true ↔ a = b.
Proof.
  unfold qeqb. split; [apply Qc_eq_bool_correct |].
  intros ->. unfold Qc_eq_bool. destruct (Qcanon.Qc_eq_dec b b); [reflexivity | contradiction].
Qed.

Lemma qeqb_neq (a b : Qc) : qeqb a b = false ↔ a ≠ b.
Proof. rewrite <- not_true_iff_false, qeqb_eq. reflexivity. Qed.

Lemma fadd_comm (a b : pyfloat) : fadd a b = fadd b a.
Proof.
  destruct a as [x| |[]], b as [y| |[]]; simpl; try reflexivity.
  f_equal. ring.
Qed.

Lemma fadd_assoc (a b c : pyfloat) : fadd (fadd a b) c = fadd a (fadd b c).
Proof.
  destruct a as [x| |[]], b as [y| |[]], c as [z| |[]]; simpl; try reflexivity.
  f_equal. ring.
Qed.

Lemma fold_left_fadd_Permutation (l l' : list pyfloat) :
  Permutation l l' → ∀ a, fold_left fadd l a = fold_left fadd l' a.
Proof.
  induction 1 as [|x l l' _ IH|x y l|l l' l'' _ IH1 _ IH2]; intros a; simpl.
  - reflexivity.
  - apply IH.
  - f_equal. rewrite !fadd_assoc. f_equal. apply fadd_comm.
  - rewrite IH1. apply IH2.
Qed.

Lemma py_sum_Permutation (l l' : list pyfloat) :
  Permutation l l' → py_sum l = py_sum l'.
Proof. intros HP. unfold py_sum. by apply fold_left_fadd_Permutation. Qed.

(** [min(100, x)] never exceeds 100, whatever [x] is. *)
Lemma py_min_100_le (x : pyfloat) : fle (py_min (of_Z 100) x) (of_Z 100) = true.
Proof.
  unfold py_min. destruct (flt x (of_Z 100)) eqn:Hlt; [|reflexivity].
  destruct x as [v| |[]]; simpl in *; try done.
  apply qltb_lt in Hlt. apply qleb_le. by apply Qclt_le_weak.
Qed.

Lemma flt_irrefl (a : pyfloat) : flt a a = false.
Proof.
  destruct a as [x| |[]]; simpl; try reflexivity.
  apply not_true_iff_false. rewrite qltb_lt, Qclt_nge. intros Hn. apply Hn, Qcle_refl.
Qed.

(** If one element has a key strictly above the key of every other
    element, [max(l, key=k)] selects it, wherever it stands. *)
Lemma flt_asym (a b : pyfloat) : flt a b = true → flt b a = false.
Proof.
  destruct a as [x| |[]], b as [y| |[]]; simpl; try done.
  rewrite qltb_lt. intros Hlt. apply not_true_iff_false. rewrite qltb_lt.
  intros Hgt. by apply (Qclt_not_le _ _ Hlt), Qclt_le_weak.
Qed.

Lemma fold_max_unique {A} (k : A → pyfloat) (m : A) (xs : list A) (b : A) :
  (∀ x, x ∈ xs → x = m ∨ flt (k x) (k m) = true) →
  b = m ∨ (m ∈ xs ∧ flt (k b) (k m) = true) →
  fold_left (λ best y, if fgt (k y) (k best) then y else best) xs b = m.
Proof.
  pose proof (flt_irrefl (k m)) as Hirr. revert b.
  induction xs as [|y ys IH]; intros b Hxs Hb; simpl.
  - destruct Hb as [->|[Hm _]]; [reflexivity | by apply elem_of_nil in Hm].
  - apply IH; [intros x Hx; apply Hxs; by right|].
    assert (Hy : y = m ∨ flt (k y) (k m) = true) by (apply Hxs; left).
    unfold fgt. destruct Hb as [->|[Hm Hlt]].
    + left. destruct Hy as [->|Hy]; [by rewrite Hirr|].
      by rewrite (flt_asym _ _ Hy).
    + destruct Hy as [->|Hy].
      * left. by rewrite Hlt.
      * right. apply elem_of_cons in Hm as [->|Hm].
        { by rewrite Hirr in Hy. }
        split; [done|]. by destruct (flt (k b) (k y)).
Qed.

Lemma py_max_by_unique {A} (k : A → pyfloat) (m : A) (l : list A) :
  m ∈ l →
  (∀ x, x ∈ l → x = m ∨ flt (k x) (k m) = true) →
  py_max_by k l = Some m.
Proof.
  intros Hm Hl. destruct l as [|b xs]; [by apply elem_of_nil in Hm|].
  simpl. f_equal. apply fold_max_unique.
  - intros x Hx. apply Hl. by right.
  - destruct (Hl b) as [->|Hb]; [left|by left|].
    apply elem_of_cons in Hm as [->|Hm]; [by left|by right].
Qed.


(** ** The feature extractor and the voter *)

(** The shape of the voter's result when the total weight is not zero. *)
Lemma voting_weighted (l : list Attempt) :
  feqb (vote_total_weight l) (of_Z 0) = false →
  ∃ best, py_max_by conf l = Some best ∧
    confidence_weighted_voting l = Some {|
      features := update_angles (features best)
        (λ key, np_div (weighted_sum key l) (vote_total_weight l));
      threshold_used := threshold_used best;
      stage := stage best;
      scale := scale best;
      voting_info := Some {|
        num_results := length l;
        total_weight := py_round 3 (vote_total_weight l);
        scales_used := map scale l;
        stages_used := map stage l |} |}.
Proof.
  intros Hw. destruct l as [|a l]; [discriminate|].
  unfold confidence_weighted_voting. rewrite Hw.
  exists (fold_left (λ best y, if fgt (conf y) (conf best) then y else best) l a).
  split; reflexivity.
Qed.

Section EnhancedProps.
Context `{MathLib}.




End EnhancedProps.



(** *** Order of the attempts *)

Lemma vote_total_weight_Permutation (l l' : list Attempt) :
  l ≡ₚ l' → vote_total_weight l = vote_total_weight l'.
Proof. intros HP. apply py_sum_Permutation. by apply Permutation_map. Qed.

Lemma weighted_sum_Permutation key (l l' : list Attempt) :
  l ≡ₚ l' → weighted_sum key l = weighted_sum key l'.
Proof. intros HP. apply py_sum_Permutation. by apply Permutation_map. Qed.

(** C2, as the code has it: for a permutation of the attempts (total
    weight not zero) the five fused angles, the number of results and the
    total weight are identical, and the lists of scales and stages used
    are permutations of each other.  When one attempt has a confidence
    strictly above all others, the whole feature vector and the base
    identity (threshold, stage, scale) are identical too. *)
Theorem voting_permutation (l l' : list Attempt) :
  l ≡ₚ l' →
  feqb (vote_total_weight l) (of_Z 0) = false →
  ∃ r r' v v',
    confidence_weighted_voting l = Some r ∧
    confidence_weighted_voting l' = Some r' ∧
    voting_info r = Some v ∧ voting_info r' = Some v' ∧
    shoulder_rotation (features r) = shoulder_rotation (features r') ∧
    hip_rotation (features r) = hip_rotation (features r') ∧
    x_factor (features r) = x_factor (features r') ∧
    spine_angle (features r) = spine_angle (features r') ∧
    knee_flex (features r) = knee_flex (features r') ∧
    num_results v = num_results v' ∧
    total_weight v = total_weight v' ∧
    scales_used v ≡ₚ scales_used v' ∧
    stages_used v ≡ₚ stages_used v' ∧
    (∀ m, m ∈ l → (∀ x, x ∈ l → x = m ∨ flt (conf x) (conf m) = true) →
       features r = features r' ∧
       threshold_used r = threshold_used r' ∧
       stage r = stage r' ∧
       scale r = scale r').
Proof.
  intros HP Hw.
  assert (Hw' : feqb (vote_total_weight l') (of_Z 0) = false)
    by (by rewrite <- (vote_total_weight_Permutation l l')).
  destruct (voting_weighted l Hw) as (b & Hb & ->).
  destruct (voting_weighted l' Hw') as (b' & Hb' & ->).
  do 4 eexists. do 4 (split; [reflexivity|]). simpl.
  rewrite <- !(weighted_sum_Permutation _ l l' HP).
  rewrite <- !(vote_total_weight_Permutation l l' HP).
  do 5 (split; [reflexivity|]).
  split; [by apply Permutation_length|].
  split; [reflexivity|].
  split; [by apply Permutation_map|].
  split; [by apply Permutation_map|].
  intros m Hm Hmax.
  rewrite (py_max_by_unique conf m l Hm Hmax) in Hb.
  rewrite (py_max_by_unique conf m l') in Hb'.
  - injection Hb as <-. injection Hb' as <-. unfold update_angles.
    by rewrite <- !(weighted_sum_Permutation _ l l' HP).
  - by rewrite <- HP.
  - intros x Hx. apply Hmax. by rewrite HP.
Qed.

Lemma voting_permutation_witness :
  ∃ r r',
    confidence_weighted_voting [attempt_weak; attempt_small] = Some r ∧
    confidence_weighted_voting [attempt_small; attempt_weak] = Some r' ∧
    features r = features r' ∧ scale r = scale r'.
Proof.
  destruct (voting_permutation [attempt_weak; attempt_small]
                               [attempt_small; attempt_weak])
    as (r & r' & v & v' & Hr & Hr' & _ & _ & _ & _ & _ & _ & _ & _ & _ & _ & _ & Hbase).
  - apply perm_swap.
  - by vm_compute.
  - exists r, r'. do 2 (split; [assumption|]).
    destruct (Hbase attempt_small) as (Hf & _ & _ & Hs).
    + apply list_elem_of_further, list_elem_of_here.
    + intros x Hx. apply elem_of_cons in Hx as [->|Hx]; [right; by vm_compute|].
      apply list_elem_of_singleton in Hx as ->. by left.
    + by split.
Defined.

(** C2, as the claim states it, fails: with two attempts of equal
    confidence the base identity follows the order of the list, and so do
    the lists of scales and stages in the voting information. *)
Lemma voting_depends_on_order :
  [attempt_small; attempt_large] ≡ₚ [attempt_large; attempt_small] ∧
  confidence_weighted_voting [attempt_small; attempt_large]
    ≠ confidence_weighted_voting [attempt_large; attempt_small] ∧
  scale <$> confidence_weighted_voting [attempt_small; attempt_large] = Some (qc 0.8) ∧
  scale <$> confidence_weighted_voting [attempt_large; attempt_small] = Some (qc 1.0).
Proof. split; [apply perm_swap|]. repeat split; compute_done. Qed.

(** ** The single-frame scorers *)

(** C3: for every feature vector, whatever its values (NaN and the
    infinities included), and every quality level,
    [calculate_enhanced_score] lies in [78, 96] and [calculate_pro_score]
    in [70, 95].  The fixed values 65 and 60 are what the two scorers
    return for a missing or empty feature dictionary, which is not a
    feature input. *)
Theorem single_frame_score_bounds :
  (∀ (f : FeatureVector) (quality_level : string),
     78 ≤ calculate_enhanced_score (Some f) quality_level ≤ 96) ∧
  (∀ f : Pro.ProFeatures, 70 ≤ Pro.calculate_pro_score (Some f) ≤ 95) ∧
  (∀ quality_level, calculate_enhanced_score None quality_level = 65) ∧
  Pro.calculate_pro_score None = 60.
Proof.
  repeat split; try reflexivity;
    unfold calculate_enhanced_score, Pro.calculate_pro_score; lia.
Qed.

(** The maximal X-factor bonus at the ideal X-factor 45. *)
Example enhanced_score_ideal :
  calculate_enhanced_score
    (Some {| shoulder_rotation := of_Z 90; hip_rotation := of_Z 45;
             x_factor := of_Z 45; spine_angle := of_Z 50;
             knee_flex := of_Z 50; confidence := Fin (qc 0.5) |}) "low" = 96.
Proof. reflexivity. Qed.

(** ** Quality assessment *)

(** C7, as the code has it: the resolution score and the sharpness score
    are each capped at 100; 50 is the score of the 640x480 baseline and
    of a Laplacian variance of 100. *)
Theorem quality_subscores_capped_at_100 :
  (∀ h w : N, fle (resolution_score h w) (of_Z 100) = true) ∧
  (∀ laplacian_var : Qc, fle (sharpness_score laplacian_var) (of_Z 100) = true) ∧
  resolution_score 480 640 = of_Z 50 ∧
  sharpness_score (qc 100) = of_Z 50.
Proof.
  split; [|split; [|split]].
  - intros h w. apply py_min_100_le.
  - intros laplacian_var. apply py_min_100_le.
  - compute_done.
  - compute_done.
Qed.

(** C7, as the claim states it, fails: a 1280x960 frame has resolution
    score 100 and a Laplacian variance of 400 gives sharpness score 100,
    both above 50. *)
Lemma quality_subscores_exceed_50 :
  resolution_score 960 1280 = of_Z 100 ∧
  sharpness_score (qc 400) = of_Z 100 ∧
  fle (resolution_score 960 1280) (of_Z 50) = false ∧
  fle (sharpness_score (qc 400)) (of_Z 50) = false.
Proof. repeat split; compute_done. Qed.

(** The quality level boundary: 69.9 is medium, 70 is high. *)
Example quality_level_boundary :
  quality_level (assess_image_quality
    {| height := 480; width := 640; laplacian_var := qc 120;
       mean_brightness := qc 128 |}) = "high" ∧
  quality_level (assess_image_quality
    {| height := 480; width := 640; laplacian_var := qc 119.4;
       mean_brightness := qc 128 |}) = "medium".
Proof. split; reflexivity. Qed.

(** ** The angle at a joint *)

Section AngleProps.
Context `{MathLib}.

Lemma np_clip_range (c : pyfloat) :
  c = NaN ∧ np_clip c = NaN ∨
  ∃ x, np_clip c = Fin x ∧ (qc (-1) ≤ x)%Qc ∧ (x ≤ qc 1)%Qc.
Proof.
  destruct c as [x| |[]]; [|by left|right..].
  - right. unfold np_clip, fgt. simpl.
    destruct (qltb x (qc (-1))) eqn:Hlo; [by exists (qc (-1))|].
    destruct (qltb (qc 1) x) eqn:Hhi; [by exists (qc 1)|].
    exists x. split; [reflexivity|].
    apply not_true_iff_false in Hlo, Hhi. rewrite qltb_lt in Hlo, Hhi.
    split; by apply Qcnot_lt_le.
  - by exists (qc (-1)).
  - by exists (qc 1).
Qed.

(** When the angle is a number, it is a degree value in [0, 180]. *)
Lemma calculate_angle_3points_range (point1 point2 point3 : option Landmark) :
  calculate_angle_3points point1 point2 point3 = NaN ∨
  ∃ a, calculate_angle_3points point1 point2 point3 = Fin a ∧
       (0 ≤ a)%Qc ∧ (a ≤ qc 180)%Qc.
Proof.
  assert (H90 : ∃ a, of_Z 90 = Fin a ∧ (0 ≤ a)%Qc ∧ (a ≤ qc 180)%Qc)
    by (eexists; by split).
  unfold calculate_angle_3points.
  destruct point1 as [p1|], point2 as [p2|], point3 as [p3|]; simpl; try by right.
  match goal with |- context [np_clip ?c] => destruct (np_clip_range c) as [[_ ->]|(x & -> & Hlo & Hhi)] end.
  - by left.
  - right. unfold math_acos_deg.
    apply qleb_le in Hlo as Hlo', Hhi as Hhi'. rewrite Hlo', Hhi'. simpl.
    eexists. split; [reflexivity|]. by apply acos_deg_range.
Qed.

(** When the two vectors at the joint have a product of lengths other than
    zero, the angle is a degree value in [0, 180]. *)
Lemma calculate_angle_3points_nondegenerate (p1 p2 p3 : Landmark) :
  (norm2 (lx p1 - lx p2) (ly p1 - ly p2) * norm2 (lx p3 - lx p2) (ly p3 - ly p2))%Qc
    ≠ 0%Qc →
  ∃ a, calculate_angle_3points (Some p1) (Some p2) (Some p3) = Fin a ∧
       (0 ≤ a)%Qc ∧ (a ≤ qc 180)%Qc.
Proof.
  intros Hnorm. unfold calculate_angle_3points. cbn [mbind option_bind].
  unfold np_div at 1. apply qeqb_neq in Hnorm. rewrite Hnorm.
  match goal with |- context [np_clip ?c] =>
    destruct (np_clip_range c) as [[? _]|(x & -> & Hlo & Hhi)]; [discriminate|]
  end.
  unfold math_acos_deg.
  apply qleb_le in Hlo as Hlo', Hhi as Hhi'. rewrite Hlo', Hhi'. cbn [andb].
  eexists. split; [reflexivity|]. by apply acos_deg_range.
Qed.

(** C10 at the failing input: when the first point coincides with the
    joint, nothing is raised, the default 90 is not used, and the result
    is NaN. *)
Theorem calculate_angle_3points_coincident (p q : Landmark) :
  calculate_angle_3points (Some p) (Some p) (Some q) = NaN.
Proof.
  unfold calculate_angle_3points, norm2. simpl.
  replace (lx p - lx p)%Qc with 0%Qc by ring.
  replace (ly p - ly p)%Qc with 0%Qc by ring.
  replace (0 * 0 + 0 * 0)%Qc with 0%Qc by ring.
  rewrite sqrt_0.
  replace (0 * (lx q - lx p) + 0 * (ly q - ly p))%Qc with 0%Qc by ring.
  replace (0 * sqrt _)%Qc with 0%Qc by ring.
  reflexivity.
Qed.

(** An object without coordinates raises inside the [try]: the default. *)
Lemma calculate_angle_3points_default (point2 point3 : option Landmark) :
  calculate_angle_3points None point2 point3 = of_Z 90.
Proof. reflexivity. Qed.

End AngleProps.

(** With coincident knee and hip the knee flex of the extracted features
    is NaN. *)
Example knee_flex_nan :
  knee_flex <$> extract_golf_features (replicate 33 (lm 0.5 0.5)) = Some NaN.
Proof. reflexivity. Qed.

(** ** The analysis and the program boundary *)

(** Reduction of the binds of the exception monad only. *)
Ltac res_simpl := cbn [mbind res_bind mret res_ret].

Section PipelineProps.
Context `{MathLib} {Image : Type} `{Vision Image} `{Json}.







End PipelineProps.



(** [strip] removes the no-break spaces around the text. *)
Example py_strip_no_break_spaces :
  py_strip text_in_no_break_spaces = "aGVsbG8=" ∧
  py_strip (String " " (String "010" "aGVsbG8= ")) = "aGVsbG8=" ∧
  py_len text_in_no_break_spaces = 10%nat.
Proof. repeat split; reflexivity. Qed.

(** A data URL without a comma: the index error raised by [split(',')[1]]
    is caught and reported. *)
Example analyze_enhanced_data_url_without_comma :
  analyze_enhanced (Image := nat) (H := coarse_mathlib) (H0 := blind_vision) "data:image/png"
    = Failure "Enhanced 분석 시스템 오류: list index out of range" (Some true) None
              (Some "Enhanced Golf Analyzer Error").
Proof. reflexivity. Qed.

(** A detected golfer: three scales contribute, and the score is in the
    scorer's range. *)
Example analyze_enhanced_upright :
  match analyze_enhanced (Image := nat) (H := coarse_mathlib) (H0 := upright_vision)
                         "aGVsbG8=" with
  | Success a =>
      score a = 92 ∧ scales_tested (processing_info a) = 3%nat ∧
      num_results (voting_results (processing_info a)) = 3%nat ∧
      best_scale (processing_info a) = qc 0.8
  | Failure _ _ _ _ => False
  end.
Proof. vm_compute. repeat split; reflexivity. Qed.

(** The detector that finds a pose in the frame of 12 pixels only: an
    input of 12 characters is analysed, one of 8 characters is not. *)
Example analyze_enhanced_selective :
  success (analyze_enhanced (Image := nat) (H := coarse_mathlib) (H0 := selective_vision)
                            "aGVsbG8gd29y") = true ∧
  success (analyze_enhanced (Image := nat) (H := coarse_mathlib) (H0 := selective_vision)
                            "aGVsbG8=") = false.
Proof. split; by vm_compute. Qed.

(** ** The swing phase classifier *)

(** C6, as the code has it: the phase returned by [detect_swing_phase_ml]
    is a function of the progress [frame_num / total_frames] and of the
    shoulder rotation alone, and on the progress values 0.0, 0.1, ..., 1.0
    at a rotation of 80 it is address, top, top, top, top, transition,
    impact, follow_through, finish, finish, finish. *)
Theorem detect_swing_phase_ml_pure_and_sequence :
  (∀ (angles angles' : Angles) (frame_num total_frames frame_num' total_frames' : Z),
     int_truediv frame_num total_frames = int_truediv frame_num' total_frames' →
     get angles "shoulder_rotation" (of_Z 0) = get angles' "shoulder_rotation" (of_Z 0) →
     detect_swing_phase_ml angles frame_num total_frames
       = detect_swing_phase_ml angles' frame_num' total_frames') ∧
  map (λ frame_num, detect_swing_phase_ml rotation_80 frame_num 10) progress_sequence
    = map Ok ["address"; "top"; "top"; "top"; "top"; "transition"; "impact";
              "follow_through"; "finish"; "finish"; "finish"].
Proof.
  split.
  - intros angles angles' n t n' t' Hprogress Hrot.
    unfold detect_swing_phase_ml. by rewrite Hprogress, Hrot.
  - reflexivity.
Qed.

Lemma detect_swing_phase_ml_pure_and_sequence_witness :
  detect_swing_phase_ml rotation_80 3 10
    = detect_swing_phase_ml (<["hip_rotation" := of_Z 40]> rotation_80) 6 20.
Proof.
  apply (proj1 detect_swing_phase_ml_pure_and_sequence).
  - compute_done.
  - reflexivity.
Defined.

(** C6, as the claim states it, fails: the sequence the claim expects is
    not the one the classifier returns; they differ at progress 0.1 (top,
    not takeaway, since the rotation is not below 30), at 0.5 (transition)
    and at 0.6, 0.7 and 0.8. *)
Lemma detect_swing_phase_ml_sequence_differs :
  map (λ frame_num, detect_swing_phase_ml rotation_80 frame_num 10) progress_sequence
    ≠ map Ok ["address"; "takeaway"; "top"; "top"; "top"; "top"; "downswing";
              "impact"; "follow_through"; "finish"; "finish"] ∧
  detect_swing_phase_ml rotation_80 1 10 = Ok "top" ∧
  detect_swing_phase_ml rotation_80 5 10 = Ok "transition" ∧
  detect_swing_phase_ml rotation_80 6 10 = Ok "impact".
Proof. split; [discriminate|]. repeat split; reflexivity. Qed.

(** Without frames the division raises. *)
Example detect_swing_phase_ml_no_frames :
  detect_swing_phase_ml rotation_80 0 0
    = Raise {| exn_type := "ZeroDivisionError"; exn_msg := "division by zero" |}.
Proof. reflexivity. Qed.

(** ** Fault detection and the random generator *)

(** C5 at the failing input: the same timeline analysed twice in one
    process gives no fault the first time and a sway fault the second
    time, because the sway measurement is a draw of the random
    generator. *)
Theorem detect_advanced_faults_twice_differs :
  detect_advanced_faults short_angles short_phases two_samples
    = Ok ([], one_sample_drawn) ∧
  result_of (detect_advanced_faults short_angles short_phases one_sample_drawn)
    = Ok [sway_fault].
Proof. split; [reflexivity|compute_done]. Qed.

(** A timeline without an address frame draws no sample. *)
Example detect_advanced_faults_no_draw :
  detect_advanced_faults short_angles ["takeaway"; "backswing"] two_samples
    = Ok ([], two_samples).
Proof. reflexivity. Qed.

(** ** The video score *)

Lemma qltb_false_le (a b : Qc) : qltb a b = false → (b ≤ a)%Qc.
Proof.
  intros Hlt. apply Qcnot_lt_le. intros Hab. apply qltb_lt in Hab. congruence.
Qed.

(** Order facts between rationals and constants, through [lra] on [Q]. *)
Ltac qc_lra :=
  unfold Qclt, Qcle in *;
  repeat match goal with
         | H : context [this (qc ?q)] |- _ =>
             let v := eval vm_compute in (this (qc q)) in
             change (this (qc q)) with v in H
         | |- context [this (qc ?q)] =>
             let v := eval vm_compute in (this (qc q)) in
             change (this (qc q)) with v
         end;
  change (this (Q2Qc 0)) with 0%Q in *;
  lra.

(** Order facts on [Qc], through the arithmetic of [Q]. *)
Lemma this_plus (x y : Qc) : (this (x + y)%Qc == this x + this y)%Q.
Proof. apply Qred_correct. Qed.
Lemma this_mult (x y : Qc) : (this (x * y)%Qc == this x * this y)%Q.
Proof. apply Qred_correct. Qed.
Lemma this_opp (x : Qc) : (this (- x)%Qc == - this x)%Q.
Proof. apply Qred_correct. Qed.
Lemma this_minus (x y : Qc) : (this (x - y)%Qc == this x - this y)%Q.
Proof. unfold Qcminus. rewrite this_plus, this_opp. reflexivity. Qed.
Lemma this_inv (x : Qc) : (this (/ x)%Qc == / this x)%Q.
Proof. apply Qred_correct. Qed.
Lemma this_div (x y : Qc) : (this (x / y)%Qc == this x / this y)%Q.
Proof. unfold Qcdiv. rewrite this_mult, this_inv. reflexivity. Qed.

Ltac qc_to_q :=
  unfold Qcle, Qclt in *;
  repeat match goal with
         | H : context [this (_ + _)%Qc] |- _ => rewrite this_plus in H
         | H : context [this (_ - _)%Qc] |- _ => rewrite this_minus in H
         | H : context [this (_ * _)%Qc] |- _ => rewrite this_mult in H
         | H : context [this (- _)%Qc] |- _ => rewrite this_opp in H
         | |- context [this (_ + _)%Qc] => rewrite this_plus
         | |- context [this (_ - _)%Qc] => rewrite this_minus
         | |- context [this (_ * _)%Qc] => rewrite this_mult
         | |- context [this (- _)%Qc] => rewrite this_opp
         end;
  change (this 0%Qc) with 0%Q in *.

Ltac qc_consts :=
  repeat match goal with
         | H : context [this (Q2Qc (inject_Z (Zpos ?p)))] |- _ =>
             let v := eval vm_compute in (this (Q2Qc (inject_Z (Zpos p)))) in
             change (this (Q2Qc (inject_Z (Zpos p)))) with v in H
         | |- context [this (Q2Qc (inject_Z (Zpos ?p)))] =>
             let v := eval vm_compute in (this (Q2Qc (inject_Z (Zpos p)))) in
             change (this (Q2Qc (inject_Z (Zpos p)))) with v
         end;
  change (this (Q2Qc (inject_Z 0))) with 0%Q in *.

Ltac qc_arith := qc_to_q; qc_consts; qc_lra.

Ltac qltb_cases :=
  repeat match goal with
         | |- context [qltb ?a ?b] =>
             let E := fresh "E" in
             destruct (qltb a b) eqn:E;
             [apply qltb_lt in E | apply qltb_false_le in E]; cbn [flt]
         end.

(** [max(0, min(100, x))], and [min(100, .)] of it, is the clamp. *)
Lemma py_clamp_fin (x : Qc) :
  py_max (of_Z 0) (py_min (of_Z 100) (Fin x)) = Fin (clamp_0_100 x) ∧
  py_min (of_Z 100) (Fin (clamp_0_100 x)) = Fin (clamp_0_100 x).
Proof.
  unfold py_max, py_min, fgt, of_Z, clamp_0_100. cbn [flt].
  change (Q2Qc (inject_Z 100)) with (qc 100).
  change (Q2Qc (inject_Z 0)) with (qc 0).
  change (Q2Qc 0) with (qc 0).
  qltb_cases;
    (split; first [reflexivity | exfalso; qc_lra | f_equal; apply Qcle_antisym; qc_lra]).
Qed.



Section VideoScore.
Context `{MathLib}.



End VideoScore.


(** C5, on the whole analysis: the same timeline analysed twice in one
    process gives two different results. *)
Example comprehensive_analysis_twice_differs :
  ∃ r1 rng1 r2 rng2,
    comprehensive_analysis (H := coarse_mathlib)
      swing_landmarks swing_angles swing_phases (of_Z 30) two_samples = Ok (r1, rng1) ∧
    comprehensive_analysis (H := coarse_mathlib)
      swing_landmarks swing_angles swing_phases (of_Z 30) rng1 = Ok (r2, rng2) ∧
    overall_score r1 = Fin (qc 76.3125) ∧
    overall_score r2 = Fin (qc 71.3125) ∧
    map f_type (faults r1) = [] ∧
    map f_type (faults r2) = ["sway"].
Proof.
  eexists _, _, _, _. split; [by vm_compute|]. split; [by vm_compute|].
  repeat split; compute_done.
Qed.


(** ** The cache of [GolfSwingAnalyzer] *)

Section CacheProps.
Context {Image : Type} `{Basic.Vision Image}.

(** What an analysis without the cache returns does not depend on the
    instance. *)
Lemma analyze_uncached_output (self self' : Basic.Analyzer) (image : Image) (h : Z) :
  (Basic.analyze_uncached self image h).1 = (Basic.analyze_uncached self' image h).1.
Proof.
  unfold Basic.analyze_uncached.
  destruct (Basic.pose_process image) as [[pose_landmarks|]|e]; try reflexivity.
  destruct (Basic.is_golf_posture _); [|reflexivity].
  by destruct (Basic.calculate_golf_angles pose_landmarks).
Qed.

(** The instance after one call on a new instance: a stored result is the
    result of that call, stored with the hash of its image. *)
Lemma analyze_image_new_stores (input : string) (cached : Basic.Output) :
  Basic.last_result (Basic.analyze_image Basic.new_analyzer input).2 = Some cached →
  ∃ image,
    Basic.decode_input input = Ok (Some image) ∧
    cached = (Basic.analyze_uncached Basic.new_analyzer image (Basic.image_hash image)).1 ∧
    Basic.last_image_hash (Basic.analyze_image Basic.new_analyzer input).2
      = Some (Basic.image_hash image).
Proof.
  unfold Basic.analyze_image.
  destruct (Basic.decode_input input) as [[image|]|e]; try discriminate.
  cbn [Basic.last_result Basic.new_analyzer]. intros Hstored.
  exists image. split; [reflexivity|]. revert Hstored.
  unfold Basic.analyze_uncached.
  destruct (Basic.pose_process image) as [[pose_landmarks|]|e]; try discriminate.
  destruct (Basic.is_golf_posture _); [|discriminate].
  destruct (Basic.calculate_golf_angles pose_landmarks); [|discriminate].
  cbn. by intros [= <-].
Qed.

(** C9, as the code has it: the instance keeps a cache of one entry.
    After a call that reports a detected golf posture the instance holds
    the returned result and the hash of the decoded image.  For two inputs
    whose decoded images are equal whenever their hashes are, the second
    call on a new instance returns what a call on a new instance returns
    for it. *)
Theorem analyzer_cache :
  (∀ first second,
     (∀ image image',
        Basic.decode_input first = Ok (Some image) →
        Basic.decode_input second = Ok (Some image') →
        Basic.image_hash image = Basic.image_hash image' → image = image') →
     (Basic.analyze_image (Basic.analyze_image Basic.new_analyzer first).2 second).1
       = (Basic.analyze_image Basic.new_analyzer second).1) ∧
  (∀ self input,
     Basic.detected (Basic.analyze_image self input).1 = true →
     Basic.last_result (Basic.analyze_image self input).2
       = Some (Basic.analyze_image self input).1 ∧
     ∃ image,
       Basic.decode_input input = Ok (Some image) ∧
       Basic.last_image_hash (Basic.analyze_image self input).2
         = Some (Basic.image_hash image)).
Proof.
  split.
  - intros first second Hinj.
    destruct (Basic.last_result (Basic.analyze_image Basic.new_analyzer first).2)
      as [cached|] eqn:Hcached.
    + destruct (analyze_image_new_stores first cached Hcached)
        as (image & Hfirst & -> & Hhash).
      unfold Basic.analyze_image at 1 3.
      destruct (Basic.decode_input second) as [[image'|]|e] eqn:Hsecond;
        try reflexivity.
      rewrite Hcached, Hhash. cbn [Basic.last_result Basic.new_analyzer].
      case_bool_decide as Hsame.
      * injection Hsame as Hsame.
        rewrite (Hinj image image' Hfirst eq_refl Hsame). reflexivity.
      * apply analyze_uncached_output.
    + unfold Basic.analyze_image at 1 3.
      destruct (Basic.decode_input second) as [[image'|]|e]; try reflexivity.
      rewrite Hcached. apply analyze_uncached_output.
  - intros self input. unfold Basic.analyze_image.
    destruct (Basic.decode_input input) as [[image|]|e]; [|discriminate..].
    assert (Huncached :
      Basic.detected (Basic.analyze_uncached self image (Basic.image_hash image)).1
        = true →
      Basic.last_result (Basic.analyze_uncached self image (Basic.image_hash image)).2
        = Some (Basic.analyze_uncached self image (Basic.image_hash image)).1 ∧
      ∃ image0, Ok (Some image) = Ok (Some image0) ∧
        Basic.last_image_hash (Basic.analyze_uncached self image (Basic.image_hash image)).2
          = Some (Basic.image_hash image0)).
    { unfold Basic.analyze_uncached.
      destruct (Basic.pose_process image) as [[pose_landmarks|]|e];
        [|discriminate|by destruct e as [ty msg]; unfold Basic.fallback_output;
                         repeat case_match].
      destruct (Basic.is_golf_posture _); [|discriminate].
      destruct (Basic.calculate_golf_angles pose_landmarks) as [angles|e].
      - intros _. split; [reflexivity|]. by exists image.
      - by destruct e as [ty msg]; unfold Basic.fallback_output; repeat case_match. }
    destruct (Basic.last_result self) as [cached|] eqn:Hcached; [|done].
    case_bool_decide as Hsame; [|done].
    intros _. split; [done|]. by exists image.
Qed.

End CacheProps.

Lemma analyzer_cache_witness :
  (Basic.analyze_image (Basic.analyze_image Basic.new_analyzer "a").2 "bb").1
    = (Basic.analyze_image Basic.new_analyzer "bb").1.
Proof.
  apply (proj1 (analyzer_cache (H := three_frames))).
  intros image image' _ _ Hhash. by apply Nat2Z.inj in Hhash.
Defined.

(** C9, as the claim states it, fails: a call that detects a golfer
    leaves its result on the instance, and after the calls on the golfer
    and on the bystander a second call on the bystander returns the
    golfer's result. *)
Lemma analyzer_keeps_state :
  (Basic.analyze_image Basic.new_analyzer "a").2 ≠ Basic.new_analyzer ∧
  Basic.detected (Basic.analyze_image Basic.new_analyzer "a").1 = true ∧
  Basic.error (Basic.analyze_image Basic.new_analyzer "bb").1
    = Some "Not a golf posture" ∧
  (Basic.analyze_image (Basic.analyze_images Basic.new_analyzer ["a"; "bb"]).2 "bb").1
    = (Basic.analyze_image Basic.new_analyzer "a").1 ∧
  (Basic.analyze_image (Basic.analyze_images Basic.new_analyzer ["a"; "bb"]).2 "bb").1
    ≠ (Basic.analyze_image Basic.new_analyzer "bb").1.
Proof. repeat split; compute_done. Qed.

(* ===================================================================== *)
(** * Further properties *)
(* ===================================================================== *)

(** ** Order on the numbers *)

Lemma flt_trans (a b c : pyfloat) :
  flt a b = true → flt b c = true → flt a c = true.
Proof.
  destruct a as [x| |[]], b as [y| |[]], c as [z| |[]]; simpl; try done.
  rewrite !qltb_lt. apply Qclt_trans.
Qed.

Lemma flt_0_feqb (a : pyfloat) :
  flt (of_Z 0) a = true → feqb a (of_Z 0) = false.
Proof.
  destruct a as [x| |[]]; simpl; try done.
  rewrite qltb_lt. intros Hpos. apply qeqb_neq. intros ->.
  by apply (Qclt_not_le _ _ Hpos), Qcle_refl.
Qed.

Lemma fadd_pos (a b : pyfloat) :
  flt (of_Z 0) a = true → flt (of_Z 0) b = true → flt (of_Z 0) (fadd a b) = true.
Proof.
  destruct a as [x| |[]], b as [y| |[]]; simpl; try done.
  rewrite !qltb_lt. apply Qcplus_pos_pos.
Qed.

Lemma fadd_0_l (a : pyfloat) : fadd (of_Z 0) a = a.
Proof.
  destruct a as [x| |n]; simpl; try done. f_equal.
  change (Q2Qc (inject_Z 0)) with 0%Qc. ring.
Qed.

(** A sum of numbers above zero is above zero. *)
Lemma py_sum_pos (l : list pyfloat) :
  l ≠ [] → Forall (λ a, flt (of_Z 0) a = true) l → flt (of_Z 0) (py_sum l) = true.
Proof.
  intros Hne Hpos. destruct l as [|a l]; [done|].
  unfold py_sum. cbn [fold_left]. apply Forall_cons in Hpos as [Ha Hl].
  change (Fin 0%Qc) with (of_Z 0). rewrite fadd_0_l.
  clear Hne. revert a Ha. induction Hl as [|b l Hb _ IH]; intros a Ha; [done|].
  cbn [fold_left]. apply IH. by apply fadd_pos.
Qed.

(** What [max(l, key=k)] returns is an element of [l] whose key no other
    key exceeds. *)
Lemma fold_max_greatest {A} (k : A → pyfloat) (xs : list A) (b m : A) :
  fold_left (λ best y, if fgt (k y) (k best) then y else best) xs b = m →
  m ∈ b :: xs ∧ (flt (k b) (k m) = true ∨ m = b) ∧
  ∀ x, x ∈ xs → fgt (k x) (k m) = false.
Proof.
  revert b. induction xs as [|y ys IH]; intros b; cbn [fold_left].
  - intros <-. split; [left|]. split; [by right|].
    intros x Hx. by apply elem_of_nil in Hx.
  - intros Hm. destruct (IH _ Hm) as (Hin & Hab & Hmax). clear IH Hm.
    unfold fgt in Hin, Hab. destruct (flt (k b) (k y)) eqn:Hby.
    + split; [by right|]. split.
      * left. destruct Hab as [Hym|Heq]; [by eapply flt_trans|by rewrite Heq].
      * intros x Hx. apply elem_of_cons in Hx as [->|Hx]; [|by apply Hmax].
        unfold fgt. destruct Hab as [Hym|Heq];
          [by apply flt_asym|rewrite Heq; apply flt_irrefl].
    + split.
      { apply elem_of_cons in Hin as [Heq|Hin]; [rewrite Heq; left|by do 2 right]. }
      split; [done|].
      intros x Hx. apply elem_of_cons in Hx as [->|Hx]; [|by apply Hmax].
      unfold fgt. destruct Hab as [Hbm|Heq]; [|by rewrite Heq].
      apply not_true_iff_false. intros Hmy.
      by rewrite (flt_trans _ _ _ Hbm Hmy) in Hby.
Qed.

Lemma py_max_by_greatest {A} (k : A → pyfloat) (l : list A) (m : A) :
  py_max_by k l = Some m →
  m ∈ l ∧ ∀ x, x ∈ l → fgt (k x) (k m) = false.
Proof.
  destruct l as [|b xs]; [discriminate|]. unfold py_max_by. intros [= Hm].
  destruct (fold_max_greatest k xs b m Hm) as (Hin & Hab & Hmax).
  split; [done|]. intros x Hx. apply elem_of_cons in Hx as [->|Hx]; [|by apply Hmax].
  unfold fgt. destruct Hab as [Hbm|Heq]; [by apply flt_asym|rewrite Heq; apply flt_irrefl].
Qed.

(** ** The detection loops of [EnhancedGolfAnalyzer] *)

Section DetectionProps.
Context `{MathLib} {Image : Type} `{Vision Image}.

Lemma detection_stage_inv (image : Image) (done : list Qc) (threshold : Qc)
    (state : option StageResult * pyfloat) :
  stages_inv image done state →
  stages_inv image (done ++ [threshold])
             (detection_stage image state (length done) threshold).
Proof.
  destruct state as [best b]. intros [Hbest Hmax]. cbn [fst snd] in *.
  assert (Hkeep : stages_inv image done (best, b) →
                  (∀ landmarks f,
                     pose_process image threshold = Ok (Some landmarks) →
                     extract_golf_features landmarks = Some f →
                     fgt (confidence f) b = false) →
                  stages_inv image (done ++ [threshold]) (best, b)).
  { intros [Hb Hm] Hnew. cbn [fst snd] in *. split; cbn [fst snd].
    - destruct best as [r|]; [|done].
      destruct Hb as (Hb & Hpos & i & lms & Hi & Hst & Hp & Hf).
      split; [done|]. split; [done|]. exists i, lms.
      split; [|done]. by apply lookup_app_l_Some.
    - intros t lms f Ht. apply elem_of_app in Ht as [Ht|Ht]; [by apply Hm|].
      apply list_elem_of_singleton in Ht as ->. apply Hnew. }
  unfold detection_stage.
  destruct (pose_process image threshold) as [[landmarks|]|e] eqn:Hp;
    [|by apply Hkeep..].
  destruct (extract_golf_features landmarks) as [f|] eqn:Hf;
    [|apply Hkeep; [done|]; intros lms f' [= <-]; congruence].
  destruct (fgt (confidence f) b) eqn:Hfb;
    [|apply Hkeep; [done|]; intros lms f' [= <-]; congruence].
  unfold fgt in Hfb. split; cbn [fst snd sr_features sr_threshold_used sr_stage].
  - split; [done|]. split.
    + unfold fgt. destruct best as [r|].
      * destruct Hbest as (-> & Hpos & _). by eapply flt_trans.
      * by rewrite Hbest in Hfb.
    + exists (length done), landmarks.
      split; [by rewrite lookup_app_r, Nat.sub_diag|].
      split; [apply Nat.add_1_r|done].
  - intros t lms f' Ht Hp' Hf'.
    apply elem_of_app in Ht as [Ht|Ht].
    + unfold fgt. apply not_true_iff_false. intros Hgt.
      pose proof (Hmax t lms f' Ht Hp' Hf') as Hold. unfold fgt in Hold.
      by rewrite (flt_trans _ _ _ Hfb Hgt) in Hold.
    + apply list_elem_of_singleton in Ht as ->.
      assert (f' = f) as -> by congruence. unfold fgt. apply flt_irrefl.
Qed.

Lemma detection_stages_inv (image : Image) (done thresholds : list Qc)
    (state : option StageResult * pyfloat) :
  stages_inv image done state →
  stages_inv image (done ++ thresholds)
             (detection_stages image state (length done) thresholds).
Proof.
  revert done state. induction thresholds as [|t ts IH]; intros done state Hinv.
  - by rewrite app_nil_r.
  - cbn [detection_stages].
    replace (done ++ t :: ts) with ((done ++ [t]) ++ ts) by by rewrite <- app_assoc.
    replace (S (length done)) with (length (done ++ [t]))
      by (rewrite length_app; simpl; lia).
    apply IH. by apply detection_stage_inv.
Qed.

Lemma multi_stage_detection_inv (image : Image) :
  stages_inv image confidence_thresholds
    (detection_stages image (None, of_Z 0) 0 confidence_thresholds).
Proof.
  apply (detection_stages_inv image [] confidence_thresholds (None, of_Z 0)).
  split; [done|]. intros t lms f Ht. by apply elem_of_nil in Ht.
Qed.

Lemma multi_stage_detection_ok (image : Image) (r : StageResult) :
  multi_stage_detection image = Some r → stage_result_ok image r.
Proof.
  pose proof (multi_stage_detection_inv image) as [Hbest _].
  unfold multi_stage_detection. intros Hr. rewrite Hr in Hbest.
  destruct Hbest as (_ & Hpos & i & lms & Hi & Hst & Hp & Hf).
  split; [done|]. by exists i, lms.
Qed.

(** X1: what [multi_stage_detection] returns was found at the threshold
    of its stage with a confidence above zero, and no stage gave features
    of a higher confidence; it returns nothing only when no stage gave
    features with a confidence above zero. *)
Theorem multi_stage_detection_best (image : Image) :
  (∀ r, multi_stage_detection image = Some r →
        stage_result_ok image r ∧
        no_stage_above image (confidence (sr_features r))) ∧
  (multi_stage_detection image = None → no_stage_above image (of_Z 0)).
Proof.
  split.
  - intros r Hr. split; [by apply multi_stage_detection_ok|].
    pose proof (multi_stage_detection_inv image) as [Hbest Hmax].
    unfold multi_stage_detection in Hr. rewrite Hr in Hbest.
    destruct Hbest as (Hb & _). by rewrite <- Hb.
  - intros Hr. pose proof (multi_stage_detection_inv image) as [Hbest Hmax].
    unfold multi_stage_detection in Hr. rewrite Hr in Hbest. by rewrite <- Hbest.
Qed.

(** An attempt built from a stage result. *)
Lemma stage_result_attempt_ok (image : Image) (r : StageResult) (scale : Qc) :
  stage_result_ok image r →
  attempt_ok {| features := sr_features r;
                threshold_used := sr_threshold_used r;
                stage := sr_stage r;
                scale := scale;
                voting_info := None |}.
Proof.
  intros (Hpos & i & lms & Hi & Hst & _). unfold attempt_ok, conf.
  cbn [features voting_info threshold_used stage].
  split; [done|]. split; [done|]. split.
  - by eapply list_elem_of_lookup_2.
  - apply lookup_lt_Some in Hi. cbn in Hi. lia.
Qed.

Lemma multi_scale_loop_ok (image : Image) (pre scs : list Qc)
    (results final : list Attempt) :
  Forall attempt_ok results →
  sublist (scale <$> results) pre →
  multi_scale_loop image scs results = Ok final →
  Forall attempt_ok final ∧ sublist (scale <$> final) (pre ++ scs).
Proof.
  revert pre results. induction scs as [|s ss IH]; intros pre results Hok Hsub.
  - cbn [multi_scale_loop]. intros [= <-]. by rewrite app_nil_r.
  - cbn [multi_scale_loop].
    destruct (if qeqb s (qc 1.0) then Ok image else resize image s)
      as [scaled|e]; cbn [mbind res_bind]; [|discriminate].
    replace (pre ++ s :: ss) with ((pre ++ [s]) ++ ss) by by rewrite <- app_assoc.
    destruct (multi_stage_detection scaled) as [r|] eqn:Hr.
    + apply IH.
      * apply Forall_app. split; [done|]. apply Forall_singleton.
        apply (stage_result_attempt_ok scaled).
        by apply multi_stage_detection_ok.
      * rewrite fmap_app. by apply sublist_app.
    + apply IH; [done|]. by apply sublist_inserts_r.
Qed.

(** X2: the attempts returned by [multi_scale_processing] have a
    confidence above zero and no voting information yet, and they come in
    the order of the scales 0.8, 1.0, 1.2 with at most one attempt for
    each scale. *)
Theorem multi_scale_processing_attempts (image : Image) (results : list Attempt) :
  multi_scale_processing image = Ok results →
  Forall attempt_ok results ∧
  sublist (scale <$> results) scales ∧
  (length results ≤ 3)%nat.
Proof.
  intros Hr.
  destruct (multi_scale_loop_ok image [] scales [] results) as [Hok Hsub];
    [done|done|done|].
  split; [done|]. split; [done|].
  apply sublist_length in Hsub. by rewrite length_fmap in Hsub.
Qed.

End DetectionProps.

(** ** The voter on detected attempts *)

Lemma vote_total_weight_pos (results : list Attempt) :
  results ≠ [] → Forall attempt_ok results →
  flt (of_Z 0) (vote_total_weight results) = true.
Proof.
  intros Hne Hok. unfold vote_total_weight. apply py_sum_pos.
  - by destruct results.
  - apply Forall_map. eapply Forall_impl; [exact Hok|].
    intros a (Hpos & _). exact Hpos.
Qed.

Lemma voting_detected (results : list Attempt) :
  results ≠ [] → Forall attempt_ok results →
  ∃ best,
    best ∈ results ∧
    (∀ x, x ∈ results → fgt (conf x) (conf best) = false) ∧
    confidence_weighted_voting results = Some {|
      features := update_angles (features best)
        (λ key, np_div (weighted_sum key results) (vote_total_weight results));
      threshold_used := threshold_used best;
      stage := stage best;
      scale := scale best;
      voting_info := Some {|
        num_results := length results;
        total_weight := py_round 3 (vote_total_weight results);
        scales_used := map scale results;
        stages_used := map stage results |} |}.
Proof.
  intros Hne Hok.
  destruct (voting_weighted results) as (best & Hbest & Hvote).
  { apply flt_0_feqb. by apply vote_total_weight_pos. }
  exists best. destruct (py_max_by_greatest conf results best Hbest) as [Hin Hmax].
  done.
Qed.

(** X3: on attempts as [multi_scale_processing] returns them (at least
    one, each with a confidence above zero) the voter never takes its
    zero-weight way out: the result carries voting information over all
    attempts, and its confidence, scale, threshold and stage are those of
    an attempt whose confidence no attempt exceeds. *)
Theorem voting_keeps_most_confident (results : list Attempt) :
  results ≠ [] → Forall attempt_ok results →
  ∃ best r v,
    confidence_weighted_voting results = Some r ∧
    best ∈ results ∧
    (∀ x, x ∈ results → fgt (conf x) (conf best) = false) ∧
    conf r = conf best ∧ scale r = scale best ∧
    threshold_used r = threshold_used best ∧ stage r = stage best ∧
    voting_info r = Some v ∧
    num_results v = length results ∧
    scales_used v = map scale results ∧
    stages_used v = map stage results ∧
    fgt (vote_total_weight results) (of_Z 0) = true.
Proof.
  intros Hne Hok. destruct (voting_detected results Hne Hok) as (best & Hin & Hmax & ->).
  eexists best, _, _. split; [reflexivity|].
  repeat (split; [done|]). by apply vote_total_weight_pos.
Qed.

Lemma voting_keeps_most_confident_witness :
  ∃ r, confidence_weighted_voting [attempt_weak; attempt_small; attempt_large] = Some r ∧
       conf r = Fin (qc 0.9) ∧ scale r = qc 0.8.
Proof.
  destruct (voting_keeps_most_confident [attempt_weak; attempt_small; attempt_large])
    as (best & r & v & Hr & Hin & Hmax & Hc & Hs & _); [done| |].
  { repeat constructor; try compute_done; apply list_elem_of_here. }
  exists r. split; [exact Hr|].
  assert (best = attempt_small) as ->.
  { apply elem_of_cons in Hin as [->|Hin].
    - by specialize (Hmax attempt_small ltac:(set_solver)).
    - apply elem_of_cons in Hin as [->|Hin]; [done|].
      apply list_elem_of_singleton in Hin as ->.
      vm_compute in Hr. injection Hr as <-. by vm_compute in Hs. }
  by rewrite Hc, Hs.
Defined.

Lemma calculate_enhanced_score_range (f : FeatureVector) (quality_level : string) :
  85 ≤ calculate_enhanced_score (Some f) quality_level ≤ 96.
Proof. unfold calculate_enhanced_score. cbv zeta. repeat case_match; lia. Qed.

(** X4: the clamp of [calculate_enhanced_score] at 78 is never reached:
    the lowest sum of the adjustments is 88 - 3, so the score of every
    feature vector is in [85, 96], and both ends are scores of feature
    vectors. *)
Theorem enhanced_score_at_least_85 :
  (∀ f quality_level, 85 ≤ calculate_enhanced_score (Some f) quality_level ≤ 96) ∧
  (∃ f quality_level, calculate_enhanced_score (Some f) quality_level = 85) ∧
  (∃ f quality_level, calculate_enhanced_score (Some f) quality_level = 96).
Proof.
  split; [apply calculate_enhanced_score_range|]. split.
  - by exists {| shoulder_rotation := NaN; hip_rotation := NaN; x_factor := NaN;
                 spine_angle := NaN; knee_flex := NaN; confidence := NaN |}, "low".
  - by exists (features attempt_small), "low".
Qed.

(** ** A successful analysis *)

Section AnalysisProps.
Context `{MathLib} {Image : Type} `{Vision Image}.

Lemma Ok_inj {A} (a b : A) : Ok a = Ok b → a = b.
Proof. by intros [=]. Qed.

Lemma Success_inj (a b : Analysis) : Success a = Success b → a = b.
Proof. by intros [=]. Qed.

Lemma voting_nonempty (a : Attempt) (results : list Attempt) :
  is_Some (confidence_weighted_voting (a :: results)).
Proof.
  unfold confidence_weighted_voting.
  destruct (feqb _ _); [by eexists|]. cbn [py_max_by mbind option_bind]. by eexists.
Qed.

(** The results of the body of [analyze_enhanced], by the place that
    returns them. *)
Lemma analyze_enhanced_body_cases (base64_image : string) (r : AnalysisResult) :
  analyze_enhanced_body base64_image = Ok r →
  (∃ e, r = Failure ("Base64 디코딩 실패: " +:+ exn_msg e) None None None) ∨
  r = Failure "이미지 디코딩 실패 또는 빈 이미지" None None None ∨
  (∃ q, r = Failure no_pose_message (Some true) (Some q)
                    (Some "Enhanced MediaPipe AI - Detection Failed")) ∨
  ∃ image stats optimized results final v,
    frame_stats image = Ok stats ∧
    optimize_lighting_conditions image = Ok optimized ∧
    multi_scale_processing optimized = Ok results ∧
    results ≠ [] ∧
    confidence_weighted_voting results = Some final ∧
    voting_info final = Some v ∧
    r = Success {|
      score := calculate_enhanced_score (Some (features final))
                 (quality_level (assess_image_quality stats));
      pose := {|
        shoulderRotation := py_round 1 (shoulder_rotation (features final));
        hipRotation := py_round 1 (hip_rotation (features final));
        xFactor := py_round 1 (x_factor (features final));
        spineAngle := py_round 1 (spine_angle (features final));
        kneeFlex := py_round 1 (knee_flex (features final)) |};
      a_confidence := py_round 1 (fmul (confidence (features final)) (of_Z 100));
      a_quality_info := assess_image_quality stats;
      processing_info := {|
        enhancement_level := "Phase1_QuickWins";
        scales_tested := length results;
        voting_results := v;
        best_scale := scale final;
        best_threshold := threshold_used final;
        processing_stage := stage final |};
      a_method := "Enhanced MediaPipe AI Analysis" |}.
Proof.
  unfold analyze_enhanced_body.
  destruct (if String.prefix _ _ then _ else _) as [s|e]; res_simpl; [|discriminate].
  destruct (b64decode _) as [data|e]; [|intros [= <-]; left; by exists e].
  destruct (imdecode data) as [[image|]|e]; res_simpl;
    [|intros [= <-]; by right; left|discriminate].
  destruct (frame_stats image) as [stats|e] eqn:Hstats; res_simpl; [|discriminate].
  destruct (optimize_lighting_conditions image) as [optimized|e] eqn:Hopt;
    res_simpl; [|discriminate].
  destruct (multi_scale_processing optimized) as [results|e] eqn:Hms;
    res_simpl; [|discriminate].
  destruct results as [|a0 results]; [intros [= <-]; right; right; left; by eexists|].
  destruct (voting_nonempty a0 results) as [final Hfinal]. rewrite Hfinal.
  destruct (voting_info final) as [v|] eqn:Hv; cbn [getitem]; res_simpl; [|discriminate].
  intros <-%Ok_inj. do 3 right.
  by exists image, stats, optimized, (a0 :: results), final, v.
Qed.

Lemma analyze_enhanced_success_body (base64_image : string) (a : Analysis) :
  analyze_enhanced base64_image = Success a →
  analyze_enhanced_body base64_image = Ok (Success a).
Proof.
  unfold analyze_enhanced.
  destruct (analyze_enhanced_body base64_image) as [r|e]; cbn [try_except];
    [by intros ->|discriminate].
Qed.

(** X5: a successful result of [analyze_enhanced] has a score in
    [85, 96]; between one and three scales contributed, and the voting
    information counts them and lists them in the order 0.8, 1.0, 1.2; the
    reported scale is one of them, the reported threshold is one of the
    five thresholds and the reported stage is between 1 and 5. *)
Theorem analyze_enhanced_success (base64_image : string) (a : Analysis) :
  analyze_enhanced base64_image = Success a →
  85 ≤ score a ≤ 96 ∧
  (1 ≤ scales_tested (processing_info a) ≤ 3)%nat ∧
  num_results (voting_results (processing_info a)) = scales_tested (processing_info a) ∧
  length (stages_used (voting_results (processing_info a)))
    = scales_tested (processing_info a) ∧
  sublist (scales_used (voting_results (processing_info a))) scales ∧
  best_scale (processing_info a) ∈ scales_used (voting_results (processing_info a)) ∧
  best_threshold (processing_info a) ∈ confidence_thresholds ∧
  (1 ≤ processing_stage (processing_info a) ≤ 5)%nat.
Proof.
  intros Ha. apply analyze_enhanced_success_body in Ha.
  destruct (analyze_enhanced_body_cases _ _ Ha)
    as [[e [=]]|[ [=] |[[q [=]]|
        (image & stats & optimized & results & final & v & _ & _ & Hms & Hne & Hvote & Hv & Hr)]]].
  apply Success_inj in Hr as ->.
  destruct (multi_scale_loop_ok optimized [] scales [] results) as [Hok Hsub];
    [done|done|exact Hms|]. cbn [app] in Hsub.
  destruct (voting_detected results Hne Hok) as (best & Hin & _ & Hfinal).
  rewrite Hfinal in Hvote. injection Hvote as <-. injection Hv as <-.
  cbn [score processing_info scales_tested voting_results num_results stages_used
       scales_used best_scale best_threshold processing_stage scale threshold_used stage].
  pose proof (sublist_length _ _ Hsub) as Hlen. rewrite length_fmap in Hlen.
  cbn in Hlen.
  pose proof (proj1 (Forall_forall _ _) Hok best Hin) as (_ & _ & Hthr & Hstage).
  split; [apply calculate_enhanced_score_range|].
  split. { destruct results; [done|]. cbn [length] in *. lia. }
  split; [done|]. split; [apply length_map|]. split; [exact Hsub|].
  split; [|done]. by apply (list_elem_of_fmap_2 scale).
Qed.

(** X6: [analyze_enhanced] never reports a failure of the voting: the
    voter is called on a list with an attempt in it, where it returns a
    result. *)
Theorem analyze_enhanced_no_vote_failure (base64_image : string) :
  error (analyze_enhanced base64_image) ≠ Some "투표 과정에서 오류 발생".
Proof.
  unfold analyze_enhanced.
  destruct (analyze_enhanced_body base64_image) as [r|e] eqn:Hr; cbn [try_except error];
    [|discriminate].
  destruct (analyze_enhanced_body_cases _ _ Hr)
    as [[e ->]|[->|[[q ->]|(? & ? & ? & ? & ? & ? & _ & _ & _ & _ & _ & _ & ->)]]];
    cbn [error]; discriminate.
Qed.

End AnalysisProps.

Lemma multi_stage_detection_best_witness :
  ∃ r, multi_stage_detection (H := coarse_mathlib) (H0 := upright_vision) 5%nat = Some r ∧
       sr_stage r = 1%nat ∧
       stage_result_ok (H := coarse_mathlib) (H0 := upright_vision) 5%nat r.
Proof.
  destruct (multi_stage_detection (H := coarse_mathlib) (H0 := upright_vision) 5%nat)
    as [r|] eqn:Hr; [|vm_compute in Hr; discriminate].
  exists r. split; [reflexivity|]. split; [vm_compute in Hr; by injection Hr as <-|].
  by apply (multi_stage_detection_best (H := coarse_mathlib) (H0 := upright_vision) 5%nat).
Defined.

Lemma multi_scale_processing_attempts_witness :
  ∃ results,
    multi_scale_processing (H := coarse_mathlib) (H0 := upright_vision) 5%nat = Ok results ∧
    Forall attempt_ok results ∧ scale <$> results = scales.
Proof.
  destruct (multi_scale_processing (H := coarse_mathlib) (H0 := upright_vision) 5%nat)
    as [results|e] eqn:Hr; [|vm_compute in Hr; discriminate].
  exists results. split; [reflexivity|]. split.
  - by apply (multi_scale_processing_attempts (H := coarse_mathlib) (H0 := upright_vision)
                5%nat results).
  - vm_compute in Hr. by injection Hr as <-.
Defined.

Lemma analyze_enhanced_success_witness :
  ∃ a, analyze_enhanced (Image := nat) (H := coarse_mathlib) (H0 := upright_vision)
         "aGVsbG8=" = Success a ∧
       85 ≤ score a ≤ 96 ∧ best_scale (processing_info a) ∈ scales.
Proof.
  destruct (analyze_enhanced (Image := nat) (H := coarse_mathlib) (H0 := upright_vision)
              "aGVsbG8=") as [?|a] eqn:Ha; [vm_compute in Ha; discriminate|].
  exists a. split; [reflexivity|].
  destruct (analyze_enhanced_success (H := coarse_mathlib) (H0 := upright_vision) _ _ Ha)
    as (Hscore & _ & _ & _ & Hsub & Hbest & _).
  split; [exact Hscore|]. eapply elem_of_submseteq; [exact Hbest|by apply sublist_submseteq].
Defined.

(** ** The scores of [AdvancedGolfAnalyzer] *)

Lemma clamp_0_100_range (x : Qc) : (0 ≤ clamp_0_100 x)%Qc ∧ (clamp_0_100 x ≤ qc 100)%Qc.
Proof.
  unfold clamp_0_100. change (Q2Qc 0) with (qc 0). qltb_cases; split; qc_lra.
Qed.

(** [max(0, min(100, x))] is a number between 0 and 100 for every float
    [x], also for NaN and the infinities. *)
Lemma py_clamp_range (x : pyfloat) : score_0_100 (py_max (of_Z 0) (py_min (of_Z 100) x)).
Proof.
  destruct x as [q| |[]].
  - exists (clamp_0_100 q). split; [apply py_clamp_fin|apply clamp_0_100_range].
  - exists (qc 100). split; [by vm_compute|]. split; qc_lra.
  - exists 0%Qc. split; [by vm_compute|]. split; qc_lra.
  - exists (qc 100). split; [by vm_compute|]. split; qc_lra.
Qed.

Lemma py_min_100_range (x : pyfloat) : score_0_100 x → score_0_100 (py_min (of_Z 100) x).
Proof.
  intros (q & -> & Hlo & Hhi). unfold py_min, of_Z. cbn [flt].
  change (Q2Qc (inject_Z 100)) with (qc 100).
  qltb_cases; [by exists q|]. exists (qc 100). split; [done|]. split; qc_lra.
Qed.

Section ScoreProps.
Context `{MathLib}.

(** The deduction for one angle: a number that is not negative, or NaN. *)
Lemma phase_deduction_range (a : pyfloat) (ideal_value : Z) :
  let d := py_min (fmul (fabs (fsub a (of_Z ideal_value))) (Fin (qc 0.5))) (of_Z 20) in
  d = NaN ∨ ∃ q, d = Fin q ∧ (0 ≤ q)%Qc.
Proof.
  destruct a as [x| |n]; [|by left|right; exists (qc 20); split; [by destruct n|qc_lra]].
  right. unfold py_min, of_Z. cbn [fsub fopp fadd fabs fmul flt].
  qltb_cases; (eexists; split; [reflexivity|]); qc_arith.
Qed.

Lemma frame_phase_fold (ideal : list (string * Z)) (angles : Angles) (acc : pyfloat) :
  acc = NaN ∨ (∃ q, acc = Fin q ∧ (q ≤ qc 100)%Qc) →
  let acc' :=
    fold_left
      (λ phase_score '(key, ideal_value),
         match angles !! key with
         | Some a =>
             let diff := fabs (fsub a (of_Z ideal_value)) in
             fsub phase_score (py_min (fmul diff (Fin (qc 0.5))) (of_Z 20))
         | None => phase_score
         end)
      ideal acc in
  acc' = NaN ∨ ∃ q, acc' = Fin q ∧ (q ≤ qc 100)%Qc.
Proof.
  revert acc. induction ideal as [|[key z] ideal IH]; intros acc Hacc; [done|].
  cbn [fold_left]. apply IH. destruct (angles !! key) as [a|]; [|done]. cbv zeta.
  destruct (phase_deduction_range a z) as [->|(e & -> & He)].
  - left. by destruct acc.
  - destruct Hacc as [->|(q & -> & Hq)]; [by left|]. right.
    cbn [fsub fopp fadd]. eexists. split; [reflexivity|]. qc_arith.
Qed.

(** X8: the score of a frame against the ideal values of a phase is a
    number between 0 and 100, whatever the angles of the frame are (NaN
    and infinite values included). *)
Theorem frame_phase_score_range (ideal : list (string * Z)) (angles : Angles) :
  score_0_100 (frame_phase_score ideal angles).
Proof.
  unfold frame_phase_score.
  assert (Hfold := frame_phase_fold ideal angles (of_Z 100)). cbv zeta in Hfold |- *.
  destruct Hfold as [->|(q & -> & Hq)].
  - right. exists (qc 100). split; [done|]. qc_lra.
  - exists 0%Qc. split; [done|]. split; qc_lra.
  - unfold py_max, fgt, of_Z. cbn [flt]. change (Q2Qc (inject_Z 0)) with (qc 0).
    qltb_cases; [exists q|exists (qc 0)]; (split; [done|]); split; qc_lra.
Qed.

Lemma analyze_tempo_advanced_score (swing_phases : list string) (fps : pyfloat)
    (ta : TempoAnalysis) :
  analyze_tempo_advanced swing_phases fps = Ok ta → score_0_100 (t_score ta).
Proof.
  unfold analyze_tempo_advanced. cbv zeta.
  destruct (float_truediv _ fps) as [dt|e];
    (destruct (float_truediv _ fps) as [bt|e']; cbn [mbind res_bind]; try discriminate).
  destruct (if fgt dt (of_Z 0) then _ else _) as [tr|e];
    cbn [mbind res_bind]; [|discriminate].
  intros [= <-]. cbn [t_score]. apply py_clamp_range.
Qed.

(** X9: the weighted score is a number between 0 and 100 for every
    argument, and so are the overall score and the tempo score in every
    result of [comprehensive_analysis]. *)
Theorem video_scores_in_range :
  (∀ components, score_0_100 (calculate_weighted_score components)) ∧
  (∀ all_landmarks all_angles swing_phases fps rng r rng',
     comprehensive_analysis all_landmarks all_angles swing_phases fps rng = Ok (r, rng') →
     score_0_100 (overall_score r) ∧ score_0_100 (t_score (tempo_analysis r))).
Proof.
  split; [intros c; apply py_clamp_range|].
  intros all_landmarks all_angles swing_phases fps rng r rng'.
  unfold comprehensive_analysis. intros Hr.
  destruct (analyze_phases all_angles swing_phases) as [pa|e];
    cbn [mbind res_bind] in Hr; [|discriminate].
  destruct (analyze_tempo_advanced swing_phases fps) as [ta|e] eqn:Hta;
    cbn [mbind res_bind] in Hr; [|discriminate].
  destruct (analyze_biomechanics all_landmarks all_angles) as [bio|e];
    cbn [mbind res_bind] in Hr; [|discriminate].
  destruct (detect_advanced_faults all_angles swing_phases rng) as [[fs rng1]|e];
    cbn [mbind res_bind] in Hr; [|discriminate].
  destruct (generate_recommendations fs _) as [recs|e];
    cbn [mbind res_bind] in Hr; [|discriminate].
  injection Hr as <- <-. cbn [overall_score tempo_analysis]. split.
  - apply py_min_100_range, py_clamp_range.
  - by apply (analyze_tempo_advanced_score swing_phases fps).
Qed.

End ScoreProps.

(** ** The phase classifier *)

Lemma this_inject_Z (z : Z) : (this (Q2Qc (inject_Z z)) == inject_Z z)%Q.
Proof. apply Qred_correct. Qed.

Lemma progress_mono (f1 f2 t : Z) :
  f1 ≤ f2 → 0 < t →
  (Q2Qc (inject_Z f1) / Q2Qc (inject_Z t) ≤ Q2Qc (inject_Z f2) / Q2Qc (inject_Z t))%Qc.
Proof.
  intros Hf Ht. unfold Qcle. rewrite !this_div, !this_inject_Z.
  apply Qmult_le_compat_r; [by rewrite <- Zle_Qle|].
  apply Qinv_le_0_compat. change 0%Q with (inject_Z 0). rewrite <- Zle_Qle. lia.
Qed.

Lemma if_app {A B} (f : A → B) (b : bool) (x y : A) :
  f (if b then x else y) = if b then f x else f y.
Proof. by destruct b. Qed.

(** X10: the classifier raises ZeroDivisionError exactly for a video
    without frames, otherwise it names one of the nine phases; and for a
    given shoulder rotation the phase never goes back as the frame number
    grows. *)
Theorem detect_swing_phase_ml_total_and_monotone (angles : Angles) (total_frames : Z) :
  (total_frames = 0 →
   ∀ frame_num, detect_swing_phase_ml angles frame_num total_frames
     = Raise {| exn_type := "ZeroDivisionError"; exn_msg := "division by zero" |}) ∧
  (total_frames ≠ 0 →
   ∀ frame_num, ∃ phase,
     detect_swing_phase_ml angles frame_num total_frames = Ok phase ∧
     phase ∈ phase_order) ∧
  (0 < total_frames →
   ∀ frame1 frame2 phase1 phase2,
     frame1 ≤ frame2 →
     detect_swing_phase_ml angles frame1 total_frames = Ok phase1 →
     detect_swing_phase_ml angles frame2 total_frames = Ok phase2 →
     (phase_rank phase1 ≤ phase_rank phase2)%nat).
Proof.
  unfold detect_swing_phase_ml, int_truediv. cbv zeta. split; [|split].
  - intros -> frame_num. reflexivity.
  - intros Ht frame_num. destruct (decide (total_frames = 0)) as [|_]; [done|].
    cbn [mbind res_bind]. eexists. split; [reflexivity|].
    repeat case_match; set_solver.
  - intros Ht frame1 frame2 phase1 phase2 Hf.
    destruct (decide (total_frames = 0)) as [|_]; [lia|]. cbn [mbind res_bind].
    intros <-%Ok_inj <-%Ok_inj.
    pose proof (progress_mono frame1 frame2 total_frames Hf Ht) as Hp.
    set (p1 := (Q2Qc (inject_Z frame1) / Q2Qc (inject_Z total_frames))%Qc) in *.
    set (p2 := (Q2Qc (inject_Z frame2) / Q2Qc (inject_Z total_frames))%Qc) in *.
    clearbody p1 p2.
    assert (Hs : flt (get angles "shoulder_rotation" (of_Z 0)) (of_Z 30) = true →
                 flt (get angles "shoulder_rotation" (of_Z 0)) (of_Z 70) = true).
    { intros H30. eapply flt_trans; [exact H30|done]. }
    assert (Hs' : fge (get angles "shoulder_rotation" (of_Z 0)) (of_Z 70) = true →
                  flt (get angles "shoulder_rotation" (of_Z 0)) (of_Z 70) = false).
    { destruct (get angles "shoulder_rotation" (of_Z 0)) as [s| |[]]; cbn; try done.
      unfold qleb, qltb. by intros ->. }
    rewrite !(if_app phase_rank).
    change (phase_rank "address") with 0%nat. change (phase_rank "takeaway") with 1%nat.
    change (phase_rank "backswing") with 2%nat. change (phase_rank "top") with 3%nat.
    change (phase_rank "transition") with 4%nat.
    change (phase_rank "downswing") with 5%nat. change (phase_rank "impact") with 6%nat.
    change (phase_rank "follow_through") with 7%nat.
    change (phase_rank "finish") with 8%nat.
    assert (Hord : (qc 0.05 < qc 0.15 ∧ qc 0.15 < qc 0.4 ∧ qc 0.4 < qc 0.5 ∧
                    qc 0.5 < qc 0.55 ∧ qc 0.55 < qc 0.6 ∧ qc 0.6 < qc 0.65 ∧
                    qc 0.65 < qc 0.8)%Qc) by (repeat split; reflexivity).
    revert Hord.
    generalize (qc 0.05) (qc 0.15) (qc 0.4) (qc 0.5) (qc 0.55) (qc 0.6) (qc 0.65) (qc 0.8).
    intros t1 t2 t3 t4 t5 t6 t7 t8 (H12 & H23 & H34 & H45 & H56 & H67 & H78).
    unfold Qclt, Qcle in H12, H23, H34, H45, H56, H67, H78, Hp.
    destruct (flt (get angles "shoulder_rotation" (of_Z 0)) (of_Z 30));
      destruct (flt (get angles "shoulder_rotation" (of_Z 0)) (of_Z 70));
      destruct (fge (get angles "shoulder_rotation" (of_Z 0)) (of_Z 70));
      try (by specialize (Hs eq_refl)); try (by specialize (Hs' eq_refl));
      clear Hs Hs'; cbn [flt];
      qltb_cases; cbn [andb];
      first [ lia | exfalso; unfold Qclt, Qcle in *; lra ].
Qed.

Lemma video_scores_in_range_witness :
  ∃ r rng',
    comprehensive_analysis (H := coarse_mathlib)
      swing_landmarks swing_angles swing_phases (of_Z 30) two_samples = Ok (r, rng') ∧
    score_0_100 (overall_score r) ∧ score_0_100 (t_score (tempo_analysis r)).
Proof.
  destruct (comprehensive_analysis (H := coarse_mathlib)
      swing_landmarks swing_angles swing_phases (of_Z 30) two_samples)
    as [[r rng']|e] eqn:Hr; [|by vm_compute in Hr].
  exists r, rng'. split; [reflexivity|].
  by apply (proj2 (video_scores_in_range (H := coarse_mathlib)) _ _ _ _ _ _ _ Hr).
Defined.

Lemma detect_swing_phase_ml_total_and_monotone_witness :
  ∃ phase1 phase2,
    detect_swing_phase_ml rotation_80 1 10 = Ok phase1 ∧
    detect_swing_phase_ml rotation_80 6 10 = Ok phase2 ∧
    (phase_rank phase1 ≤ phase_rank phase2)%nat.
Proof.
  destruct (detect_swing_phase_ml_total_and_monotone rotation_80 10) as (_ & Hphase & Hmono).
  destruct (Hphase ltac:(done) 1) as (phase1 & H1 & _).
  destruct (Hphase ltac:(done) 6) as (phase2 & H2 & _).
  exists phase1, phase2. split; [done|]. split; [done|].
  by apply (Hmono ltac:(done) 1 6).
Defined.

(** ** The fault detector *)

Lemma angles_of_phase_nonempty (test : string → bool) (all_angles : list Angles)
    (i : nat) (swing_phases : list string) (a : Angles) (l : list Angles) :
  angles_of_phase test all_angles i swing_phases = Ok (a :: l) →
  ∃ p, p ∈ swing_phases ∧ test p = true.
Proof.
  revert i. induction swing_phases as [|p rest IH]; intros i; [discriminate|].
  cbn [angles_of_phase]. destruct (test p) eqn:Hp.
  - intros _. exists p. split; [apply list_elem_of_here|done].
  - intros Hrest. destruct (IH _ Hrest) as (q & Hq & Htest).
    exists q. split; [by apply list_elem_of_further|done].
Qed.

(** The faults found in a timeline: those found before the lateral
    movement is looked at, the sway fault or nothing, and those found
    after it. Only the middle part depends on the random generator. *)
Lemma detect_advanced_faults_shape (all_angles : list Angles) (swing_phases : list string) :
  ∃ pre post : list Fault,
    (∀ rng fs rng',
       detect_advanced_faults all_angles swing_phases rng = Ok (fs, rng') →
       ∃ sway,
         fs = pre ++ sway ++ post ∧
         (sway = [] ∨ ∃ f, sway = [f] ∧ f_type f = "sway" ∧ f_severity f = "high") ∧
         draws rng' = draws rng ∧
         (position rng' = position rng ∧ sway = [] ∨
          position rng' = S (position rng) ∧
          "address" ∈ swing_phases ∧ "backswing" ∈ swing_phases)) ∧
    (length pre ≤ 2)%nat ∧ (length post ≤ 1)%nat ∧
    Forall (λ f, f_type f ≠ "sway" ∧ (f_severity f = "medium" ∨ f_severity f = "high"))
           (pre ++ post).
Proof.
  unfold detect_advanced_faults. cbv zeta.
  destruct (angles_of_phase (String.eqb "top") all_angles 0 swing_phases) as [top|e];
    res_simpl; [|exists [], []; split; [discriminate|by repeat constructor]].
  destruct (angles_of_phase (String.eqb "impact") all_angles 0 swing_phases) as [impact|e];
    res_simpl; [|exists [], []; split; [discriminate|by repeat constructor]].
  destruct (angles_of_phase (String.eqb "address") all_angles 0 swing_phases)
    as [address|e] eqn:Haddress;
    res_simpl; [|exists [], []; split; [discriminate|by repeat constructor]].
  destruct (angles_of_phase (String.eqb "backswing") all_angles 0 swing_phases)
    as [backswing|e] eqn:Hbackswing;
    res_simpl; [|exists [], []; split; [discriminate|by repeat constructor]].
  destruct (angles_of_phase (λ p, String.eqb p "transition" || String.eqb p "downswing")
              all_angles 0 swing_phases) as [transition|e]; res_simpl;
    [|exists [], []; split;
      [intros rng fs rng'; by repeat case_match|by repeat constructor]].
  set (over := match top with
               | [] => []
               | _ :: _ => if fgt _ (of_Z 110) then _ else []
               end).
  assert (Hover : over = [] ∨ ∃ f, over = [] ++ [f] ∧ f_type f = "over_swing" ∧
                                  f_severity f = "medium").
  { subst over. destruct top; [by left|]. destruct (fgt _ _); [|by left].
    right. by eexists. }
  clearbody over.
  set (pre := match find _ impact with Some _ => _ | None => over end).
  assert (Hpre : (length pre ≤ 2)%nat ∧
                 Forall (λ f, f_type f ≠ "sway" ∧
                              (f_severity f = "medium" ∨ f_severity f = "high")) pre).
  { subst pre. destruct Hover as [->|(f & -> & Hty & Hsev)]; destruct (find _ impact);
      cbn [app length]; (split; [lia|]); repeat constructor;
      rewrite ?Hty; cbn; auto; discriminate. }
  clearbody pre. clear Hover over.
  destruct (find _ transition) as [angles|] eqn:Hfind.
  - exists pre, [{| f_type := "casting"; f_severity := "high";
                    f_value := get angles "wrist_hinge" (of_Z 90);
                    f_message := "다운스윙 초기에 캐스팅이 발생합니다";
                    f_fix := "손목 각도를 유지하며 다운스윙하세요" |}].
    split; [|destruct Hpre as [Hlen Hall]; split; [done|]; split; [done|];
             apply Forall_app; split; [done|]; repeat constructor; cbn; discriminate].
    intros rng fs rng'. destruct address as [|a0 address], backswing as [|b0 backswing].
    1-3: intros [<- <-]%Ok_inj%pair_equal_spec; exists []; split; [done|]; split; [by left|];
         split; [done|]; by left.
    unfold check_lateral_movement, random_uniform.
    destruct (angles_of_phase_nonempty _ _ _ _ _ _ Haddress) as (p & Hp & ->%String.eqb_eq).
    destruct (angles_of_phase_nonempty _ _ _ _ _ _ Hbackswing) as (q & Hq & ->%String.eqb_eq).
    destruct (qltb _ _); intros [<- <-]%Ok_inj%pair_equal_spec.
    + eexists [_]. split; [by rewrite <- !app_assoc|]. split; [right; by eexists|].
      split; [done|]. by right.
    + exists []. split; [done|]. split; [by left|]. split; [done|]. by right.
  - exists pre, []. 
    split; [|destruct Hpre as [Hlen Hall]; split; [done|]; split; [cbn; lia|];
             by rewrite app_nil_r].
    intros rng fs rng'. destruct address as [|a0 address], backswing as [|b0 backswing].
    1-3: intros [<- <-]%Ok_inj%pair_equal_spec; exists []; split; [by rewrite app_nil_r|]; split; [by left|];
         split; [done|]; by left.
    unfold check_lateral_movement, random_uniform.
    destruct (angles_of_phase_nonempty _ _ _ _ _ _ Haddress) as (p & Hp & ->%String.eqb_eq).
    destruct (angles_of_phase_nonempty _ _ _ _ _ _ Hbackswing) as (q & Hq & ->%String.eqb_eq).
    destruct (qltb _ _); intros [<- <-]%Ok_inj%pair_equal_spec.
    + eexists [_]. split; [by rewrite !app_nil_r|]. split; [right; by eexists|].
      split; [done|]. by right.
    + exists []. split; [by rewrite app_nil_r|]. split; [by left|]. split; [done|]. by right.
Qed.

Lemma filter_all {A} (P : A → Prop) `{∀ x, Decision (P x)} (l : list A) :
  Forall P l → filter P l = l.
Proof.
  induction 1 as [|x l Hx _ IH]; [done|]. rewrite filter_cons_True by done. by rewrite IH.
Qed.

Lemma detect_advanced_faults_severities (all_angles : list Angles)
    (swing_phases : list string) (rng rng' : RandomState) (fs : list Fault) :
  detect_advanced_faults all_angles swing_phases rng = Ok (fs, rng') →
  (length fs ≤ 4)%nat ∧
  Forall (λ f, f_severity f = "medium" ∨ f_severity f = "high") fs.
Proof.
  destruct (detect_advanced_faults_shape all_angles swing_phases)
    as (pre & post & Hshape & Hpre & Hpost & Hall).
  intros Hfs. destruct (Hshape _ _ _ Hfs) as (sway & -> & Hsway & _).
  apply Forall_app in Hall as [Hallpre Hallpost].
  assert (Hsev : ∀ l, Forall (λ f, f_type f ≠ "sway" ∧
                                  (f_severity f = "medium" ∨ f_severity f = "high")) l →
                      Forall (λ f, f_severity f = "medium" ∨ f_severity f = "high") l).
  { intros l Hl. eapply Forall_impl; [exact Hl|]. by intros f [_ ?]. }
  split.
  - rewrite !length_app. destruct Hsway as [->|(f & -> & _)]; cbn [length]; lia.
  - apply Forall_app. split; [by apply Hsev|]. apply Forall_app. split; [|by apply Hsev].
    destruct Hsway as [->|(f & -> & _ & Hhigh)];
      [constructor|constructor; [by right|constructor]].
Qed.

(** X11: [detect_advanced_faults] reports at most four faults, each of
    severity medium or high; it draws at most one random number, and only
    when the timeline has an address and a backswing frame; and whatever
    the state of the generator, the faults other than the sway fault are
    the same. *)
Theorem detect_advanced_faults_bounds (all_angles : list Angles)
    (swing_phases : list string) (rng rng' : RandomState) (fs : list Fault) :
  detect_advanced_faults all_angles swing_phases rng = Ok (fs, rng') →
  (length fs ≤ 4)%nat ∧
  Forall (λ f, f_severity f = "medium" ∨ f_severity f = "high") fs ∧
  draws rng' = draws rng ∧
  (position rng' = position rng ∨
   position rng' = S (position rng) ∧
   "address" ∈ swing_phases ∧ "backswing" ∈ swing_phases) ∧
  ∀ rng2 fs2 rng2',
    detect_advanced_faults all_angles swing_phases rng2 = Ok (fs2, rng2') →
    filter (λ f, f_type f ≠ "sway") fs = filter (λ f, f_type f ≠ "sway") fs2.
Proof.
  intros Hfs.
  destruct (detect_advanced_faults_severities _ _ _ _ _ Hfs) as [Hlen Hsev].
  split; [done|]. split; [done|].
  destruct (detect_advanced_faults_shape all_angles swing_phases)
    as (pre & post & Hshape & _ & _ & Hall).
  destruct (Hshape _ _ _ Hfs) as (sway & -> & Hsway & Hdraws & Hpos).
  split; [done|]. split; [destruct Hpos as [[? _]|?]; [by left|by right]|].
  intros rng2 fs2 rng2' Hfs2.
  destruct (Hshape _ _ _ Hfs2) as (sway2 & -> & Hsway2 & _).
  assert (Hnone : ∀ s, (s = [] ∨ ∃ f, s = [f] ∧ f_type f = "sway" ∧ f_severity f = "high") →
                       filter (λ f, f_type f ≠ "sway") s = []).
  { intros s [->|(f & -> & Hty & _)]; [done|]. by rewrite filter_cons_False by auto. }
  by rewrite !filter_app, (Hnone sway), (Hnone sway2).
Qed.

Lemma detect_advanced_faults_bounds_witness :
  ∃ fs rng',
    detect_advanced_faults short_angles short_phases one_sample_drawn = Ok (fs, rng') ∧
    length fs = 1%nat ∧ position rng' = 2%nat ∧
    filter (λ f, f_type f ≠ "sway") fs = [].
Proof.
  destruct (detect_advanced_faults short_angles short_phases one_sample_drawn)
    as [[fs rng']|e] eqn:Hfs; [|by vm_compute in Hfs].
  exists fs, rng'. split; [reflexivity|].
  destruct (detect_advanced_faults_bounds _ _ _ _ _ Hfs) as (_ & _ & _ & _ & Hsame).
  split; [vm_compute in Hfs; by injection Hfs as <- _|].
  split; [vm_compute in Hfs; by injection Hfs as _ <-|].
  rewrite (Hsame two_samples [] one_sample_drawn); [done|]. by vm_compute.
Defined.

(** ** When the video analysis returns a result *)

Lemma angles_of_phase_ok (test : string → bool) (all_angles : list Angles)
    (i : nat) (swing_phases : list string) :
  (i + length swing_phases ≤ length all_angles)%nat →
  ∃ l, angles_of_phase test all_angles i swing_phases = Ok l.
Proof.
  revert i. induction swing_phases as [|p rest IH]; intros i Hlen; [by eexists|].
  cbn [angles_of_phase length] in *.
  destruct (IH (S i)) as [l Hl]; [lia|]. rewrite Hl.
  destruct (test p); [|by eexists]. unfold list_index.
  destruct (lookup_lt_is_Some_2 all_angles i) as [a ->]; [lia|]. by eexists.
Qed.

Lemma mapM_res_ok {A B} (f : A → res B) (l : list A) :
  (∀ x, x ∈ l → ∃ y, f x = Ok y) → ∃ ys, mapM f l = Ok ys.
Proof.
  induction l as [|x l IH]; intros Hf; [by eexists|]. cbn [mapM].
  destruct (Hf x) as [y ->]; [apply list_elem_of_here|]. res_simpl.
  destruct IH as [ys ->]; [intros z Hz; apply Hf; by apply list_elem_of_further|].
  by eexists.
Qed.

Lemma float_truediv_ok (a b : pyfloat) :
  b ≠ Fin 0%Qc → ∃ c, float_truediv a b = Ok c.
Proof.
  intros Hb. unfold float_truediv, py_div. destruct b as [y| |n]; [|by eexists..].
  destruct (qeqb y 0%Qc) eqn:Hy; [|by eexists].
  apply qeqb_eq in Hy as ->. done.
Qed.

Lemma float_truediv_zero (a : pyfloat) :
  float_truediv a (Fin 0%Qc)
  = Raise {| exn_type := "ZeroDivisionError"; exn_msg := "float division by zero" |}.
Proof. reflexivity. Qed.

Lemma fabs_cases (a : pyfloat) :
  fabs a = NaN ∨ fabs a = Inf false ∨ ∃ q, fabs a = Fin q ∧ (0 ≤ q)%Qc.
Proof.
  destruct a as [x| |n]; [|by left|by right; left].
  right; right. cbn [fabs]. eexists. split; [reflexivity|]. qltb_cases; qc_arith.
Qed.

Section VideoResult.
Context `{MathLib}.

Lemma analyze_phases_ok (all_angles : list Angles) (swing_phases : list string) :
  (length swing_phases ≤ length all_angles)%nat →
  ∃ pa, analyze_phases all_angles swing_phases = Ok pa.
Proof.
  intros Hlen. unfold analyze_phases. cbv zeta.
  destruct (mapM_res_ok
    (λ phase,
       phase_angles ← angles_of_phase (String.eqb phase) all_angles 0 swing_phases;
       Ok (phase, {| average_score :=
                       np_mean (map (frame_phase_score (ideal_angles phase)) phase_angles);
                     stability :=
                       np_std (map (frame_phase_score (ideal_angles phase)) phase_angles);
                     frame_count := length phase_angles |}))
    (elements (list_to_set swing_phases : gset string))) as [entries Hentries].
  { intros phase _.
    destruct (angles_of_phase_ok (String.eqb phase) all_angles 0 swing_phases) as [l ->];
      [done|]. by eexists. }
  rewrite Hentries. by eexists.
Qed.

Lemma analyze_tempo_advanced_ok (swing_phases : list string) (fps : pyfloat) :
  fps ≠ Fin 0%Qc → ∃ ta, analyze_tempo_advanced swing_phases fps = Ok ta.
Proof.
  intros Hfps. unfold analyze_tempo_advanced. cbv zeta.
  match goal with |- context [float_truediv (of_Z ?b) fps ≫= _] =>
    destruct (float_truediv_ok (of_Z b) fps Hfps) as [bt ->] end. res_simpl.
  match goal with |- context [float_truediv (of_Z ?d) fps ≫= _] =>
    destruct (float_truediv_ok (of_Z d) fps Hfps) as [dt ->] end. res_simpl.
  destruct (fgt dt (of_Z 0)) eqn:Hdt; [|by eexists].
  destruct (float_truediv_ok bt dt) as [tr ->]; [by intros ->|]. by eexists.
Qed.

Lemma weight_left_ok (frame : FrameLandmarks) : ∃ share, weight_left frame = Ok share.
Proof.
  unfold weight_left. cbv zeta. destruct (_ && _); [|by eexists].
  match goal with |- context [float_truediv ?a ?b] =>
    destruct (float_truediv_ok a b) as [c ->] end; [|by eexists].
  match goal with |- fadd (fadd ?l ?r) _ ≠ _ =>
    destruct (fabs_cases (fsub (get (get frame "pose_0" ∅) "x" (of_Z 0))
                               (get (get frame "pose_27" ∅) "x" (of_Z 0))))
      as [->|[->|(l' & -> & Hl)]];
    destruct (fabs_cases (fsub (get (get frame "pose_0" ∅) "x" (of_Z 0))
                               (get (get frame "pose_28" ∅) "x" (of_Z 0))))
      as [->|[->|(r' & -> & Hr)]]
  end; cbn [fadd Bool.eqb]; try discriminate.
  intros Hfin.
  assert (Hsum : (l' + r' + qc 0.001)%Qc = 0%Qc) by congruence.
  assert (Hpos : (0 < l' + r' + qc 0.001)%Qc) by qc_arith.
  rewrite Hsum in Hpos. by apply (Qclt_not_le _ _ Hpos), Qcle_refl.
Qed.

Lemma analyze_biomechanics_ok (all_landmarks : list FrameLandmarks)
    (all_angles : list Angles) :
  ∃ bio, analyze_biomechanics all_landmarks all_angles = Ok bio.
Proof.
  unfold analyze_biomechanics. cbv zeta.
  destruct (mapM_res_ok weight_left all_landmarks) as [shifts ->];
    [intros frame _; apply weight_left_ok|].
  by eexists.
Qed.

Lemma detect_advanced_faults_ok (all_angles : list Angles) (swing_phases : list string)
    (rng : RandomState) :
  (length swing_phases ≤ length all_angles)%nat →
  ∃ fs rng', detect_advanced_faults all_angles swing_phases rng = Ok (fs, rng').
Proof.
  intros Hlen. unfold detect_advanced_faults. cbv zeta.
  repeat match goal with
         | |- context [angles_of_phase ?test all_angles 0 swing_phases ≫= _] =>
             let l := fresh "l" in
             destruct (angles_of_phase_ok test all_angles 0 swing_phases Hlen) as [l ->];
             res_simpl
         end.
  repeat case_match; by eexists _, _.
Qed.

Lemma generate_recommendations_ok (fs : list Fault) (score : pyfloat) :
  Forall (λ f, f_severity f = "medium" ∨ f_severity f = "high") fs →
  ∃ recs, generate_recommendations fs score = Ok recs.
Proof.
  intros Hsev. unfold generate_recommendations. cbv zeta.
  destruct (mapM_res_ok (λ f, r ← severity_rank (f_severity f); Ok (r, f)) fs)
    as [ranked ->]; [|by eexists].
  intros f Hf. destruct (proj1 (Forall_forall _ _) Hsev f Hf) as [-> | ->]; by eexists.
Qed.

(** X12: when every frame of the timeline has its angles and the frame
    rate is not zero, [comprehensive_analysis] returns a result; with a
    frame rate of zero it raises ZeroDivisionError. *)
Theorem comprehensive_analysis_result
    (all_landmarks : list FrameLandmarks) (all_angles : list Angles)
    (swing_phases : list string) (fps : pyfloat) (rng : RandomState) :
  (length swing_phases ≤ length all_angles)%nat →
  (fps ≠ Fin 0%Qc →
   ∃ r rng', comprehensive_analysis all_landmarks all_angles swing_phases fps rng
             = Ok (r, rng')) ∧
  (fps = Fin 0%Qc →
   comprehensive_analysis all_landmarks all_angles swing_phases fps rng
   = Raise {| exn_type := "ZeroDivisionError"; exn_msg := "float division by zero" |}).
Proof.
  intros Hlen. unfold comprehensive_analysis.
  destruct (analyze_phases_ok all_angles swing_phases Hlen) as [pa ->]. res_simpl.
  split.
  - intros Hfps.
    destruct (analyze_tempo_advanced_ok swing_phases fps Hfps) as [ta ->]. res_simpl.
    destruct (analyze_biomechanics_ok all_landmarks all_angles) as [bio ->]. res_simpl.
    destruct (detect_advanced_faults_ok all_angles swing_phases rng Hlen)
      as (fs & rng' & Hfs).
    rewrite Hfs. res_simpl.
    destruct (detect_advanced_faults_severities _ _ _ _ _ Hfs) as [_ Hsev].
    match goal with |- context [generate_recommendations fs ?s] =>
      destruct (generate_recommendations_ok fs s Hsev) as [recs ->] end.
    res_simpl. by eexists _, _.
  - intros ->. unfold analyze_tempo_advanced. cbv zeta.
    by rewrite float_truediv_zero.
Qed.

End VideoResult.

Lemma comprehensive_analysis_result_witness :
  (∃ r rng', comprehensive_analysis (H := coarse_mathlib)
               swing_landmarks swing_angles swing_phases (of_Z 30) two_samples
             = Ok (r, rng')) ∧
  comprehensive_analysis (H := coarse_mathlib)
    swing_landmarks swing_angles swing_phases (of_Z 0) two_samples
  = Raise {| exn_type := "ZeroDivisionError"; exn_msg := "float division by zero" |}.
Proof.
  split.
  - apply (comprehensive_analysis_result (H := coarse_mathlib)); [cbn; lia|done].
  - apply (comprehensive_analysis_result (H := coarse_mathlib)); [cbn; lia|done].
Defined.

(** ** What [GolfSwingAnalyzer] reports for a golf posture *)

Lemma try_bind_true {A} (m : res A) (k : A → res bool) :
  try_except (m ≫= k) (λ _, false) = true →
  ∃ a, m = Ok a ∧ try_except (k a) (λ _, false) = true.
Proof. destruct m as [a|e]; [by exists a|discriminate]. Qed.

Lemma fmap_list_index_Ok {A B} (f : A → B) (l : list A) (i : nat) (b : B) :
  f <$> list_index l i = Ok b → ∃ a, l !! i = Some a ∧ b = f a.
Proof.
  unfold list_index. destruct (l !! i) as [a|]; [|discriminate].
  intros [= <-]. by exists a.
Qed.

(** A posture passes [is_golf_posture] only with its shoulders at most
    0.35 apart. *)
Lemma is_golf_posture_shoulders (landmarks : list Basic.LandmarkRow) :
  Basic.is_golf_posture landmarks = true →
  ∃ left_shoulder right_shoulder,
    landmarks !! 11%nat = Some left_shoulder ∧
    landmarks !! 12%nat = Some right_shoulder ∧
    qltb (qc 0.35)
         (Basic.qabs (Basic.x (Basic.row left_shoulder)
                      - Basic.x (Basic.row right_shoulder))%Qc) = false.
Proof.
  unfold Basic.is_golf_posture, Basic.is_golf_posture_body. intros Hp.
  apply try_bind_true in Hp as (ls & (left_shoulder & Hls & ->)%fmap_list_index_Ok & Hp).
  apply try_bind_true in Hp as (rs & (right_shoulder & Hrs & ->)%fmap_list_index_Ok & Hp).
  do 9 apply try_bind_true in Hp as (? & _ & Hp).
  exists left_shoulder, right_shoulder. split; [done|]. split; [done|].
  revert Hp.
  repeat lazymatch goal with
         | |- try_except (let x := ?v in @?body x) ?h = true → ?G =>
             change (let x := v in try_except (body x) h = true → G); intro
         end.
  unfold try_except. intros [_ Hsport%negb_true_iff]%andb_true_iff.
  repeat (apply orb_false_iff in Hsport as [Hsport ?]). done.
Qed.

(** With a shoulder rotation of at most 63 degrees and no knee and elbow
    angle among the angles, the three standing faults are found and the
    score is at most 68. *)
Lemma narrow_shoulders_limited (angles : gmap string pyfloat)
    (landmarks : list Basic.LandmarkRow) (s : Qc) :
  angles !! "shoulder_rotation" = Some (Fin s) → (s ≤ qc 63)%Qc →
  angles !! "knee_flex" = None → angles !! "elbow_angle" = None →
  Basic.calculate_score angles (Basic.detect_swing_faults angles landmarks) ≤ 68 ∧
  ∀ t, t ∈ standing_faults →
       t ∈ Basic.f_type <$> Basic.detect_swing_faults angles landmarks.
Proof.
  intros Hs Hle Hknee Helbow.
  assert (H110 : fgt (Fin s) (of_Z 110) = false).
  { unfold fgt, of_Z. cbn [flt]. apply not_true_iff_false. intros Hlt%qltb_lt.
    qc_arith. }
  assert (H75 : flt (Fin s) (of_Z 75) = true).
  { unfold of_Z. cbn [flt]. apply qltb_lt. qc_arith. }
  assert (H85 : fle (of_Z 85) (Fin s) = false).
  { unfold of_Z. cbn [fle]. apply not_true_iff_false. intros Hge%qleb_le.
    qc_arith. }
  unfold Basic.calculate_score, Basic.detect_swing_faults, Basic.get.
  rewrite Hs, Hknee, Helbow, H110, H75, H85. cbv zeta.
  change (flt (of_Z 0) (of_Z 130)) with true.
  change (flt (of_Z 0) (of_Z 150)) with true.
  change (fle (of_Z 140) (of_Z 0)) with false.
  cbn [orb andb app].
  split.
  - repeat case_match; cbn [fold_left app Basic.f_severity]; 
      change (Basic.severity_penalty "high") with 10;
      change (Basic.severity_penalty "medium") with 5;
      change (Basic.severity_penalty "low") with 2;
      change (Basic.severity_penalty "critical") with 15; lia.
  - intros t Ht. unfold standing_faults in Ht.
    repeat (apply elem_of_cons in Ht as [->|Ht]); [..|by apply elem_of_nil in Ht];
      repeat case_match; cbn [fmap list_fmap app Basic.f_type]; by repeat constructor.
Qed.

Lemma calculate_golf_angles_entries (landmarks : list Basic.Landmark)
    (angles : gmap string pyfloat) :
  Basic.calculate_golf_angles landmarks = Ok angles →
  ∃ left_shoulder right_shoulder,
    landmarks !! 11%nat = Some left_shoulder ∧
    landmarks !! 12%nat = Some right_shoulder ∧
    angles !! "shoulder_rotation"
      = Some (Fin (Basic.qabs (Basic.x left_shoulder - Basic.x right_shoulder)
                   * qc 180)%Qc) ∧
    angles !! "knee_flex" = None ∧
    angles !! "elbow_angle" = None.
Proof.
  unfold Basic.calculate_golf_angles, list_index.
  destruct (landmarks !! 11%nat) as [ls|]; [|discriminate].
  destruct (landmarks !! 12%nat) as [rs|]; [|discriminate].
  destruct (landmarks !! 23%nat) as [lh|]; [|discriminate].
  destruct (landmarks !! 24%nat) as [rh|]; [|discriminate].
  res_simpl. cbv zeta. intros <-%Ok_inj. exists ls, rs.
  split; [done|]. split; [done|].
  split; [|split].
  - rewrite !lookup_insert_ne by done. by rewrite lookup_insert.
  - by rewrite !lookup_insert_ne, lookup_empty by done.
  - by rewrite !lookup_insert_ne, lookup_empty by done.
Qed.

Section DetectedProps.
Context {Image : Type} `{Basic.Vision Image}.

Lemma analyze_uncached_limited (self : Basic.Analyzer) (image : Image) (h : Z) :
  cache_limited self →
  detected_output_limited (Basic.analyze_uncached self image h).1 ∧
  cache_limited (Basic.analyze_uncached self image h).2.
Proof.
  intros Hself. unfold Basic.analyze_uncached.
  assert (Hkeep : cache_limited {| Basic.last_result := Basic.last_result self;
                                   Basic.last_image_hash := Some h |}).
  { intros o Ho. by apply Hself. }
  destruct (Basic.pose_process image) as [[pose_landmarks|]|e];
    [|split; [intros [=]|done]|split; [|done]]; cycle 1.
  { unfold Basic.fallback_output. cbv zeta. by repeat case_match; intros [=]. }
  cbv zeta.
  destruct (Basic.is_golf_posture _) eqn:Hposture; [|split; [intros [=]|done]].
  destruct (Basic.calculate_golf_angles pose_landmarks) as [angles|e] eqn:Hangles;
    cycle 1.
  { split; [|done]. unfold Basic.fallback_output. cbv zeta.
    by repeat case_match; intros [=]. }
  assert (Hlimited : detected_output_limited
    {| Basic.detected := true;
       Basic.landmarks :=
         Some (imap (λ idx landmark, {| Basic.id := idx; Basic.row := landmark |})
                    pose_landmarks);
       Basic.angles := Some angles;
       Basic.faults :=
         Some (Basic.detect_swing_faults angles
                 (imap (λ idx landmark, {| Basic.id := idx; Basic.row := landmark |})
                       pose_landmarks));
       Basic.score :=
         Basic.calculate_score angles
           (Basic.detect_swing_faults angles
              (imap (λ idx landmark, {| Basic.id := idx; Basic.row := landmark |})
                    pose_landmarks));
       Basic.error := None; Basic.fallback := None; Basic.error_type := None |}).
  { intros _. cbn [Basic.score Basic.faults].
    destruct (is_golf_posture_shoulders _ Hposture) as (lr & rr & Hlr & Hrr & Hwidth).
    destruct (calculate_golf_angles_entries _ _ Hangles)
      as (ls & rs & Hls & Hrs & Hshoulder & Hknee & Helbow).
    rewrite list_lookup_imap, Hls in Hlr. rewrite list_lookup_imap, Hrs in Hrr.
    injection Hlr as <-. injection Hrr as <-. cbn [Basic.row] in Hwidth.
    apply qltb_false_le in Hwidth.
    destruct (narrow_shoulders_limited angles
                (imap (λ idx landmark, {| Basic.id := idx; Basic.row := landmark |})
                      pose_landmarks) _ Hshoulder) as [Hscore Hfaults];
      [qc_arith|done|done|].
    split; [done|]. by eexists. }
  split; [done|]. intros o [= <-]. done.
Qed.

Lemma analyze_image_limited (self : Basic.Analyzer) (input : string) :
  cache_limited self →
  detected_output_limited (Basic.analyze_image self input).1 ∧
  cache_limited (Basic.analyze_image self input).2.
Proof.
  intros Hself. unfold Basic.analyze_image.
  destruct (Basic.decode_input input) as [[image|]|e];
    [|split; [intros [=]|done]..].
  destruct (Basic.last_result self) as [cached|] eqn:Hcached;
    [|by apply analyze_uncached_limited].
  case_bool_decide; [|by apply analyze_uncached_limited].
  split; [by apply Hself|done].
Qed.

(** X14: in every sequence of calls on a new instance, a result that
    reports a golf posture has a score of at most 68 and lists the faults
    insufficient_turn, knee_flex_issue and bent_arm: a posture passes
    [is_golf_posture] only with its shoulders at most 0.35 apart, which
    [calculate_golf_angles] turns into a shoulder rotation of at most 63
    degrees, and the angles have no knee and no elbow entry. *)
Theorem detected_posture_score_at_most_68 (inputs : list string) :
  Forall detected_output_limited (Basic.analyze_images Basic.new_analyzer inputs).1.
Proof.
  assert (Hseq : ∀ self, cache_limited self →
            Forall detected_output_limited (Basic.analyze_images self inputs).1).
  { induction inputs as [|input rest IH]; intros self Hself; [constructor|].
    cbn [Basic.analyze_images].
    destruct (analyze_image_limited self input Hself) as [Hout Hnext].
    destruct (Basic.analyze_image self input) as [output self1].
    specialize (IH self1 Hnext).
    destruct (Basic.analyze_images self1 rest) as [outputs self2].
    by constructor. }
  apply Hseq. intros o [=].
Qed.

End DetectedProps.

Lemma detected_posture_score_at_most_68_witness :
  ∃ o, (Basic.analyze_images (H := three_frames) Basic.new_analyzer ["a"]).1 = [o] ∧
       Basic.detected o = true ∧ Basic.score o ≤ 68.
Proof.
  pose proof (detected_posture_score_at_most_68 (H := three_frames) ["a"]) as Hall.
  destruct (Basic.analyze_images (H := three_frames) Basic.new_analyzer ["a"]).1
    as [|o [|o' outputs]] eqn:Houtputs; try (by vm_compute in Houtputs).
  exists o. split; [reflexivity|].
  assert (Hdetected : Basic.detected o = true).
  { vm_compute in Houtputs. by injection Houtputs as <-. }
  split; [exact Hdetected|].
  apply Forall_cons in Hall as [Ho _]. by destruct (Ho Hdetected).
Defined.

(** The golfer of the examples is reported with four faults and a score
    of 48. *)
Example detected_golfer_score :
  ∃ o, (Basic.analyze_images (H := three_frames) Basic.new_analyzer ["a"]).1 = [o] ∧
       Basic.detected o = true ∧ Basic.score o = 48.
Proof. eexists. split; [by vm_compute|]. split; [done|]. by vm_compute. Qed.

(** ** The histories of [AdvancedGolfAnalyzer] *)

Lemma deque_append_recent {A} (l : list A) (x : A) (n : nat) :
  n = length l →
  deque_append 30 (drop (n - 30)%nat l) x = drop (n + 1 - 30)%nat (l ++ [x]).
Proof.
  intros ->. unfold deque_append. rewrite length_drop.
  case_decide as Hlen.
  - assert (length l - 30 = 0)%nat as -> by lia.
    assert (length l + 1 - 30 = 0)%nat as -> by lia. done.
  - rewrite drop_drop, drop_app_le by lia. do 2 f_equal. lia.
Qed.

Lemma update_histories_snoc (self : History) (frames : list (FrameLandmarks * Angles))
    (landmarks : FrameLandmarks) (angles : Angles) :
  update_histories self (frames ++ [(landmarks, angles)])
  = update_history (update_histories self frames) landmarks angles.
Proof. unfold update_histories. by rewrite fold_left_app. Qed.

(** X15: after the frames of a video have been recorded on a new
    instance, the frame and angle histories hold the last 30 of them in
    their order, and the velocity history has one entry for each recorded
    frame but the first, at most 30. *)
Theorem update_histories_recent (frames : list (FrameLandmarks * Angles)) :
  frame_history (update_histories new_history frames)
    = drop (length frames - 30)%nat frames.*1 ∧
  angle_history (update_histories new_history frames)
    = drop (length frames - 30)%nat frames.*2 ∧
  length (velocity_history (update_histories new_history frames))
    = ((length frames - 1) `min` 30)%nat.
Proof.
  induction frames as [|[landmarks angles] frames (IHf & IHa & IHv)] using rev_ind;
    [done|].
  rewrite update_histories_snoc. unfold update_history. cbv zeta.
  cbn [frame_history angle_history velocity_history].
  rewrite IHf, IHa, !fmap_app, !length_app. cbn [fmap list_fmap length fst snd].
  rewrite (deque_append_recent frames.*1 landmarks) by by rewrite length_fmap.
  rewrite (deque_append_recent frames.*2 angles) by by rewrite length_fmap.
  split; [done|]. split; [done|].
  rewrite length_drop, length_app, length_fmap. cbn [length].
  case_decide as Hlen.
  - destruct (lookup_lt_is_Some_2 (drop (length frames + 1 - 30)%nat (frames.*2 ++ [angles]))
                (length frames + 1 - (length frames + 1 - 30) - 2)%nat) as [prev ->].
    { rewrite length_drop, length_app, length_fmap. cbn [length]. lia. }
    destruct (lookup_lt_is_Some_2 (drop (length frames + 1 - 30)%nat (frames.*2 ++ [angles]))
                (length frames + 1 - (length frames + 1 - 30) - 1)%nat) as [curr ->].
    { rewrite length_drop, length_app, length_fmap. cbn [length]. lia. }
    unfold deque_append. case_decide; rewrite length_app, ?length_drop; cbn [length]; lia.
  - lia.
Qed.

(** ** The analysis of one image by [AdvancedGolfAnalyzer] *)

(** X16: [analyze_single_image] never reports a fault for a detected
    pose: it asks the fault detector for the phase 'unknown', which no
    check looks at.  So the score is 70, 80, 90 or 100, the clamping and
    the deduction per fault have no effect, and the random generator is
    not used. *)
Theorem analyze_single_image_no_faults (angles : Angles) (rng : RandomState) :
  ∃ r, analyze_single_image (Some angles) rng = Ok (r, rng) ∧
       i_success r = true ∧
       i_faults r = Some [] ∧
       i_score r ∈ [70; 80; 90; 100].
Proof.
  unfold analyze_single_image.
  assert (detect_advanced_faults [angles] ["unknown"] rng = Ok ([], rng)) as ->
    by reflexivity.
  res_simpl. cbv zeta. eexists. split; [reflexivity|].
  cbn [i_success i_faults i_score length]. split; [done|]. split; [done|].
  repeat case_match; cbn; repeat first [apply list_elem_of_here | apply list_elem_of_further].
Qed.

(** ** The angle of three points in [ProGolfAnalyzer] *)

Lemma Qclt_0_neq (x : Qc) : (0 < x)%Qc → x ≠ 0%Qc.
Proof. intros Hx ->. by apply (Qclt_not_le _ _ Hx), Qcle_refl. Qed.

Lemma np_clip_fin (c : Qc) :
  ∃ c', Enhanced.np_clip (Fin c) = Fin c' ∧ (qc (-1) ≤ c')%Qc ∧ (c' ≤ qc 1)%Qc.
Proof.
  unfold Enhanced.np_clip, fgt. cbn [flt].
  qltb_cases; eexists; (split; [reflexivity|]); split; qc_arith.
Qed.

Section ProAngle.
Context `{MathLib}.

(** X17: with the 1e-6 in the denominator, [calculate_angle_3points] of
    [ProGolfAnalyzer] returns a number between 0 and 180 for all points,
    coincident ones included (the lengths of the two vectors being not
    negative). *)
Theorem pro_calculate_angle_3points_range (p1 p2 p3 : Pro.Point) :
  (0 ≤ norm2 (Pro.px p1 - Pro.px p2) (Pro.py p1 - Pro.py p2))%Qc →
  (0 ≤ norm2 (Pro.px p3 - Pro.px p2) (Pro.py p3 - Pro.py p2))%Qc →
  ∃ a, Pro.calculate_angle_3points p1 p2 p3 = Fin a ∧ (0 ≤ a)%Qc ∧ (a ≤ qc 180)%Qc.
Proof.
  intros Hn1 Hn2. unfold Pro.calculate_angle_3points. cbv zeta.
  set (n1 := norm2 (Pro.px p1 - Pro.px p2) (Pro.py p1 - Pro.py p2)) in *.
  set (n2 := norm2 (Pro.px p3 - Pro.px p2) (Pro.py p3 - Pro.py p2)) in *.
  assert (Hden : (0 < n1 * n2 + qc (1 # 1000000))%Qc).
  { qc_to_q. assert (0 <= this n1 * this n2)%Q by by apply Qmult_le_0_compat.
    qc_lra. }
  cbn [np_div]. rewrite (proj2 (qeqb_neq _ 0%Qc) (Qclt_0_neq _ Hden)).
  match goal with |- context [Enhanced.np_clip (Fin ?q)] =>
    destruct (np_clip_fin q) as (c & -> & Hlo & Hhi) end.
  unfold Pro.np_arccos_deg.
  rewrite (proj2 (qleb_le _ _) Hlo), (proj2 (qleb_le _ _) Hhi). cbn [andb].
  exists (acos_deg c). split; [done|]. by apply acos_deg_range.
Qed.

End ProAngle.

Lemma pro_calculate_angle_3points_range_witness :
  ∃ a, Pro.calculate_angle_3points (H := coarse_mathlib)
         {| Pro.px := qc 0.5; Pro.py := qc 0.5 |}
         {| Pro.px := qc 0.5; Pro.py := qc 0.5 |}
         {| Pro.px := qc 0.5; Pro.py := qc 0.9 |} = Fin a ∧
       (0 ≤ a)%Qc ∧ (a ≤ qc 180)%Qc.
Proof.
  apply (pro_calculate_angle_3points_range (H := coarse_mathlib)); by vm_compute.
Defined.

(** ** Scores and faults in [ProGolfAnalyzer] *)

Lemma stage_nil {A} (b1 b2 : bool) (l : list A) (a1 a2 : A) :
  (if b1 then l ++ [a1] else if b2 then l ++ [a2] else l) = [] →
  b1 = false ∧ b2 = false ∧ l = [].
Proof. by destruct b1, b2, l. Qed.

Lemma pro_no_fault_cases (f : Pro.ProFeatures) :
  Pro.detect_swing_faults f = [] →
  flt (Pro.x_factor f) (of_Z 30) = false ∧ fgt (Pro.x_factor f) (of_Z 60) = false ∧
  fgt (Pro.spine_angle f) (of_Z 35) = false ∧ flt (Pro.spine_angle f) (of_Z 15) = false ∧
  fgt (Pro.knee_flex f) (of_Z 40) = false ∧ flt (Pro.knee_flex f) (of_Z 15) = false ∧
  flt (Pro.weight_distribution f) (Fin (qc 0.8)) = false ∧
  fgt (Pro.weight_distribution f) (Fin (qc 1.2)) = false ∧
  Pro.head_stability f = true.
Proof.
  unfold Pro.detect_swing_faults. cbv zeta. intros Hnone.
  destruct (Pro.head_stability f); cbn [negb] in Hnone;
    [|by apply app_nil in Hnone as [_ [=]]].
  apply stage_nil in Hnone as (Hw1 & Hw2 & Hnone).
  apply stage_nil in Hnone as (Hk1 & Hk2 & Hnone).
  apply stage_nil in Hnone as (Hs1 & Hs2 & Hnone).
  apply stage_nil in Hnone as (Hx1 & Hx2 & _).
  done.
Qed.

(** X18: a feature vector of numbers for which [detect_swing_faults]
    finds no fault gets a score of at least 76 from
    [calculate_pro_score]. *)
Theorem pro_no_fault_score_at_least_76 (f : Pro.ProFeatures) (x s k w : Qc) :
  Pro.x_factor f = Fin x → Pro.spine_angle f = Fin s →
  Pro.knee_flex f = Fin k → Pro.weight_distribution f = Fin w →
  Pro.detect_swing_faults f = [] →
  76 ≤ Pro.calculate_pro_score (Some f).
Proof.
  intros Hx Hs Hk Hw Hnone.
  destruct (pro_no_fault_cases f Hnone)
    as (Hx30 & Hx60 & Hs35 & Hs15 & Hk40 & Hk15 & _ & _ & Hhead).
  unfold Pro.calculate_pro_score. cbv zeta.
  rewrite Hk40, Hk15, Hhead. rewrite Hx in Hx30, Hx60 |- *. rewrite Hs in Hs35, Hs15 |- *.
  unfold fgt, of_Z in Hx30, Hx60, Hs35, Hs15. cbn [flt] in Hx30, Hx60, Hs35, Hs15.
  apply qltb_false_le in Hx30, Hx60, Hs35, Hs15.
  assert (fle (fabs (fsub (Fin x) (of_Z Pro.ideal_x_factor))) (of_Z 20) = true) as ->.
  { unfold Pro.ideal_x_factor, of_Z. cbn [fsub fopp fadd fabs fle].
    apply qleb_le. qltb_cases; qc_arith. }
  assert (fle (fabs (fsub (Fin s) (of_Z Pro.ideal_spine_tilt))) (of_Z 15) = true) as ->.
  { unfold Pro.ideal_spine_tilt, of_Z. cbn [fsub fopp fadd fabs fle].
    apply qleb_le. qltb_cases; qc_arith. }
  repeat case_match; lia.
Qed.

Lemma pro_no_fault_score_at_least_76_witness :
  76 ≤ Pro.calculate_pro_score
         (Some {| Pro.x_factor := Fin (qc 58); Pro.spine_angle := Fin (qc 34);
                  Pro.knee_flex := Fin (qc 38);
                  Pro.weight_distribution := Fin (qc 0.85);
                  Pro.hands_together := true; Pro.hand_height := Fin (qc 0.7);
                  Pro.head_stability := true; Pro.confidence := Fin (qc 0.5) |}).
Proof.
  by apply (pro_no_fault_score_at_least_76 _ (qc 58) (qc 34) (qc 38) (qc 0.85)).
Defined.

(** The bound is reached, and a vector with NaN for its angles has no
    fault either but gets the lowest score. *)
Example pro_no_fault_scores :
  Pro.calculate_pro_score
    (Some {| Pro.x_factor := Fin (qc 58); Pro.spine_angle := Fin (qc 34);
             Pro.knee_flex := Fin (qc 38); Pro.weight_distribution := Fin (qc 0.85);
             Pro.hands_together := true; Pro.hand_height := Fin (qc 0.7);
             Pro.head_stability := true; Pro.confidence := Fin (qc 0.5) |}) = 76 ∧
  Pro.detect_swing_faults
    {| Pro.x_factor := NaN; Pro.spine_angle := NaN; Pro.knee_flex := NaN;
       Pro.weight_distribution := NaN; Pro.hands_together := true;
       Pro.hand_height := NaN; Pro.head_stability := true;
       Pro.confidence := NaN |} = [] ∧
  Pro.calculate_pro_score
    (Some {| Pro.x_factor := NaN; Pro.spine_angle := NaN; Pro.knee_flex := NaN;
             Pro.weight_distribution := NaN; Pro.hands_together := true;
             Pro.hand_height := NaN; Pro.head_stability := true;
             Pro.confidence := NaN |}) = 70.
Proof. by vm_compute. Qed.

(** ** The frames that [analyze_video] looks at *)

Lemma py_range_length (start stop step : Z) :
  length (Pro.py_range start stop step) = Z.to_nat ((stop - start + step - 1) / step).
Proof. unfold Pro.py_range. by rewrite length_map, length_seq. Qed.

(** The step of the loop and the number of its rounds. *)
Lemma frame_interval_cases (frame_count : Z) :
  frame_count < 20 ∧ Pro.frame_interval frame_count = 1 ∨
  20 ≤ frame_count ∧
  20 * Pro.frame_interval frame_count ≤ frame_count
    < 20 * Pro.frame_interval frame_count + 20.
Proof.
  unfold Pro.frame_interval.
  destruct (Z_lt_le_dec frame_count 20) as [Hlt|Hge].
  - left. split; [done|].
    assert (frame_count / 20 ≤ 0); [|lia].
    apply Z.lt_succ_r. apply Z.div_lt_upper_bound; lia.
  - right. split; [done|].
    assert (1 ≤ frame_count / 20) by (apply Z.div_le_lower_bound; lia).
    rewrite Z.max_r by lia.
    pose proof (Z.mul_div_le frame_count 20 ltac:(lia)).
    pose proof (Z.mul_succ_div_gt frame_count 20 ltac:(lia)). lia.
Qed.

Lemma frame_indices (frame_count : Z) :
  let indices := Pro.py_range 0 frame_count (Pro.frame_interval frame_count) in
  (length indices ≤ 39)%nat ∧
  (20 ≤ frame_count → (20 ≤ length indices)%nat) ∧
  (frame_count = 39 → length indices = 39%nat) ∧
  ∀ i, i ∈ indices → 0 ≤ i < frame_count.
Proof.
  cbv zeta. rewrite !py_range_length.
  pose proof (frame_interval_cases frame_count) as Hdiv.
  assert (Hstep : 1 ≤ Pro.frame_interval frame_count)
    by (unfold Pro.frame_interval; lia).
  set (step := Pro.frame_interval frame_count) in *.
  split; [|split; [|split]].
  - assert ((frame_count - 0 + step - 1) / step < 40); [|lia].
    apply Z.div_lt_upper_bound; lia.
  - intros Hge. assert (20 ≤ (frame_count - 0 + step - 1) / step); [|lia].
    apply Z.div_le_lower_bound; lia.
  - intros ->. by subst step.
  - intros i. unfold Pro.py_range.
    change (map ?f ?l) with (f <$> l). intros (k & -> & Hk%elem_of_seq)%list_elem_of_fmap_1.
    assert (Hlt : Z.of_nat k < (frame_count - 0 + step - 1) / step) by lia.
    assert (Z.of_nat k + 1 ≤ (frame_count - 0 + step - 1) / step) by lia.
    assert (step * (Z.of_nat k + 1) ≤ frame_count - 0 + step - 1).
    { etrans; [apply Z.mul_le_mono_nonneg_l; [lia|eassumption]|].
      apply Z.mul_div_le. lia. }
    nia.
Qed.

Section FrameLoopProps.
Context {Frame Result : Type}.
Variable read_frame : Z → res (option Frame).
Variable analyze_video_frame : Frame → option Result.

(** The time of a frame is computed without an exception. *)
Lemma timestamp_ok (fps : pyfloat) (i : Z) :
  ∃ t, (if fgt fps (of_Z 0) then float_truediv (of_Z i) fps else Ok (of_Z 0)) = Ok t.
Proof.
  destruct (fgt fps (of_Z 0)) eqn:Hfps; [|by eexists].
  apply float_truediv_ok. intros ->. discriminate.
Qed.

(** The frames kept by the loop are among the frames it asks for, in
    their order. *)
Lemma frame_loop_sublist (fps : pyfloat) (pre indices : list Z)
    (frame_results final : list (Pro.FrameResult Result)) :
  sublist (Pro.frame_number <$> frame_results) pre →
  Pro.frame_loop read_frame analyze_video_frame fps indices frame_results = Ok final →
  sublist (Pro.frame_number <$> final) (pre ++ indices).
Proof.
  revert pre frame_results. induction indices as [|i indices IH]; intros pre acc Hsub.
  - cbn [Pro.frame_loop]. intros [= <-]. by rewrite app_nil_r.
  - cbn [Pro.frame_loop].
    destruct (read_frame i) as [[frame|]|e]; res_simpl; [| |discriminate].
    + replace (pre ++ i :: indices) with ((pre ++ [i]) ++ indices)
        by by rewrite <- app_assoc.
      destruct (analyze_video_frame frame) as [result|].
      * destruct (timestamp_ok fps i) as [t ->]. res_simpl.
        apply IH. rewrite fmap_app. by apply sublist_app.
      * apply IH. by apply sublist_inserts_r.
    + intros [= <-]. by apply sublist_inserts_r.
Qed.

(** When every frame asked for is read and shows a pose, all of them are
    kept. *)
Lemma frame_loop_all (fps : pyfloat) (indices : list Z)
    (frame_results : list (Pro.FrameResult Result)) :
  (∀ i, i ∈ indices →
     ∃ frame result, read_frame i = Ok (Some frame) ∧
                     analyze_video_frame frame = Some result) →
  ∃ final,
    Pro.frame_loop read_frame analyze_video_frame fps indices frame_results = Ok final ∧
    Pro.frame_number <$> final = (Pro.frame_number <$> frame_results) ++ indices.
Proof.
  revert frame_results. induction indices as [|i indices IH]; intros acc Hall.
  - exists acc. by rewrite app_nil_r.
  - cbn [Pro.frame_loop].
    destruct (Hall i) as (frame & result & -> & Hresult); [apply list_elem_of_here|].
    res_simpl. rewrite Hresult.
    destruct (timestamp_ok fps i) as [t ->]. res_simpl.
    edestruct IH as (final & -> & Hfinal).
    + intros j Hj. apply Hall. by apply list_elem_of_further.
    + exists final. split; [done|].
      rewrite Hfinal, fmap_app, <- app_assoc. done.
Qed.

(** X19: the frames that the loop of [analyze_video] keeps are among the
    frames [range(0, frame_count, frame_interval)] of the video, in their
    order, so there are fewer than 40 of them; the loop ends at the first
    frame that cannot be read.  When every frame asked for is read and
    shows a pose, the loop keeps all of them: at least 20 frames of a
    video with 20 frames or more, and all the frames of a video of 39
    frames. *)
Theorem analyze_video_frames_count (frame_count : Z) (fps : pyfloat) :
  (∀ frame_results,
     Pro.analyze_video_frames read_frame analyze_video_frame frame_count fps
       = Ok frame_results →
     sublist (Pro.frame_number <$> frame_results)
             (Pro.py_range 0 frame_count (Pro.frame_interval frame_count)) ∧
     (length frame_results ≤ 39)%nat ∧
     Forall (λ r, 0 ≤ Pro.frame_number r < frame_count) frame_results) ∧
  (∀ i indices, read_frame i = Ok None →
     Pro.frame_loop read_frame analyze_video_frame fps (i :: indices) [] = Ok []) ∧
  ((∀ i, 0 ≤ i < frame_count →
      ∃ frame result, read_frame i = Ok (Some frame) ∧
                      analyze_video_frame frame = Some result) →
   ∃ frame_results,
     Pro.analyze_video_frames read_frame analyze_video_frame frame_count fps
       = Ok frame_results ∧
     Pro.frame_number <$> frame_results
       = Pro.py_range 0 frame_count (Pro.frame_interval frame_count) ∧
     (20 ≤ frame_count → (20 ≤ length frame_results)%nat) ∧
     (frame_count = 39 → length frame_results = 39%nat)).
Proof.
  destruct (frame_indices frame_count) as (Hle & Hge & H39 & Hrange).
  split; [|split].
  - intros frame_results Hr.
    apply (frame_loop_sublist fps []) in Hr; [|done]. cbn [app] in Hr.
    split; [done|]. split.
    + apply sublist_length in Hr. rewrite length_fmap in Hr. lia.
    + apply Forall_forall. intros r Hin. apply Hrange.
      eapply elem_of_submseteq; [|by apply sublist_submseteq].
      by apply list_elem_of_fmap_2.
  - intros i indices Hi. cbn [Pro.frame_loop]. by rewrite Hi.
  - intros Hall. unfold Pro.analyze_video_frames.
    edestruct (frame_loop_all fps) as (final & -> & Hfinal).
    + intros i Hi. apply Hall. by apply Hrange.
    + exists final. split; [done|]. cbn [fmap list_fmap app] in Hfinal.
      split; [done|].
      assert (Hlen : length final
                     = length (Pro.py_range 0 frame_count (Pro.frame_interval frame_count)))
        by by rewrite <- Hfinal, length_fmap.
      rewrite Hlen. by split.
Qed.

End FrameLoopProps.

Lemma analyze_video_frames_count_witness :
  (∃ frame_results,
     Pro.analyze_video_frames truncated_video pose_in_every_frame 100 (of_Z 30)
       = Ok frame_results ∧
     Pro.frame_number <$> frame_results = [0; 5] ∧
     (length frame_results ≤ 39)%nat) ∧
  (∃ frame_results,
     Pro.analyze_video_frames whole_video pose_in_every_frame 100 (of_Z 30)
       = Ok frame_results ∧
     (20 ≤ length frame_results)%nat).
Proof.
  split.
  - destruct (Pro.analyze_video_frames truncated_video pose_in_every_frame 100 (of_Z 30))
      as [frame_results|e] eqn:Hr; [|by vm_compute in Hr].
    exists frame_results. split; [done|]. split.
    + vm_compute in Hr. by injection Hr as <-.
    + by apply (analyze_video_frames_count truncated_video pose_in_every_frame
                  100 (of_Z 30)).
  - destruct (analyze_video_frames_count whole_video pose_in_every_frame 100 (of_Z 30))
      as (_ & _ & Hall).
    destruct Hall as (frame_results & Hr & _ & Hge & _).
    + intros i _. by exists i, i.
    + exists frame_results. split; [done|]. apply Hge. lia.
Defined.
